(** * soxyCheckerGui: the proxy validation engine

    A shallow embedding of [backend/checker] (stats.go, result.go,
    upstream.go, the probe layer, auto_detect.go and manager.go), of the
    part of [backend/app.go] that reads the manager, and the properties of
    its statistics, probes and orchestrator.

    Conventions.
    - Go's [int] and [int64] are 64-bit two's-complement integers (the
      release targets are amd64 and arm64); they are modelled as [Z] with the
      wrap-around of every arithmetic operation written out ([wrap64]).
      [int32] likewise with [wrap32].
    - [float64] is Rocq's primitive binary64 float.
    - Go strings ([ProxyType], [ProxyStatus], addresses, error texts) are
      [string].
    - [map[ProxyType]int] is [gmap string Z].
    - Wall-clock values ([time.Now], [time.Since]) are inputs of the
      operations that read them; the fields of [Stats] that only hold
      wall-clock derived values (StartTime, ElapsedTime, ChecksPerSecond,
      EstimatedTimeRemaining) are left out: nothing else is computed from
      them. *)

From Stdlib Require Import ZArith Lia Bool String List PrimFloat Uint63.
From stdpp Require Import gmap strings list pretty.

Local Open Scope Z_scope.

(** ** Machine integers *)

Module GoInt.

Definition two63 : Z := 9223372036854775808.
Definition two64 : Z := 18446744073709551616.

(** Reduction of a mathematical integer to the int64 it is stored as. *)
Definition wrap64 (z : Z) : Z := (z + two63) mod two64 - two63.

Definition wrap32 (z : Z) : Z := (z + 2147483648) mod 4294967296 - 2147483648.

Definition in_int64 (z : Z) : Prop := - two63 <= z < two63.

(** [a + b], [a - b] on int / int64. *)
Definition add (a b : Z) : Z := wrap64 (a + b).
Definition sub (a b : Z) : Z := wrap64 (a - b).

(** [a / b] on int64: truncated towards zero.  Go panics when [b] is 0;
    [Z.quot] gives 0 there, so the callers below are shown to divide by a
    non-zero count wherever the quotient is used. *)
Definition quot (a b : Z) : Z := wrap64 (Z.quot a b).

(** [len(s)]: the length of a slice as an int.  A slice never holds 2^63
    elements, so the reduction is the identity on every slice a program
    builds. *)
Definition len {A} (l : list A) : Z := wrap64 (Z.of_nat (length l)).

(** [float64(n)] for an int [n]: the nearest binary64 value. *)
Definition to_float64 (n : Z) : float :=
  if 0 <=? n then PrimFloat.of_uint63 (Uint63.of_Z n)
  else if n =? - two63 then PrimFloat.opp (PrimFloat.mul (PrimFloat.of_uint63 (Uint63.of_Z 4611686018427387904)) PrimFloat.two)
  else PrimFloat.opp (PrimFloat.of_uint63 (Uint63.of_Z (- n))).

End GoInt.

(** ** result.go: the result model *)

(** [type ProxyType string] and its constants (manager.go). *)
Definition ProxyType := string.
Definition Auto : ProxyType := "auto".
Definition HTTP : ProxyType := "http".
Definition HTTPS : ProxyType := "https".
Definition SOCKS4 : ProxyType := "socks4".
Definition SOCKS5 : ProxyType := "socks5".
Definition UNKNOWN : ProxyType := "unknown".

(** [type ProxyStatus string] and its constants. *)
Definition ProxyStatus := string.
Definition StatusPending : ProxyStatus := "pending".
Definition StatusChecking : ProxyStatus := "checking".
Definition StatusLive : ProxyStatus := "live".
Definition StatusDead : ProxyStatus := "dead".
Definition StatusError : ProxyStatus := "error".

(** [ProxyResult] without its Timestamp. *)
Record ProxyResult := mkProxyResult {
  Proxy : string;
  Type_ : ProxyType;
  Status : ProxyStatus;
  Latency : Z;
  OutgoingIP : string;
  Country : string;
  CountryCode : string;
  Error : string;
  Anonymous : bool;
  SupportsHTTPS : bool
}.

(** The zero value of the struct, as a composite literal leaves the fields
    it does not name. *)
Definition ProxyResult_zero : ProxyResult :=
  mkProxyResult "" "" "" 0 "" "" "" "" false false.

(** ** stats.go: the statistics record and its tracker *)

Record Stats := mkStats {
  Total : Z;
  Live : Z;
  Dead : Z;
  Errors : Z;
  Pending : Z;
  Checking : Z;
  TypeCounts : gmap string Z;
  SuccessRate : float;
  AverageSpeed : Z;
  ThreadCount : Z
}.

Definition Stats_zero : Stats :=
  mkStats 0 0 0 0 0 0 ∅ PrimFloat.zero 0 0.

Definition set_Live (v : Z) (s : Stats) : Stats :=
  mkStats (Total s) v (Dead s) (Errors s) (Pending s) (Checking s)
          (TypeCounts s) (SuccessRate s) (AverageSpeed s) (ThreadCount s).
Definition set_Dead (v : Z) (s : Stats) : Stats :=
  mkStats (Total s) (Live s) v (Errors s) (Pending s) (Checking s)
          (TypeCounts s) (SuccessRate s) (AverageSpeed s) (ThreadCount s).
Definition set_Errors (v : Z) (s : Stats) : Stats :=
  mkStats (Total s) (Live s) (Dead s) v (Pending s) (Checking s)
          (TypeCounts s) (SuccessRate s) (AverageSpeed s) (ThreadCount s).
Definition set_Pending (v : Z) (s : Stats) : Stats :=
  mkStats (Total s) (Live s) (Dead s) (Errors s) v (Checking s)
          (TypeCounts s) (SuccessRate s) (AverageSpeed s) (ThreadCount s).
Definition set_Checking (v : Z) (s : Stats) : Stats :=
  mkStats (Total s) (Live s) (Dead s) (Errors s) (Pending s) v
          (TypeCounts s) (SuccessRate s) (AverageSpeed s) (ThreadCount s).
Definition set_TypeCounts (v : gmap string Z) (s : Stats) : Stats :=
  mkStats (Total s) (Live s) (Dead s) (Errors s) (Pending s) (Checking s)
          v (SuccessRate s) (AverageSpeed s) (ThreadCount s).
Definition set_SuccessRate (v : float) (s : Stats) : Stats :=
  mkStats (Total s) (Live s) (Dead s) (Errors s) (Pending s) (Checking s)
          (TypeCounts s) v (AverageSpeed s) (ThreadCount s).
Definition set_AverageSpeed (v : Z) (s : Stats) : Stats :=
  mkStats (Total s) (Live s) (Dead s) (Errors s) (Pending s) (Checking s)
          (TypeCounts s) (SuccessRate s) v (ThreadCount s).

(** [m[k]++] on a [map[ProxyType]int]: a missing key reads as 0. *)
Definition incr_count (k : string) (m : gmap string Z) : gmap string Z :=
  <[k := GoInt.add (default 0 (m !! k)) 1]> m.

(** [float64(live) / float64(completed) * 100]. *)
Definition success_rate (live completed : Z) : float :=
  PrimFloat.mul (PrimFloat.div (GoInt.to_float64 live) (GoInt.to_float64 completed))
                (GoInt.to_float64 100).

(** The equation of the counters, as Go evaluates
    [Pending + Checking + Live + Dead + Errors == Total]. *)
Definition counter_equation (s : Stats) : Prop :=
  GoInt.add (GoInt.add (GoInt.add (GoInt.add (Pending s) (Checking s)) (Live s)) (Dead s))
            (Errors s) = Total s.

Module StatsTracker.

(** The tracker: every method holds [mutex] for its whole body, so a
    method is one atomic function of the tracker's state. *)
Record t := mk {
  stats : Stats;
  totalTime : Z;
  totalCount : Z
}.

Definition NewStatsTracker : t := mk Stats_zero 0 0.

Definition Reset (totalProxies : Z) (st : t) : t :=
  mk (mkStats totalProxies 0 0 0 totalProxies 0 ∅ PrimFloat.zero 0 0) 0 0.

(** The recomputation of the success rate shared by [UpdateWithResult] and
    [MarkCheckingAsDead]. *)
Definition recompute_rate (s : Stats) : Stats :=
  let completedChecks := GoInt.add (GoInt.add (Live s) (Dead s)) (Errors s) in
  if 0 <? completedChecks
  then set_SuccessRate (success_rate (Live s) completedChecks) s
  else s.

(** The [switch result.Status] of [UpdateWithResult]. *)
Definition update_status (result : ProxyResult) (st : t) : t :=
  let s := stats st in
  if String.eqb (Status result) StatusLive then
    let s1 := set_Pending (GoInt.sub (Pending s) 1) (set_Live (GoInt.add (Live s) 1) s) in
    if 0 <? Latency result then
      let tt := GoInt.add (totalTime st) (Latency result) in
      let tc := GoInt.add (totalCount st) 1 in
      mk (set_AverageSpeed (GoInt.quot tt tc) s1) tt tc
    else mk s1 (totalTime st) (totalCount st)
  else if String.eqb (Status result) StatusDead then
    mk (set_Pending (GoInt.sub (Pending s) 1) (set_Dead (GoInt.add (Dead s) 1) s))
       (totalTime st) (totalCount st)
  else if String.eqb (Status result) StatusError then
    mk (set_Pending (GoInt.sub (Pending s) 1) (set_Errors (GoInt.add (Errors s) 1) s))
       (totalTime st) (totalCount st)
  else if String.eqb (Status result) StatusChecking then
    mk (set_Pending (GoInt.sub (Pending s) 1) (set_Checking (GoInt.add (Checking s) 1) s))
       (totalTime st) (totalCount st)
  else st.

Definition UpdateWithResult (result : ProxyResult) (st : t) : t :=
  let st1 :=
    if String.eqb (Type_ result) ""
    then st
    else mk (set_TypeCounts (incr_count (Type_ result) (TypeCounts (stats st))) (stats st))
            (totalTime st) (totalCount st) in
  let st2 := update_status result st1 in
  mk (recompute_rate (stats st2)) (totalTime st2) (totalCount st2).

Definition MarkCheckingAsDead (st : t) : t :=
  let s := stats st in
  let s1 := set_Checking 0 (set_Dead (GoInt.add (Dead s) (Checking s)) s) in
  mk (recompute_rate s1) (totalTime st) (totalCount st).

(** [GetStats] copies the fields one by one and the map entry by entry. *)
Definition GetStats (st : t) : Stats :=
  let s := stats st in
  mkStats (Total s) (Live s) (Dead s) (Errors s) (Pending s) (Checking s)
          (map_fold (fun k v acc => <[k := v]> acc) ∅ (TypeCounts s))
          (SuccessRate s) (AverageSpeed s) 0.

(** A run of the tracker over a stream of results, oldest first. *)
Definition feed (rs : list ProxyResult) (st : t) : t :=
  fold_left (fun acc r => UpdateWithResult r acc) rs st.

End StatsTracker.

(** ** The Go libraries the probes call

    The probes reach the network only through [net], [net/http], [net/url]
    and [golang.org/x/net/proxy].  What those calls answer is not the
    repository's code: it is a parameter ([Lib]) of every probe, and the
    calls that open a connection are recorded in the trace of the probe. *)

(** A Go [error]: built by [errors.New] / a library, or wrapping another
    one with [fmt.Errorf("...: %w", err)]. *)
Inductive error : Type :=
  | errors_New (msg : string)
  | fmt_Errorf (prefix : string) (wrapped : error).

(** [err.Error()]. *)
Fixpoint Error_text (e : error) : string :=
  match e with
  | errors_New msg => msg
  | fmt_Errorf prefix wrapped => prefix +:+ Error_text wrapped
  end.

(** A Go result pair [(x, err)]: [Ok x] is [(x, nil)], [Err e] is the zero
    value with [e]. *)
Inductive outcome (A : Type) : Type :=
  | Ok (x : A)
  | Err (e : error).
Arguments Ok {A} x.
Arguments Err {A} e.

Record URL := mkURL {
  Scheme : string;
  Hostname : string;
  Port : string;
  Raw : string
}.

(** The dialers the probes build. *)
Inductive Dialer : Type :=
  | net_Dialer (timeout : Z)
  | socks5_Dialer (address : string) (authUser : option string) (forward : Dialer)
  | url_Dialer (u : URL) (forward : Dialer).

Record Transport := mkTransport {
  tr_Proxy : option URL;
  tr_Dial : Dialer;
  tr_Timeout : Z
}.

Record Request := mkRequest {
  Method : string;
  Target : string;
  Header : list (string * string)
}.

(** An HTTP response: its status code and what [io.ReadAll] of its body
    gives. *)
Record Response := mkResponse {
  StatusCode : Z;
  Body : outcome string
}.

(** An open connection: what a write and the next read of at most [n] bytes
    answer. *)
Record Conn := mkConn {
  conn_Write : list Z -> option error;
  conn_Read : nat -> outcome (list Z)
}.

Record Lib := mkLib {
  url_Parse : string -> outcome URL;
  net_SplitHostPort : string -> option error;
  proxy_SOCKS5 : string -> option string -> Dialer -> option error;
  proxy_FromURL : URL -> Dialer -> option error;
  net_Dial : Dialer -> string -> string -> outcome Conn;
  http_NewRequest : string -> string -> option error;
  client_Do : Transport -> Request -> outcome Response;
  strings_TrimSpace : string -> string
}.

(** What a probe, a detection or the manager does that the outside can see:
    the two callbacks, the start of a quick check, and the calls that open a
    connection. *)
Inductive Event : Type :=
  | Log (msg : string)
  | Update
  | QuickCheck (kind : ProxyType) (proxy : string)
  | NetDial (d : Dialer) (network address : string)
  | HTTPDo (tr : Transport) (req : Request).

(** A computation with a trace. *)
Definition IO (A : Type) : Type := list Event * A.

Definition io_ret {A} (x : A) : IO A := ([], x).

Definition io_bind {A B} (c : IO A) (k : A -> IO B) : IO B :=
  let '(l1, x) := c in
  let '(l2, y) := k x in
  (l1 ++ l2, y).

(** A probe: a traced computation that returns early on the first error. *)
Definition Probe (A : Type) : Type := IO (outcome A).

Definition ok {A} (x : A) : Probe A := io_ret (Ok x).
Definition fail {A} (e : error) : Probe A := io_ret (Err e).

Definition probe_bind {A B} (c : Probe A) (k : A -> Probe B) : Probe B :=
  io_bind c (fun r => match r with Ok x => k x | Err e => fail e end).

Notation "'let*' x ':=' c 'in' k" := (probe_bind c (fun x => k))
  (at level 10, x name, c at level 100, k at level 200).

(** [if err != nil { return "", fmt.Errorf(prefix + "%w", err) }]. *)
Definition wrapping {A} (prefix : string) (c : Probe A) : Probe A :=
  io_bind c (fun r => match r with Ok x => ok x | Err e => fail (fmt_Errorf prefix e) end).

Definition pure_step {A} (r : outcome A) : Probe A := io_ret r.

Definition check (r : option error) : Probe unit :=
  match r with None => ok tt | Some e => fail e end.

Definition dial (lib : Lib) (d : Dialer) (network address : string) : Probe Conn :=
  ([NetDial d network address], net_Dial lib d network address).

Definition do_request (lib : Lib) (tr : Transport) (req : Request) : Probe Response :=
  ([HTTPDo tr req], client_Do lib tr req).

(** [strings.Contains]. *)
Fixpoint strings_Contains (s substr : string) : bool :=
  String.prefix substr s ||
  match s with
  | EmptyString => false
  | String _ s' => strings_Contains s' substr
  end.

(** ** result.go, second part: the protocol probes *)

Definition ErrInvalidProxyFormat : error := errors_New "invalid proxy format".
Definition ErrUnsupportedProxyType : error := errors_New "unsupported proxy type".
Definition ErrProxyConnectionFailed : error := errors_New "proxy connection failed".
Definition ErrEmptyResponse : error := errors_New "empty response from endpoint".

Definition userAgent : string :=
  "Mozilla/5.0 (Windows NT 10.0; Win64; x64) AppleWebKit/537.36 (KHTML, like Gecko) Chrome/91.0.4472.124 Safari/537.36".

Definition browserHeaders : list (string * string) :=
  [ ("User-Agent", userAgent);
    ("Accept", "text/html,application/xhtml+xml,application/xml;q=0.9,image/webp,*/*;q=0.8");
    ("Accept-Language", "en-US,en;q=0.5");
    ("Connection", "keep-alive");
    ("Upgrade-Insecure-Requests", "1") ].

(** [createUpstreamDialer]. *)
Definition createUpstreamDialer (lib : Lib) (upstreamProxy : string)
    (upstreamType : ProxyType) (timeout : Z) : Probe Dialer :=
  let dialer := net_Dialer timeout in
  if String.eqb upstreamType HTTP || String.eqb upstreamType HTTPS then
    let* proxyURL := wrapping "invalid upstream proxy format: "
                       (pure_step (url_Parse lib (upstreamType +:+ "://" +:+ upstreamProxy))) in
    let* _ := check (proxy_FromURL lib proxyURL dialer) in
    ok (url_Dialer proxyURL dialer)
  else if String.eqb upstreamType SOCKS4 then
    let* _ := check (proxy_SOCKS5 lib upstreamProxy (Some "socks4") dialer) in
    ok (socks5_Dialer upstreamProxy (Some "socks4") dialer)
  else if String.eqb upstreamType SOCKS5 then
    let* _ := check (proxy_SOCKS5 lib upstreamProxy None dialer) in
    ok (socks5_Dialer upstreamProxy None dialer)
  else fail ErrUnsupportedProxyType.

(** The request every probe ends with: build a GET of [endpoint], send it
    through [transport], read the body and take its trimmed text as the
    outgoing IP.  [CheckHTTP], [CheckHTTPS], [CheckSOCKS4] and [CheckSOCKS5]
    each spell these lines out; they differ in the headers and in the text
    put before a failed [client.Do]. *)
Definition fetchOutgoingIP (lib : Lib) (transport : Transport) (endpoint : string)
    (headers : list (string * string)) (doFailed : string) : Probe string :=
  let* _ := wrapping "failed to create request: " (check (http_NewRequest lib "GET" endpoint)) in
  let* resp := wrapping doFailed (do_request lib transport (mkRequest "GET" endpoint headers)) in
  let* body := wrapping "failed to read response: " (pure_step (Body resp)) in
  let outgoingIP := strings_TrimSpace lib body in
  if String.eqb outgoingIP "" then fail ErrEmptyResponse else ok outgoingIP.

(** [CheckHTTP] and [CheckHTTPS]: the same body but for the scheme of the
    proxy URL. *)
Definition checkHTTPWith (scheme : string) (lib : Lib) (proxyAddr endpoint : string)
    (timeout : Z) (upstreamProxy : string) (upstreamType : ProxyType) : Probe string :=
  if negb (strings_Contains proxyAddr ":") then fail ErrInvalidProxyFormat else
  let* proxyURL := wrapping "invalid proxy address: "
                     (pure_step (url_Parse lib (scheme +:+ proxyAddr))) in
  let* dialer :=
    (if String.eqb upstreamProxy "" then ok (net_Dialer timeout)
     else wrapping "failed to create upstream connection: "
            (createUpstreamDialer lib upstreamProxy upstreamType timeout)) in
  fetchOutgoingIP lib (mkTransport (Some proxyURL) dialer timeout) endpoint
                  browserHeaders "proxy connection failed: ".

Definition CheckHTTP := checkHTTPWith "http://".
Definition CheckHTTPS := checkHTTPWith "https://".

(** [CheckSOCKS4] and [CheckSOCKS5]: the same body but for the
    authentication marker and the protocol's name in the error texts. *)
Definition checkSOCKSWith (name : string) (auth : option string) (lib : Lib)
    (proxyAddr endpoint : string) (timeout : Z) (upstreamProxy : string)
    (upstreamType : ProxyType) : Probe string :=
  if negb (strings_Contains proxyAddr ":") then fail ErrInvalidProxyFormat else
  let dialer := net_Dialer timeout in
  if negb (String.eqb upstreamProxy "") then
    fail (errors_New ("upstream proxy not supported for " +:+ name +:+ " checks"))
  else
  let* _ := wrapping ("failed to create " +:+ name +:+ " client: ")
              (check (proxy_SOCKS5 lib proxyAddr auth dialer)) in
  let socksDialer := socks5_Dialer proxyAddr auth dialer in
  let* endpointURL := wrapping "invalid endpoint URL: " (pure_step (url_Parse lib endpoint)) in
  let host := Hostname endpointURL in
  let port :=
    if String.eqb (Port endpointURL) "" then
      (if String.eqb (Scheme endpointURL) "https" then "443" else "80")
    else Port endpointURL in
  let* _ := wrapping (name +:+ " connection failed: ")
              (dial lib socksDialer "tcp" (host +:+ ":" +:+ port)) in
  if String.eqb (Scheme endpointURL) "http" || String.eqb (Scheme endpointURL) "https" then
    fetchOutgoingIP lib (mkTransport None socksDialer timeout) endpoint
                    [("User-Agent", userAgent)]
                    ("HTTP request through " +:+ name +:+ " failed: ")
  else ok "Connection successful".

Definition CheckSOCKS4 := checkSOCKSWith "SOCKS4" (Some "socks4").
Definition CheckSOCKS5 := checkSOCKSWith "SOCKS5" None.

(** ** auto_detect.go *)

Definition statusAnswers (resp : Response) : bool :=
  (200 <=? StatusCode resp) && (StatusCode resp <? 500).

(** [checkHTTPQuick] and [checkHTTPSQuick]: a HEAD request of a fixed page
    through the proxy; they differ in the page only. *)
Definition checkHEADQuick (page : string) (lib : Lib) (proxy : string) (timeout : Z)
    : IO bool :=
  match url_Parse lib ("http://" +:+ proxy) with
  | Err _ => io_ret false
  | Ok proxyURL =>
      match http_NewRequest lib "HEAD" page with
      | Some _ => io_ret false
      | None =>
          io_bind (do_request lib (mkTransport (Some proxyURL) (net_Dialer timeout) timeout)
                              (mkRequest "HEAD" page []))
            (fun r => match r with
                      | Err _ => io_ret false
                      | Ok resp => io_ret (statusAnswers resp)
                      end)
      end
  end.

Definition checkHTTPQuick := checkHEADQuick "http://www.google.com".
Definition checkHTTPSQuick := checkHEADQuick "https://www.google.com".

(** The SOCKS4 CONNECT request for 8.8.8.8:80 with an empty user id. *)
Definition socks4Request : list Z := [4; 1; 0; 80; 8; 8; 8; 8; 0].

(** [checkSOCKS4Quick]: the reply is read into a buffer of 8 zero bytes and
    its second byte must be 90. *)
Definition checkSOCKS4Quick (lib : Lib) (proxy : string) (timeout : Z) : IO bool :=
  match net_SplitHostPort lib proxy with
  | Some _ => io_ret false
  | None =>
      io_bind (dial lib (net_Dialer timeout) "tcp" proxy)
        (fun r => match r with
                  | Err _ => io_ret false
                  | Ok conn =>
                      match conn_Write conn socks4Request with
                      | Some _ => io_ret false
                      | None =>
                          match conn_Read conn 8 with
                          | Err _ => io_ret false
                          | Ok bytes =>
                              let response := firstn 8 bytes ++ repeat 0 (8 - length bytes)%nat in
                              io_ret (nth 1 response 0 =? 90)
                          end
                      end
                  end)
  end.

(** [checkSOCKS5Quick]. *)
Definition checkSOCKS5Quick (lib : Lib) (proxy : string) (timeout : Z) : IO bool :=
  match proxy_SOCKS5 lib proxy None (net_Dialer timeout) with
  | Some _ => io_ret false
  | None =>
      io_bind (dial lib (socks5_Dialer proxy None (net_Dialer timeout)) "tcp" "www.google.com:80")
        (fun r => match r with
                  | Err _ => io_ret false
                  | Ok _ => io_ret true
                  end)
  end.

(** The table of [DetectProxyType], in the order of the source. *)
Definition protocols (lib : Lib) : list ((string -> Z -> IO bool) * ProxyType) :=
  [ (checkSOCKS5Quick lib, SOCKS5);
    (checkSOCKS4Quick lib, SOCKS4);
    (checkHTTPSQuick lib, HTTPS);
    (checkHTTPQuick lib, HTTP) ].

Definition errNotDetected : error := errors_New "could not detect proxy type".

(** The loop [for _, protocol := range protocols] over any table.  Each call
    of a [checkFunc] is marked in the trace. *)
Fixpoint detectWith (table : list ((string -> Z -> IO bool) * ProxyType))
    (proxy : string) (timeout : Z) : Probe ProxyType :=
  match table with
  | [] => fail errNotDetected
  | (checkFunc, proxyType) :: rest =>
      io_bind ([QuickCheck proxyType proxy], tt)
        (fun _ => io_bind (checkFunc proxy timeout)
           (fun found => if found then ok proxyType else detectWith rest proxy timeout))
  end.

Definition DetectProxyType (lib : Lib) (proxy : string) (timeout : Z) : Probe ProxyType :=
  detectWith (protocols lib) proxy timeout.

(** ** manager.go: channels *)

(** The channels of the manager carry no value: they are closed to
    broadcast and replaced by fresh ones.  A channel is the number it was
    made with; the store records which ones are closed. *)
Record Chans := mkChans {
  next_chan : nat;
  closed : list nat
}.

Definition make_chan (h : Chans) : nat * Chans :=
  (next_chan h, mkChans (S (next_chan h)) (closed h)).

Definition is_closed (c : nat) (h : Chans) : bool :=
  existsb (Nat.eqb c) (closed h).

(** [close(c)]: closing a closed channel panics ([None]). *)
Definition close_chan (c : nat) (h : Chans) : option Chans :=
  if is_closed c h then None else Some (mkChans (next_chan h) (c :: closed h)).

(** ** manager.go: the manager and its methods *)

Record ProxyCheckRequest := mkRequestOfCheck {
  ProxyList : list string;
  ProxyType_ : ProxyType;
  Endpoint : string;
  Threads : Z;
  UpstreamProxy : string;
  UpstreamType : ProxyType
}.

Module Manager.

(** The fields of [Manager] but its two mutexes.  Every method below
    holds [mutex] from its first line to its return, so it is one atomic
    function of the manager and of the channel store. *)
Record t := mk {
  running : bool;
  paused : bool;
  results : list ProxyResult;
  working : list string;
  stats : Stats;
  stopChan : nat;
  pauseChan : nat;
  resumeChan : nat;
  workerCount : Z;
  pausedWorkerCount : Z
}.

Definition NewManager (h : Chans) : t * Chans :=
  let '(sc, h1) := make_chan h in
  let '(pc, h2) := make_chan h1 in
  let '(rc, h3) := make_chan h2 in
  (mk false false [] [] Stats_zero sc pc rc 0 0, h3).

Definition GetWorkerCount (m : t) : Z := workerCount m.

Definition GetPausedWorkerCount (m : t) : Z := pausedWorkerCount m.

Definition IncrementPausedWorkerCount (m : t) : t :=
  mk (running m) (paused m) (results m) (working m) (stats m)
     (stopChan m) (pauseChan m) (resumeChan m) (workerCount m)
     (GoInt.wrap32 (pausedWorkerCount m + 1)).

Definition ResetPausedWorkerCount (m : t) : t :=
  mk (running m) (paused m) (results m) (working m) (stats m)
     (stopChan m) (pauseChan m) (resumeChan m) (workerCount m) 0.

(** [Stop]: [force] is not read. *)
Definition Stop (force : bool) (m : t) (h : Chans) : t * Chans :=
  if negb (running m) then (m, h)
  else
    let '(sc, h1) :=
      if is_closed (stopChan m) h then make_chan h
      else (stopChan m, mkChans (next_chan h) (stopChan m :: closed h)) in
    (mk false (paused m) (results m) (working m) (stats m)
        sc (pauseChan m) (resumeChan m) (workerCount m) (pausedWorkerCount m), h1).

Definition Pause (m : t) (h : Chans) : option (bool * t * Chans) :=
  if negb (running m) || paused m then Some (false, m, h)
  else
    match close_chan (pauseChan m) h with
    | None => None
    | Some h1 =>
        Some (true,
              mk (running m) true (results m) (working m) (stats m)
                 (stopChan m) (pauseChan m) (resumeChan m) (workerCount m) 0,
              h1)
    end.

Definition SetWorkerCount (count : Z) (m : t) : t :=
  mk (running m) (paused m) (results m) (working m) (stats m)
     (stopChan m) (pauseChan m) (resumeChan m) count (pausedWorkerCount m).

Definition Resume (m : t) (h : Chans) : option (bool * t * Chans) :=
  if negb (running m) || negb (paused m) then Some (false, m, h)
  else
    let '(pc, h1) := make_chan h in
    match close_chan (resumeChan m) h1 with
    | None => None
    | Some h2 =>
        let '(rc, h3) := make_chan h2 in
        Some (true,
              mk (running m) false (results m) (working m) (stats m)
                 (stopChan m) pc rc (workerCount m) (pausedWorkerCount m),
              h3)
    end.

Definition IsPaused (m : t) : bool := paused m.

Definition ForceStop (m : t) (h : Chans) : option (t * Chans) :=
  if negb (running m) then Some (m, h)
  else
    match close_chan (stopChan m) h with
    | None => None
    | Some h1 =>
        let '(sc, h2) := make_chan h1 in
        let '(pc, h3) := make_chan h2 in
        let '(rc, h4) := make_chan h3 in
        Some (mk false false (results m) (working m) (stats m)
                 sc pc rc (workerCount m) 0, h4)
    end.

Definition ForcePause (m : t) (h : Chans) : option (bool * t * Chans) :=
  if negb (running m) || paused m then Some (false, m, h)
  else
    match close_chan (pauseChan m) h with
    | None => None
    | Some h1 =>
        let '(pc, h2) := make_chan h1 in
        Some (true,
              mk (running m) true (results m) (working m) (stats m)
                 (stopChan m) pc (resumeChan m) (workerCount m)
                 (GoInt.wrap32 (workerCount m)),
              h2)
    end.

(** [GetResults] returns a copy of the slice. *)
Definition GetResults (m : t) : list ProxyResult := results m.

Definition ClearResults (m : t) : t :=
  if running m && negb (paused m) then m
  else
    mk (running m) (paused m) [] [] Stats_zero
       (stopChan m) (pauseChan m) (resumeChan m) (workerCount m) (pausedWorkerCount m).

(** [GetStats] copies seven fields (the map entry by entry), leaves the
    others at their zero value and recomputes Pending. *)
Definition GetStats (m : t) : Stats :=
  let s := stats m in
  let copy :=
    mkStats (Total s) (Live s) (Dead s) (Errors s) (Pending s) 0
            (map_fold (fun k v acc => <[k := v]> acc) ∅ (TypeCounts s))
            PrimFloat.zero (AverageSpeed s) 0 in
  set_Pending
    (GoInt.sub (GoInt.sub (GoInt.sub (Total copy) (Live copy)) (Dead copy)) (Errors copy))
    copy.

Definition IsRunning (m : t) : bool := running m.

End Manager.

(** ** manager.go: [Start], the workers and the completion watcher *)

(** [defaultTimeout := 10 * time.Second], in nanoseconds. *)
Definition defaultTimeout : Z := 10 * 1000000000.

(** "Determine proxy type": the requested type, or for [Auto] the detected
    one, [HTTP] when the detection fails. *)
Definition resolveType (lib : Lib) (req : ProxyCheckRequest) (proxy : string) : IO ProxyType :=
  if String.eqb (ProxyType_ req) Auto then
    io_bind (DetectProxyType lib proxy defaultTimeout)
      (fun r => match r with
                | Err err =>
                    ([Log ("Auto-detection failed for " +:+ proxy +:+ ": " +:+ Error_text err)],
                     HTTP)
                | Ok detectedType =>
                    ([Log ("Auto-detected " +:+ proxy +:+ " as " +:+ detectedType)],
                     detectedType)
                end)
  else io_ret (ProxyType_ req).

(** [switch proxyType]: the probe of the resolved type. *)
Definition probeOfType (lib : Lib) (req : ProxyCheckRequest) (proxyType : ProxyType)
    (proxy : string) : Probe string :=
  if String.eqb proxyType HTTP then
    CheckHTTP lib proxy (Endpoint req) defaultTimeout (UpstreamProxy req) (UpstreamType req)
  else if String.eqb proxyType HTTPS then
    CheckHTTPS lib proxy (Endpoint req) defaultTimeout (UpstreamProxy req) (UpstreamType req)
  else if String.eqb proxyType SOCKS4 then
    CheckSOCKS4 lib proxy (Endpoint req) defaultTimeout (UpstreamProxy req) (UpstreamType req)
  else if String.eqb proxyType SOCKS5 then
    CheckSOCKS5 lib proxy (Endpoint req) defaultTimeout (UpstreamProxy req) (UpstreamType req)
  else fail (errors_New ("unsupported proxy type: " +:+ proxyType)).

(** "Set result status based on check outcome". *)
Definition resultOf (proxy : string) (proxyType : ProxyType) (elapsed : Z)
    (r : outcome string) : ProxyResult :=
  match r with
  | Err err =>
      mkProxyResult proxy proxyType "DEAD" elapsed "" "" "" (Error_text err) false false
  | Ok outgoingIP =>
      mkProxyResult proxy proxyType "LIVE" elapsed outgoingIP "" "" "" false false
  end.

(** The default case of the worker's select up to the built result:
    [elapsed] is [time.Since(start).Milliseconds()]. *)
Definition checkProxy (lib : Lib) (req : ProxyCheckRequest) (proxy : string) (elapsed : Z)
    : IO ProxyResult :=
  io_bind (resolveType lib req proxy)
    (fun proxyType =>
       io_bind (probeOfType lib req proxyType proxy)
         (fun r => io_ret (resultOf proxy proxyType elapsed r))).

(** "Update results and stats": the section of the worker under [m.mutex].
    [totalLatency] and [liveCount] are the variables of [Start] that the
    workers share; they are written under [latencyMutex] and read here
    without it, and the read is taken to see the last write. *)
Definition recordResult (result : ProxyResult) (totalLatency liveCount : Z)
    (m : Manager.t) : Manager.t :=
  let s := Manager.stats m in
  let s1 :=
    if String.eqb (Status result) "LIVE" then set_Live (GoInt.add (Live s) 1) s
    else if String.eqb (Status result) "DEAD" then set_Dead (GoInt.add (Dead s) 1) s
    else set_Errors (GoInt.add (Errors s) 1) s in
  let s2 := set_TypeCounts (incr_count (Type_ result) (TypeCounts s1)) s1 in
  let s3 :=
    if 0 <? liveCount then set_AverageSpeed (GoInt.quot totalLatency liveCount) s2 else s2 in
  Manager.mk (Manager.running m) (Manager.paused m)
    (Manager.results m ++ [result])
    (if String.eqb (Status result) "LIVE"
     then Manager.working m ++ [Proxy result] else Manager.working m)
    s3
    (Manager.stopChan m) (Manager.pauseChan m) (Manager.resumeChan m)
    (Manager.workerCount m) (Manager.pausedWorkerCount m).

(** Where a worker goroutine stands. *)
Inductive wstate : Type :=
  | AtRange                            (* at [for proxy := range jobs] *)
  | AtSelect (proxy : string)          (* a job received; at the outer select *)
  | PauseSeen                          (* took the pause case; before the inner select *)
  | Blocked (resume stop : nat)        (* in the inner select, on these channels *)
  | Probing (proxy : string)           (* took the default case; the probe is under way *)
  | Holding (result : ProxyResult)     (* the result is built; before [m.mutex.Lock] *)
  | Exited.                            (* returned; [wg.Done] ran *)

(** One run: the manager, the channel store, and what [Start] shares with
    its goroutines. *)
Record Run := mkRun {
  req : ProxyCheckRequest;
  mgr : Manager.t;
  chans : Chans;
  jobs : list string;
  totalLatency : Z;
  liveCount : Z;
  workers : list wstate;
  watched : bool;
  trace : list Event
}.

Inductive started : Type :=
  | AlreadyRunning                     (* "Check already in progress" *)
  | Panics                             (* [wg.Add] of a negative count *)
  | Started (r : Run).

(** [Start] up to the point where its goroutines exist and none has run.

    The [Run] it builds holds the goroutines this call creates, and no
    schedule has a [Start] among its moves: a run is the life of the
    manager from one [Start] to the next.  [Start] tests [running] only,
    which [Stop] and [ForceStop] clear at once, so the code accepts a
    [Start] while workers of the check just stopped are alive; these then
    append to the [m.results] and [m.stats] of the new check, each with the
    latency totals of its own [Start].  A run is all that happens on the
    manager only when no such worker is left: the statements that need
    this take a manager of [afterChecks]. *)
Definition Start (rq : ProxyCheckRequest) (m : Manager.t) (h : Chans) : started :=
  if Manager.running m then AlreadyRunning
  else if Threads rq <? 0 then Panics
  else
    let '(sc, h1) := make_chan h in
    let '(pc, h2) := make_chan h1 in
    let '(rc, h3) := make_chan h2 in
    let s := mkStats (GoInt.len (ProxyList rq)) 0 0 0 (GoInt.len (ProxyList rq)) 0
                     ∅ PrimFloat.zero 0 (Threads rq) in
    Started
      (mkRun rq
         (Manager.mk true false [] [] s sc pc rc (Threads rq) 0)
         h3
         (ProxyList rq)
         0 0
         (repeat AtRange (Z.to_nat (Threads rq)))
         false
         [ Log ("Total worker threads: " +:+ pretty (Threads rq));
           Log ("Starting proxy check with " +:+ ProxyType_ rq +:+ " type") ]).

(** The moves of a run.  A worker's move names the worker; [ProbeDone]
    carries what the libraries answered during that probe and the measured
    latency; the [Call]s are the methods another goroutine may call.

    [ProbeDone] is the return of a probe.  Not every probe returns:
    [CheckSOCKS5] and [checkSOCKS5Quick] set no deadline on the connection
    they read from, and wait for ever on a peer that stays silent.  Such a
    probe is a worker that stays [Probing]: a schedule is any finite
    sequence of moves, none is bound to hold a [ProbeDone], and no
    statement below takes a worker out of [Probing] by itself. *)
Inductive Label : Type :=
  | Dequeue (w : nat)
  | SelectStop (w : nat)
  | SelectPause (w : nat)
  | SelectDefault (w : nat)
  | AwaitSignals (w : nat)
  | WakeResume (w : nat)
  | WakeStop (w : nat)
  | ProbeDone (w : nat) (lib : Lib) (elapsed : Z)
  | Append (w : nat)
  | WatcherDone
  | CallPause
  | CallResume
  | CallStop (force : bool)
  | CallForcePause
  | CallForceStop
  | CallClearResults
  | CallSetWorkerCount (count : Z).

Definition set_worker (w : nat) (ws : wstate) (evs : list Event) (r : Run) : Run :=
  mkRun (req r) (mgr r) (chans r) (jobs r) (totalLatency r) (liveCount r)
        (<[w := ws]> (workers r)) (watched r) (trace r ++ evs).

Definition set_mgr (m : Manager.t) (h : Chans) (r : Run) : Run :=
  mkRun (req r) m h (jobs r) (totalLatency r) (liveCount r)
        (workers r) (watched r) (trace r).

Definition all_exited (ws : list wstate) : bool :=
  forallb (fun ws => match ws with Exited => true | _ => false end) ws.

(** One move.  [None]: the move is not possible in this state, or panics. *)
Definition step (l : Label) (r : Run) : option Run :=
  let m := mgr r in
  match l with
  | Dequeue w =>
      match workers r !! w with
      | Some AtRange =>
          match jobs r with
          | [] => Some (set_worker w Exited [] r)
          | proxy :: rest =>
              Some (mkRun (req r) m (chans r) rest (totalLatency r) (liveCount r)
                          (<[w := AtSelect proxy]> (workers r)) (watched r) (trace r))
          end
      | _ => None
      end
  | SelectStop w =>
      match workers r !! w with
      | Some (AtSelect _) =>
          if is_closed (Manager.stopChan m) (chans r)
          then Some (set_worker w Exited [] r) else None
      | _ => None
      end
  | SelectPause w =>
      match workers r !! w with
      | Some (AtSelect _) =>
          if is_closed (Manager.pauseChan m) (chans r)
          then Some (set_worker w PauseSeen
                       [Log ("Worker " +:+ pretty (Z.of_nat w) +:+ " paused")] r)
          else None
      | _ => None
      end
  | SelectDefault w =>
      match workers r !! w with
      | Some (AtSelect proxy) =>
          if negb (is_closed (Manager.stopChan m) (chans r))
             && negb (is_closed (Manager.pauseChan m) (chans r))
          then Some (set_worker w (Probing proxy) [Log ("Checking proxy: " +:+ proxy)] r)
          else None
      | _ => None
      end
  | AwaitSignals w =>
      match workers r !! w with
      | Some PauseSeen =>
          Some (set_worker w (Blocked (Manager.resumeChan m) (Manager.stopChan m)) [] r)
      | _ => None
      end
  | WakeResume w =>
      match workers r !! w with
      | Some (Blocked resume _) =>
          if is_closed resume (chans r)
          then Some (set_worker w AtRange
                       [Log ("Worker " +:+ pretty (Z.of_nat w) +:+ " resumed")] r)
          else None
      | _ => None
      end
  | WakeStop w =>
      match workers r !! w with
      | Some (Blocked _ stop) =>
          if is_closed stop (chans r) then Some (set_worker w Exited [] r) else None
      | _ => None
      end
  | ProbeDone w lib elapsed =>
      match workers r !! w with
      | Some (Probing proxy) =>
          let '(evs, result) := checkProxy lib (req r) proxy elapsed in
          let live := String.eqb (Status result) "LIVE" in
          Some (mkRun (req r) m (chans r) (jobs r)
                  (if live then GoInt.add (totalLatency r) (Latency result) else totalLatency r)
                  (if live then GoInt.add (liveCount r) 1 else liveCount r)
                  (<[w := Holding result]> (workers r)) (watched r) (trace r ++ evs))
      | _ => None
      end
  | Append w =>
      match workers r !! w with
      | Some (Holding result) =>
          Some (mkRun (req r) (recordResult result (totalLatency r) (liveCount r) m)
                  (chans r) (jobs r) (totalLatency r) (liveCount r)
                  (<[w := AtRange]> (workers r)) (watched r) (trace r ++ [Update]))
      | _ => None
      end
  | WatcherDone =>
      if all_exited (workers r) && negb (watched r) then
        Some (mkRun (req r)
                (Manager.mk false false (Manager.results m) (Manager.working m)
                   (Manager.stats m) (Manager.stopChan m) (Manager.pauseChan m)
                   (Manager.resumeChan m) (Manager.workerCount m)
                   (Manager.pausedWorkerCount m))
                (chans r) (jobs r) (totalLatency r) (liveCount r) (workers r) true
                (trace r ++ [Log "Proxy check completed"; Update]))
      else None
  | CallPause =>
      match Manager.Pause m (chans r) with
      | Some (_, m', h') => Some (set_mgr m' h' r)
      | None => None
      end
  | CallResume =>
      match Manager.Resume m (chans r) with
      | Some (_, m', h') => Some (set_mgr m' h' r)
      | None => None
      end
  | CallStop force =>
      let '(m', h') := Manager.Stop force m (chans r) in Some (set_mgr m' h' r)
  | CallForcePause =>
      match Manager.ForcePause m (chans r) with
      | Some (_, m', h') => Some (set_mgr m' h' r)
      | None => None
      end
  | CallForceStop =>
      match Manager.ForceStop m (chans r) with
      | Some (m', h') => Some (set_mgr m' h' r)
      | None => None
      end
  | CallClearResults => Some (set_mgr (Manager.ClearResults m) (chans r) r)
  | CallSetWorkerCount count => Some (set_mgr (Manager.SetWorkerCount count m) (chans r) r)
  end.

(** A schedule: the moves of a run in the order they happen. *)
Fixpoint exec (ls : list Label) (r : Run) : option Run :=
  match ls with
  | [] => Some r
  | l :: rest =>
      match step l r with
      | Some r' => exec rest r'
      | None => None
      end
  end.

(** The moves of the workers and of the watcher, as opposed to the calls
    made from outside. *)
Definition internal (l : Label) : bool :=
  match l with
  | CallPause | CallResume | CallStop _ | CallForcePause | CallForceStop
  | CallClearResults | CallSetWorkerCount _ => false
  | _ => true
  end.

(** The run is over: the watcher saw every worker return. *)
Definition completed (r : Run) : bool := watched r.

(** The manager after the checks [earlier], each given as its request and
    its schedule, when each was ended by its watcher before the next was
    started: no worker of an earlier check is alive then.  A new manager
    is the manager after no check. *)
Fixpoint afterChecks (earlier : list (ProxyCheckRequest * list Label))
    (mh : Manager.t * Chans) : option (Manager.t * Chans) :=
  match earlier with
  | [] => Some mh
  | (rq, ls) :: rest =>
      match Start rq (fst mh) (snd mh) with
      | Started r0 =>
          match exec ls r0 with
          | Some r => if completed r then afterChecks rest (mgr r, chans r) else None
          | None => None
          end
      | _ => None
      end
  end.

(** ** The statistics of a result collection, from scratch

    The specification asks that the statistics be a function of the result
    collection: this is that function, written after its words (one counter
    per outcome, pending as what is left of the total, one count per kind,
    the mean latency of the live results, the rate of live results among
    the completed ones), over the statuses the manager writes. *)

Definition isLive (r : ProxyResult) : bool := String.eqb (Status r) "LIVE".
Definition isDead (r : ProxyResult) : bool := String.eqb (Status r) "DEAD".
Definition isOther (r : ProxyResult) : bool := negb (isLive r) && negb (isDead r).

(** The sum of int64 values, as a loop [sum += x] computes it. *)
Definition sum64 (l : list Z) : Z := fold_left GoInt.add l 0.

Definition typeCountsOf (rs : list ProxyResult) : gmap string Z :=
  fold_left (fun acc r => incr_count (Type_ r) acc) rs ∅.

Definition statsFromScratch (total : Z) (rs : list ProxyResult) : Stats :=
  let live := GoInt.len (List.filter isLive rs) in
  let dead := GoInt.len (List.filter isDead rs) in
  let errors := GoInt.len (List.filter isOther rs) in
  let completedChecks := GoInt.add (GoInt.add live dead) errors in
  mkStats total live dead errors
    (GoInt.sub (GoInt.sub (GoInt.sub total live) dead) errors)
    0
    (typeCountsOf rs)
    (if 0 <? completedChecks then success_rate live completedChecks else PrimFloat.zero)
    (if 0 <? live
     then GoInt.quot (sum64 (Latency <$> List.filter isLive rs)) live
     else 0)
    0.

(** A result the tracker counts in its average: live, with a positive
    latency. *)
Definition counted (r : ProxyResult) : bool :=
  String.eqb (Status r) StatusLive && (0 <? Latency r).

(** The exact sum of a list of integers. *)
Definition sumZ (l : list Z) : Z := fold_right Z.add 0 l.

(** ** What a trace shows *)

(** The kinds whose quick check a trace starts, in order. *)
Definition quickChecks (evs : list Event) : list ProxyType :=
  omap (fun e => match e with QuickCheck kind _ => Some kind | _ => None end) evs.

(** The connection attempts of a trace. *)
Definition isConnection (e : Event) : bool :=
  match e with NetDial _ _ _ | HTTPDo _ _ => true | _ => false end.

Definition connections (evs : list Event) : list Event := List.filter isConnection evs.

(** What the probe of a job answers: the outcome of [probeOfType] at the
    resolved type. *)
Definition probeOutcome (lib : Lib) (rq : ProxyCheckRequest) (proxy : string)
    : outcome string :=
  snd (probeOfType lib rq (snd (resolveType lib rq proxy)) proxy).

(** Nothing of what a probe leaves behind differs between two states of a
    run: the same results and statistics, the same queue, and no connection
    attempt or quick check added to the trace. *)
Definition untouched (r r' : Run) : Prop :=
  Manager.results (mgr r') = Manager.results (mgr r) /\
  Manager.stats (mgr r') = Manager.stats (mgr r) /\
  jobs r' = jobs r /\
  connections (trace r') = connections (trace r) /\
  quickChecks (trace r') = quickChecks (trace r).

(** ** Sample libraries, requests and schedules

    Used to run the definitions above on concrete inputs. *)

(** A connection that accepts the request and grants it (SOCKS4 code 90). *)
Definition grantingConn : Conn := mkConn (fun _ => None) (fun _ => Ok [0; 90]).

Definition parseAny (s : string) : outcome URL := Ok (mkURL "http" "target.example" "" s).

(** Every call succeeds; the target answers with an address. *)
Definition liveLib : Lib :=
  mkLib parseAny (fun _ => None) (fun _ _ _ => None) (fun _ _ => None)
        (fun _ _ _ => Ok grantingConn) (fun _ _ => None)
        (fun _ _ => Ok (mkResponse 200 (Ok "198.51.100.7"))) (fun s => s).

(** No connection can be opened. *)
Definition unreachable : error := errors_New "connect: connection refused".

Definition deadLib : Lib :=
  mkLib parseAny (fun _ => None) (fun _ _ _ => None) (fun _ _ => None)
        (fun _ _ _ => Err unreachable) (fun _ _ => None)
        (fun _ _ => Err unreachable) (fun s => s).

(** Only a SOCKS5 dial through the proxy succeeds. *)
Definition socks5OnlyLib : Lib :=
  mkLib parseAny (fun _ => None) (fun _ _ _ => None) (fun _ _ => None)
        (fun d _ _ => match d with
                      | socks5_Dialer _ None _ => Ok grantingConn
                      | _ => Err unreachable
                      end)
        (fun _ _ => None)
        (fun _ _ => Err unreachable) (fun s => s).

Definition emptyChans : Chans := mkChans 0 [].

Definition freshManager : Manager.t := fst (Manager.NewManager emptyChans).
Definition freshChans : Chans := snd (Manager.NewManager emptyChans).

(** The run [Start] sets up on a fresh manager (the request itself when it
    does not start one, which no sample below does). *)
Definition startedRun (rq : ProxyCheckRequest) : Run :=
  match Start rq freshManager freshChans with
  | Started r => r
  | _ => mkRun rq freshManager freshChans [] 0 0 [] false []
  end.

Definition twoProxies : ProxyCheckRequest :=
  mkRequestOfCheck ["192.0.2.1:8080"; "192.0.2.2:8080"] HTTP "http://target.example/ip"
                   1 "" "".

Definition oneProxy : ProxyCheckRequest :=
  mkRequestOfCheck ["192.0.2.1:8080"] HTTP "http://target.example/ip" 1 "" "".

(** One worker, paused while it holds the first job and resumed: the first
    job is dropped, the second is probed. *)
Definition pausedOnce : list Label :=
  [ Dequeue 0; CallPause; SelectPause 0; AwaitSignals 0; CallResume; WakeResume 0;
    Dequeue 0; SelectDefault 0; ProbeDone 0 liveLib 5; Append 0;
    Dequeue 0; WatcherDone ]%nat.

(** One worker probing one live proxy to the end of the run. *)
Definition oneLive : list Label :=
  [ Dequeue 0; SelectDefault 0; ProbeDone 0 liveLib 5; Append 0; Dequeue 0; WatcherDone ]%nat.

(** One worker probing two unreachable proxies to the end of the run. *)
Definition twoDead : list Label :=
  [ Dequeue 0; SelectDefault 0; ProbeDone 0 deadLib 3; Append 0;
    Dequeue 0; SelectDefault 0; ProbeDone 0 deadLib 4; Append 0;
    Dequeue 0; WatcherDone ]%nat.

(** A stop requested while the worker is inside a probe. *)
Definition stoppedMidProbe : list Label :=
  [ Dequeue 0; SelectDefault 0; CallStop true ]%nat.

(** A pause requested while the worker is inside a probe; the worker then
    finishes the probe, records it and blocks on the pause. *)
Definition pausedMidProbe : list Label :=
  [ Dequeue 0; SelectDefault 0; CallPause; ProbeDone 0 liveLib 5; Append 0;
    Dequeue 0; SelectPause 0; AwaitSignals 0 ]%nat.

(** The state a schedule leaves a freshly started run in (the start itself
    when the schedule cannot run). *)
Definition after (ls : list Label) (rq : ProxyCheckRequest) : Run :=
  match exec ls (startedRun rq) with
  | Some r => r
  | None => startedRun rq
  end.

(** ** Invariants of a run *)

(** A channel store is well formed when every closed channel was made. *)
Definition wf_chans (h : Chans) : Prop := Forall (fun c => (c < next_chan h)%nat) (closed h).

(** The workers that hold a job they have neither recorded nor dropped. *)
Definition holdsJob (ws : wstate) : nat :=
  match ws with
  | AtSelect _ | Probing _ | Holding _ => 1
  | _ => 0
  end.

Definition inFlight (ws : list wstate) : nat := sum_list (holdsJob <$> ws).

(** What holds at every point of a run that no call interrupts: each job is
    in the queue, with a worker, or recorded; the stop and pause channels
    are open and no worker waits on them; a worker returns only from an
    empty queue; the watcher runs only after every worker returned. *)
Record uninterrupted (rq : ProxyCheckRequest) (r : Run) : Prop := mkUninterrupted {
  u_req : req r = rq;
  u_count : (length (Manager.results (mgr r)) + inFlight (workers r) + length (jobs r)
             = length (ProxyList rq))%nat;
  u_stop : is_closed (Manager.stopChan (mgr r)) (chans r) = false;
  u_pause : is_closed (Manager.pauseChan (mgr r)) (chans r) = false;
  u_states : Forall (fun ws => match ws with
                               | PauseSeen | Blocked _ _ => False
                               | _ => True
                               end) (workers r);
  u_exited : jobs r = [] \/ Forall (fun ws => ws <> Exited) (workers r);
  u_watched : watched r = true -> Forall (fun ws => ws = Exited) (workers r);
  u_jobs : Forall (fun p => In p (ProxyList rq)) (jobs r);
  u_held : Forall (fun ws => match ws with
                             | AtSelect p | Probing p => In p (ProxyList rq)
                             | _ => True
                             end) (workers r);
  u_workers : length (workers r) = Z.to_nat (Threads rq)
}.

(** The counters of the manager count the results it holds. *)
Record tallied (r : Run) : Prop := mkTallied {
  t_total : Total (Manager.stats (mgr r)) = GoInt.len (ProxyList (req r));
  t_live : Live (Manager.stats (mgr r)) = GoInt.len (List.filter isLive (Manager.results (mgr r)));
  t_dead : Dead (Manager.stats (mgr r)) = GoInt.len (List.filter isDead (Manager.results (mgr r)));
  t_errors : Errors (Manager.stats (mgr r))
             = GoInt.len (List.filter isOther (Manager.results (mgr r)));
  t_types : TypeCounts (Manager.stats (mgr r)) = typeCountsOf (Manager.results (mgr r))
}.

(** Every result recorded or held by a worker is a DEAD one. *)
Record all_dead (r : Run) : Prop := mkAllDead {
  d_results : Forall (fun res => Status res = "DEAD") (Manager.results (mgr r));
  d_held : Forall (fun ws => match ws with
                             | Holding res => Status res = "DEAD"
                             | _ => True
                             end) (workers r)
}.

(** A move of a run in which every probe fails: a move of a worker or of
    the watcher, and when it ends a probe, the libraries at that time fail
    the probe of every endpoint of the batch. *)
Definition failing (rq : ProxyCheckRequest) (l : Label) : Prop :=
  internal l = true /\
  match l with
  | ProbeDone _ lib _ =>
      forall p, In p (ProxyList rq) -> exists e, probeOutcome lib rq p = Err e
  | _ => True
  end.

(** Every job in the queue or with a worker is an endpoint of the batch,
    and the watcher runs only after every worker returned.  This holds at
    every point of every run. *)
Record sourced (rq : ProxyCheckRequest) (r : Run) : Prop := mkSourced {
  s_req : req r = rq;
  s_jobs : Forall (fun p => In p (ProxyList rq)) (jobs r);
  s_held : Forall (fun ws => match ws with
                             | AtSelect p | Probing p => In p (ProxyList rq)
                             | _ => True
                             end) (workers r);
  s_count : (length (Manager.results (mgr r)) + inFlight (workers r) + length (jobs r)
             <= length (ProxyList rq))%nat;
  s_watched : watched r = true -> Forall (fun ws => ws = Exited) (workers r)
}.

(** A move that, when it ends a probe, ends it in a failure for every
    endpoint of the batch. *)
Definition failingProbe (rq : ProxyCheckRequest) (l : Label) : Prop :=
  match l with
  | ProbeDone _ lib _ =>
      forall p, In p (ProxyList rq) -> exists e, probeOutcome lib rq p = Err e
  | _ => True
  end.

(** One worker, paused while it holds the first job and resumed; the probe
    of the second job fails. *)
Definition pausedOnceDead : list Label :=
  [ Dequeue 0; CallPause; SelectPause 0; AwaitSignals 0; CallResume; WakeResume 0;
    Dequeue 0; SelectDefault 0; ProbeDone 0 deadLib 4; Append 0;
    Dequeue 0; WatcherDone ]%nat.

(** The live results that workers hold and have not recorded yet: their
    number and the sum of their latencies. *)
Definition liveHold (ws : wstate) : nat :=
  match ws with
  | Holding res => if isLive res then 1 else 0
  | _ => 0
  end.

Definition heldLatencyOf (ws : wstate) : Z :=
  match ws with
  | Holding res => if isLive res then Latency res else 0
  | _ => 0
  end.

Definition liveHeld (ws : list wstate) : nat := sum_list (liveHold <$> ws).
Definition heldLatency (ws : list wstate) : Z := sumZ (heldLatencyOf <$> ws).

(** What [totalLatency] and [liveCount] of [Start] hold, and what the
    average speed is when no worker holds a live result. *)
Record averaging (r : Run) : Prop := mkAveraging {
  a_count : liveCount r
            = Z.of_nat (length (List.filter isLive (Manager.results (mgr r)))
                        + liveHeld (workers r));
  a_total : totalLatency r
            = GoInt.wrap64 (sumZ (Latency <$> List.filter isLive (Manager.results (mgr r)))
                            + heldLatency (workers r));
  a_quiet : liveHeld (workers r) = 0%nat ->
            AverageSpeed (Manager.stats (mgr r))
            = if 0 <? liveCount r then GoInt.quot (totalLatency r) (liveCount r) else 0;
  a_zero : liveCount r = 0 -> AverageSpeed (Manager.stats (mgr r)) = 0
}.

(** A worker waiting on open channels, or returned. *)
Definition parked (h : Chans) (ws : wstate) : Prop :=
  match ws with
  | Exited => True
  | Blocked resume stop => is_closed resume h = false /\ is_closed stop h = false
  | _ => False
  end.


Definition threeProxies : ProxyCheckRequest :=
  mkRequestOfCheck ["192.0.2.1:8080"; "192.0.2.2:8080"; "192.0.2.3:8080"] HTTP
                   "http://target.example/ip" 1 "" "".

(** One worker: a live result of 10 ms, then a pause during which the
    results are cleared, then after the resume a live result of 20 ms. *)
Definition clearedWhilePaused : list Label :=
  [ Dequeue 0; SelectDefault 0; ProbeDone 0 liveLib 10; Append 0;
    CallPause; Dequeue 0; SelectPause 0; AwaitSignals 0;
    CallClearResults; CallResume; WakeResume 0;
    Dequeue 0; SelectDefault 0; ProbeDone 0 liveLib 20; Append 0;
    Dequeue 0; WatcherDone ]%nat.

(** ** upstream.go: the helpers of [ProxyType] *)

(** [GetProxyTypeFromString]. *)
Definition GetProxyTypeFromString (proxyType : string) : ProxyType :=
  if String.eqb proxyType "http" then HTTP
  else if String.eqb proxyType "https" then HTTPS
  else if String.eqb proxyType "socks4" then SOCKS4
  else if String.eqb proxyType "socks5" then SOCKS5
  else UNKNOWN.

(** [(pt ProxyType) String]. *)
Definition ProxyType_String (pt : ProxyType) : string := pt.

(** [(pt ProxyType) IsValid]. *)
Definition IsValid (pt : ProxyType) : bool :=
  String.eqb pt HTTP || String.eqb pt HTTPS || String.eqb pt SOCKS4 || String.eqb pt SOCKS5.

(** ** result.go: the methods of the result model

    Results are handled through pointers ([*ProxyResult]; a
    [ProxyResultList] is a slice of them).  [Heap] is the store the pointers
    point into and a method is a function of it.  A pointer is an address
    or nil; reading or writing through nil panics ([None]).  A slice is nil
    or holds a list of elements: [append] to nil makes a slice, [len] and
    [range] take nil for empty.  The writes of Timestamp are left out with
    the field. *)

Abbreviation Heap := (list ProxyResult).

Definition ptr := option nat.

Definition slice (A : Type) := option (list A).

Definition elems {A} (s : slice A) : list A := default [] s.

(** [append(s, x)]. *)
Definition slice_append {A} (s : slice A) (x : A) : slice A := Some (elems s ++ [x]).

(** [*p]. *)
Definition load (h : Heap) (p : ptr) : option ProxyResult :=
  match p with
  | Some a => h !! a
  | None => None
  end.

(** [&ProxyResult{...}]: a new address. *)
Definition alloc (v : ProxyResult) (h : Heap) : ptr * Heap := (Some (length h), h ++ [v]).

(** Assignments to fields of [*p]. *)
Definition store (p : ptr) (f : ProxyResult -> ProxyResult) (h : Heap) : option Heap :=
  match p with
  | Some a =>
      match h !! a with
      | Some v => Some (<[a := f v]> h)
      | None => None
      end
  | None => None
  end.

Definition NewPendingResult (proxy : string) (proxyType : ProxyType) (h : Heap) : ptr * Heap :=
  alloc (mkProxyResult proxy proxyType StatusPending 0 "" "" "" "" false false) h.

Definition SetChecking (p : ptr) (h : Heap) : option Heap :=
  store p (fun r => mkProxyResult (Proxy r) (Type_ r) StatusChecking (Latency r) (OutgoingIP r)
                      (Country r) (CountryCode r) (Error r) (Anonymous r) (SupportsHTTPS r)) h.

Definition SetLive (latency : Z) (outgoingIP : string) (p : ptr) (h : Heap) : option Heap :=
  store p (fun r => mkProxyResult (Proxy r) (Type_ r) StatusLive latency outgoingIP
                      (Country r) (CountryCode r) "" (Anonymous r) (SupportsHTTPS r)) h.

Definition SetDead (err : string) (p : ptr) (h : Heap) : option Heap :=
  store p (fun r => mkProxyResult (Proxy r) (Type_ r) StatusDead (Latency r) (OutgoingIP r)
                      (Country r) (CountryCode r) err (Anonymous r) (SupportsHTTPS r)) h.

Definition SetError (err : string) (p : ptr) (h : Heap) : option Heap :=
  store p (fun r => mkProxyResult (Proxy r) (Type_ r) StatusError (Latency r) (OutgoingIP r)
                      (Country r) (CountryCode r) err (Anonymous r) (SupportsHTTPS r)) h.

Definition SetType (proxyType : ProxyType) (p : ptr) (h : Heap) : option Heap :=
  store p (fun r => mkProxyResult (Proxy r) proxyType (Status r) (Latency r) (OutgoingIP r)
                      (Country r) (CountryCode r) (Error r) (Anonymous r) (SupportsHTTPS r)) h.

Definition SetGeoInfo (country countryCode : string) (p : ptr) (h : Heap) : option Heap :=
  store p (fun r => mkProxyResult (Proxy r) (Type_ r) (Status r) (Latency r) (OutgoingIP r)
                      country countryCode (Error r) (Anonymous r) (SupportsHTTPS r)) h.

Definition SetAnonymous (anonymous : bool) (p : ptr) (h : Heap) : option Heap :=
  store p (fun r => mkProxyResult (Proxy r) (Type_ r) (Status r) (Latency r) (OutgoingIP r)
                      (Country r) (CountryCode r) (Error r) anonymous (SupportsHTTPS r)) h.

Definition SetSupportsHTTPS (supportsHTTPS : bool) (p : ptr) (h : Heap) : option Heap :=
  store p (fun r => mkProxyResult (Proxy r) (Type_ r) (Status r) (Latency r) (OutgoingIP r)
                      (Country r) (CountryCode r) (Error r) (Anonymous r) supportsHTTPS) h.

(** [(r *ProxyResult) Clone]: a new result with every field copied. *)
Definition Clone (p : ptr) (h : Heap) : option (ptr * Heap) :=
  match load h p with
  | Some r =>
      Some (alloc (mkProxyResult (Proxy r) (Type_ r) (Status r) (Latency r) (OutgoingIP r)
                     (Country r) (CountryCode r) (Error r) (Anonymous r) (SupportsHTTPS r)) h)
  | None => None
  end.

Module ProxyResultList.

Definition t := slice ptr.

(** The loop [for i, r := range l { result[i] = r.Clone() }]. *)
Fixpoint cloneEach (l : list ptr) (h : Heap) : option (list ptr * Heap) :=
  match l with
  | [] => Some ([], h)
  | r :: rest =>
      match Clone r h with
      | Some (c, h1) =>
          match cloneEach rest h1 with
          | Some (cs, h2) => Some (c :: cs, h2)
          | None => None
          end
      | None => None
      end
  end.

Definition Clone (l : t) (h : Heap) : option (t * Heap) :=
  match l with
  | None => Some (None, h)
  | Some rs =>
      match cloneEach rs h with
      | Some (cs, h') => Some (Some cs, h')
      | None => None
      end
  end.

(** The loop shared by the four selections: [pick r] is what is appended
    for a result the test [keep] accepts; [result] starts as [var result],
    a nil slice. *)
Fixpoint selectLoop {A} (keep : ProxyResult -> bool) (pick : ptr -> ProxyResult -> A)
    (h : Heap) (l : list ptr) (result : slice A) : option (slice A) :=
  match l with
  | [] => Some result
  | p :: rest =>
      match load h p with
      | Some r => selectLoop keep pick h rest (if keep r then slice_append result (pick p r) else result)
      | None => None
      end
  end.

Definition FilterByStatus (status : ProxyStatus) (l : t) (h : Heap) : option t :=
  selectLoop (fun r => String.eqb (Status r) status) (fun p _ => p) h (elems l) None.

Definition FilterByType (proxyType : ProxyType) (l : t) (h : Heap) : option t :=
  selectLoop (fun r => String.eqb (Type_ r) proxyType) (fun p _ => p) h (elems l) None.

Definition GetLiveProxies (l : t) (h : Heap) : option (slice string) :=
  selectLoop (fun r => String.eqb (Status r) StatusLive) (fun _ r => Proxy r) h (elems l) None.

Definition GetLiveProxiesWithType (l : t) (h : Heap) : option (slice string) :=
  selectLoop (fun r => String.eqb (Status r) StatusLive)
             (fun _ r => Type_ r +:+ "://" +:+ Proxy r) h (elems l) None.

End ProxyResultList.

(** A slice as the loops above build it: nil until the first [append]. *)
Definition built {A} (l : list A) : slice A :=
  match l with
  | [] => None
  | _ => Some l
  end.

(** Every pointer of a list points to a result. *)
Definition allValid (h : Heap) (l : list ptr) : bool :=
  forallb (fun p => match load h p with Some _ => true | None => false end) l.

(** What a selection appends, in order. *)
Definition selected {A} (keep : ProxyResult -> bool) (pick : ptr -> ProxyResult -> A)
    (h : Heap) (l : list ptr) : list A :=
  omap (fun p => match load h p with
                 | Some r => if keep r then Some (pick p r) else None
                 | None => None
                 end) l.

(** The test of a selection on the result a pointer points to. *)
Definition pointsTo (h : Heap) (keep : ProxyResult -> bool) (p : ptr) : bool :=
  match load h p with
  | Some r => keep r
  | None => false
  end.

(** ** The statistics of the tracker, from scratch

    What the tracker holds after a stream of results, as a function of the
    stream: one counter per status it knows, pending as what is left, one
    count per non-empty kind, the rate of the live results among the live,
    dead and error ones, the mean of the counted latencies. *)

Definition hasStatus (status : ProxyStatus) (r : ProxyResult) : bool :=
  String.eqb (Status r) status.

Definition trackerFromScratch (total : Z) (rs : list ProxyResult) : Stats :=
  let live := GoInt.len (List.filter (hasStatus StatusLive) rs) in
  let dead := GoInt.len (List.filter (hasStatus StatusDead) rs) in
  let errors := GoInt.len (List.filter (hasStatus StatusError) rs) in
  let checking := GoInt.len (List.filter (hasStatus StatusChecking) rs) in
  let completedChecks := GoInt.add (GoInt.add live dead) errors in
  let cs := Latency <$> List.filter counted rs in
  mkStats total live dead errors
    (GoInt.sub (GoInt.sub (GoInt.sub (GoInt.sub total live) dead) errors) checking)
    checking
    (typeCountsOf (List.filter (fun r => negb (String.eqb (Type_ r) "")) rs))
    (if 0 <? completedChecks then success_rate live completedChecks else PrimFloat.zero)
    (match cs with [] => 0 | _ => GoInt.quot (sum64 cs) (GoInt.len cs) end)
    0.

(** A result still under check taken for a dead one. *)
Definition checkingAsDead (r : ProxyResult) : ProxyResult :=
  if String.eqb (Status r) StatusChecking
  then mkProxyResult (Proxy r) (Type_ r) StatusDead (Latency r) (OutgoingIP r)
         (Country r) (CountryCode r) (Error r) (Anonymous r) (SupportsHTTPS r)
  else r.

(** A stream for the tracker: a live result, one under check, a dead one
    of no kind. *)
Definition sampleStream : list ProxyResult :=
  [ mkProxyResult "192.0.2.1:8080" HTTP StatusLive 10 "198.51.100.7" "" "" "" false false;
    mkProxyResult "192.0.2.2:8080" SOCKS5 StatusChecking 0 "" "" "" "" false false;
    mkProxyResult "192.0.2.3:8080" "" StatusDead 0 "" "" "" "connection refused" false false ].

(** ** upstream.go: the upstream proxy

    An [http.Client] is modelled with its transport: [Transport] holds the
    proxy URL and the dialer of the transport and the timeout of the
    client. *)

Module Upstream.

(** [UpstreamProxy]. *)
Record t := mk {
  Address : string;
  Type_ : ProxyType;
  Timeout : Z
}.

Definition NewUpstreamProxy (address : string) (proxyType : ProxyType) (timeout : Z) : t :=
  mk address proxyType timeout.

Definition CreateDialer (lib : Lib) (up : t) : Probe Dialer :=
  if String.eqb (Address up) "" then ok (net_Dialer (Timeout up))
  else createUpstreamDialer lib (Address up) (Type_ up) (Timeout up).

Definition CreateHTTPTransport (lib : Lib) (up : t) : Probe Transport :=
  if String.eqb (Address up) "" then
    ok (mkTransport None (net_Dialer (Timeout up)) (Timeout up))
  else
    let* upstreamDialer := wrapping "failed to create upstream dialer: " (CreateDialer lib up) in
    ok (mkTransport None upstreamDialer (Timeout up)).

Definition CreateHTTPClient (lib : Lib) (up : t) : Probe Transport :=
  let* transport := CreateHTTPTransport lib up in
  ok (mkTransport (tr_Proxy transport) (tr_Dial transport) (Timeout up)).

(** [TestUpstreamConnection]: the body is not trimmed. *)
Definition TestUpstreamConnection (lib : Lib) (up : t) (endpoint : string) : Probe string :=
  if String.eqb (Address up) "" then fail (errors_New "no upstream proxy specified") else
  let* client := wrapping "failed to create HTTP client: " (CreateHTTPClient lib up) in
  let* _ := wrapping "failed to create request: " (check (http_NewRequest lib "GET" endpoint)) in
  let* resp := wrapping "upstream proxy connection failed: "
                 (do_request lib client
                    (mkRequest "GET" endpoint
                       [ ("User-Agent", userAgent);
                         ("Accept", "text/html,application/xhtml+xml,application/xml;q=0.9,image/webp,*/*;q=0.8");
                         ("Accept-Language", "en-US,en;q=0.5") ])) in
  let* body := wrapping "failed to read response: " (pure_step (Body resp)) in
  if String.eqb body "" then fail ErrEmptyResponse else ok body.

End Upstream.

(** ** The connections of a trace *)

(** A dialer that connects by itself, not through a proxy. *)
Definition isDirect (d : Dialer) : bool :=
  match d with
  | net_Dialer _ => true
  | _ => false
  end.

(** A connection attempt of the detection of [proxy]: straight to the
    candidate, or through it as a SOCKS5 or an HTTP proxy, with no other
    hop. *)
Definition straightTo (proxy : string) (timeout : Z) (e : Event) : Prop :=
  match e with
  | NetDial d network address =>
      network = "tcp" /\
      ((d = net_Dialer timeout /\ address = proxy) \/
       (d = socks5_Dialer proxy None (net_Dialer timeout) /\ address = "www.google.com:80"))
  | HTTPDo tr rq => tr_Dial tr = net_Dialer timeout /\ Method rq = "HEAD"
  | _ => False
  end.

(** A quick check opens at most one connection, straight to the candidate
    or through it. *)
Definition quickCheckOK (proxy : string) (timeout : Z) (evs : list Event) : Prop :=
  Forall (straightTo proxy timeout) evs /\ (length evs <= 1)%nat.

(** ** The results of a run *)

(** What the manager leaves in a result it records for the batch [rq]. *)
Record recorded (rq : ProxyCheckRequest) (res : ProxyResult) : Prop := mkRecorded {
  r_proxy : In (Proxy res) (ProxyList rq);
  r_outcome : (Status res = "LIVE" /\ OutgoingIP res <> "" /\ Error res = "") \/
              (Status res = "DEAD" /\ Error res <> "" /\ OutgoingIP res = "");
  r_type : if String.eqb (ProxyType_ rq) Auto then IsValid (Type_ res) = true
           else Type_ res = ProxyType_ rq;
  r_geo : Country res = "" /\ CountryCode res = "" /\
          Anonymous res = false /\ SupportsHTTPS res = false
}.

(** A property of the results a run holds: of those recorded and of those
    a worker has built and not recorded yet. *)
Definition carried (Q : ProxyResult -> Prop) (r : Run) : Prop :=
  Forall Q (Manager.results (mgr r)) /\
  Forall (fun ws => match ws with Holding res => Q res | _ => True end) (workers r).

(** A batch of one endpoint to be checked as an HTTP proxy through a
    SOCKS5 upstream. *)
Definition viaUpstream : ProxyCheckRequest :=
  mkRequestOfCheck ["192.0.2.1:8080"] HTTP "http://target.example/ip" 1
                   "203.0.113.9:1080" SOCKS5.


(** ** The life of a manager

    What can happen to a manager between two points of a program: a call
    of one of its methods from any goroutine, a worker of some run
    recording its result, the watcher of some run finding its workers gone.
    [None]: the call panics. *)
Inductive Op : Type :=
  | OpStart (rq : ProxyCheckRequest)
  | OpStop (force : bool)
  | OpPause
  | OpResume
  | OpForceStop
  | OpForcePause
  | OpClearResults
  | OpSetWorkerCount (count : Z)
  | OpIncrementPausedWorkerCount
  | OpResetPausedWorkerCount
  | OpRecord (result : ProxyResult) (totalLatency liveCount : Z)
  | OpWatcher.

(** The section of the watcher goroutine under [m.mutex]. *)
Definition watcherDone (m : Manager.t) : Manager.t :=
  Manager.mk false false (Manager.results m) (Manager.working m) (Manager.stats m)
    (Manager.stopChan m) (Manager.pauseChan m) (Manager.resumeChan m)
    (Manager.workerCount m) (Manager.pausedWorkerCount m).

Definition apply_op (o : Op) (s : Manager.t * Chans) : option (Manager.t * Chans) :=
  let '(m, h) := s in
  match o with
  | OpStart rq =>
      match Start rq m h with
      | AlreadyRunning => Some (m, h)
      | Panics => None
      | Started r => Some (mgr r, chans r)
      end
  | OpStop force => Some (Manager.Stop force m h)
  | OpPause => option_map (fun '(_, m', h') => (m', h')) (Manager.Pause m h)
  | OpResume => option_map (fun '(_, m', h') => (m', h')) (Manager.Resume m h)
  | OpForceStop => Manager.ForceStop m h
  | OpForcePause => option_map (fun '(_, m', h') => (m', h')) (Manager.ForcePause m h)
  | OpClearResults => Some (Manager.ClearResults m, h)
  | OpSetWorkerCount count => Some (Manager.SetWorkerCount count m, h)
  | OpIncrementPausedWorkerCount => Some (Manager.IncrementPausedWorkerCount m, h)
  | OpResetPausedWorkerCount => Some (Manager.ResetPausedWorkerCount m, h)
  | OpRecord result totalLatency liveCount => Some (recordResult result totalLatency liveCount m, h)
  | OpWatcher => Some (watcherDone m, h)
  end.

Fixpoint apply_ops (ops : list Op) (s : Manager.t * Chans) : option (Manager.t * Chans) :=
  match ops with
  | [] => Some s
  | o :: rest =>
      match apply_op o s with
      | Some s' => apply_ops rest s'
      | None => None
      end
  end.

(** No [Start] of the list asks for a negative number of threads. *)
Definition sane (o : Op) : Prop :=
  match o with
  | OpStart rq => 0 <= Threads rq
  | _ => True
  end.

(** The channels of a manager are in order: the three are distinct
    channels that were made, the resume channel is open, the stop channel
    is open while a check runs, the pause channel is open while a check
    runs and is not paused. *)
Record ctl_ok (m : Manager.t) (h : Chans) : Prop := mkCtlOk {
  c_wf : wf_chans h;
  c_made : (Manager.stopChan m < next_chan h)%nat /\
           (Manager.pauseChan m < next_chan h)%nat /\
           (Manager.resumeChan m < next_chan h)%nat;
  c_distinct : Manager.stopChan m <> Manager.pauseChan m /\
               Manager.stopChan m <> Manager.resumeChan m /\
               Manager.pauseChan m <> Manager.resumeChan m;
  c_resume : is_closed (Manager.resumeChan m) h = false;
  c_stop : Manager.running m = true -> is_closed (Manager.stopChan m) h = false;
  c_pause : Manager.running m = true -> Manager.paused m = false ->
            is_closed (Manager.pauseChan m) h = false
}.

(** ** The moves left to a run *)

(** How many moves a worker in this state can still make before it needs a
    new job or a signal. *)
Definition rank (ws : wstate) : nat :=
  match ws with
  | Exited => 0
  | AtRange => 1
  | Holding _ | Blocked _ _ => 2
  | Probing _ | PauseSeen => 3
  | AtSelect _ => 4
  end.

Definition weight (r : Run) : nat :=
  (4 * length (jobs r) + sum_list (rank <$> workers r) + (if watched r then 0 else 1))%nat.

Definition isProbe (l : Label) : bool :=
  match l with
  | ProbeDone _ _ _ => true
  | _ => false
  end.

(** The jobs that may still be probed: in the queue, or with a worker that
    has not finished the probe. *)
Definition unprobed (r : Run) : nat :=
  (length (jobs r)
   + sum_list ((fun ws => match ws with AtSelect _ | Probing _ => 1 | _ => 0 end) <$> workers r))%nat.

(** A worker that takes the default case of its select, so begins a probe. *)
Definition beginsProbe (l : Label) : bool :=
  match l with
  | SelectDefault _ => true
  | _ => false
  end.

(** The move that takes a worker of a stopped check towards its return:
    from the head of the loop it takes the next job, from its select the
    stop case, from the pause wait the stop case, and a result it holds it
    appends.  A worker inside a probe has none: it waits for the probe. *)
Definition wayOut (w : nat) (ws : wstate) : option Label :=
  match ws with
  | AtRange => Some (Dequeue w)
  | AtSelect _ => Some (SelectStop w)
  | PauseSeen => Some (AwaitSignals w)
  | Blocked _ _ => Some (WakeStop w)
  | Holding _ => Some (Append w)
  | Probing _ | Exited => None
  end.

(** While a check runs, the workers that wait in the pause wait on the
    stop channel of the manager. *)
Definition waitOnStop (r : Run) : Prop :=
  Manager.running (mgr r) = true ->
  Forall (fun ws => match ws with
                    | Blocked _ stop => stop = Manager.stopChan (mgr r)
                    | _ => True
                    end) (workers r).

(** A stop was asked for: the check is marked as not running, the stop
    channel of the manager is closed, and so is the stop channel every
    waiting worker waits on. *)
Record stopping (r : Run) : Prop := mkStopping {
  st_running : Manager.running (mgr r) = false;
  st_closed : is_closed (Manager.stopChan (mgr r)) (chans r) = true;
  st_waiting : Forall (fun ws => match ws with
                                 | Blocked _ stop => is_closed stop (chans r) = true
                                 | _ => True
                                 end) (workers r)
}.

(** A life of a manager: a check started, paused and left to end; a second
    one stopped; a third one paused by force, resumed and stopped by
    force. *)
Definition sampleLife : list Op :=
  [ OpStart twoProxies; OpPause; OpWatcher;
    OpStart oneProxy; OpStop true;
    OpStart twoProxies; OpForcePause; OpResume; OpForceStop ].


(** Once the watcher has run, the manager is neither running nor paused
    and every worker has returned. *)
Definition ended (r : Run) : Prop :=
  watched r = true ->
  Manager.running (mgr r) = false /\ Manager.paused (mgr r) = false /\
  Forall (fun ws => ws = Exited) (workers r).


(** A run with nothing to probe or nobody to probe it: no result, no
    connection, and every worker at the head of its loop or gone. *)
Record idle (r : Run) : Prop := mkIdle {
  i_results : Manager.results (mgr r) = [];
  i_connections : connections (trace r) = [];
  i_quick : quickChecks (trace r) = [];
  i_workers : Forall (fun ws => ws = AtRange \/ ws = Exited) (workers r);
  i_empty : jobs r = [] \/ workers r = []
}.

(** A batch given no worker. *)
Definition noThreads : ProxyCheckRequest :=
  mkRequestOfCheck ["192.0.2.1:8080"; "192.0.2.2:8080"] HTTP "http://target.example/ip"
                   0 "" "".

(** A manager that has seen one check to its end, that of one live proxy,
    and the run [Start] sets up on it. *)
Definition usedManager : Manager.t := mgr (after oneLive oneProxy).
Definition usedChans : Chans := chans (after oneLive oneProxy).

Definition startedAgain (rq : ProxyCheckRequest) : Run :=
  match Start rq usedManager usedChans with
  | Started r => r
  | _ => startedRun rq
  end.

Definition afterAgain (ls : list Label) (rq : ProxyCheckRequest) : Run :=
  match exec ls (startedAgain rq) with
  | Some r => r
  | None => startedAgain rq
  end.

(** ** app.go: the App over the manager

    What the App hands to the user interface: its own copy of the results
    and the events it emits.  [runtime.EventsEmit] and [fmt.Printf] are
    kept as outputs; [strings.ToLower] is a function of the Go library and
    an argument here. *)

Module backend.

(** [ProxyResult] of the package: [Latency] is a float64, [Geo] takes the
    country. *)
Record ProxyResult := mkProxyResult {
  Proxy : string;
  Type_ : string;
  Status : string;
  Latency : float;
  OutgoingIP : string;
  Geo : string;
  Error : string
}.

(** The data of an emitted event. *)
Inductive Payload : Type :=
  | Text (s : string)
  | Results (rs : list ProxyResult)
  | Progress (paused total : Z) (percent : float).

(** [runtime.EventsEmit(a.ctx, name, data)], or a line on the standard
    output. *)
Inductive Output : Type :=
  | Emit (name : string) (data : Payload)
  | Print (line : string).

End backend.

Module App.

(** The body of the loop of [updateResults]. *)
Definition ofManager (r : ProxyResult) : backend.ProxyResult :=
  backend.mkProxyResult (Proxy r) (Type_ r) (Status r) (GoInt.to_float64 (Latency r))
                        (OutgoingIP r) (Country r) (Error r).

(** [updateResults]: the new [a.results], and the event. *)
Definition updateResults (m : Manager.t) : list backend.ProxyResult * list backend.Output :=
  let managerResults := Manager.GetResults m in
  let results := ofManager <$> managerResults in
  (results, [backend.Emit "results-update" (backend.Results results)]).

(** The test of both loops of [GetWorkingProxies]. *)
Definition isWorking (status : string) : bool :=
  String.eqb status "live" || String.eqb status "working" || String.eqb status "success".

(** A loop [for _, result := range results { if ... { workingProxies =
    append(workingProxies, result.Proxy) } }]. *)
Fixpoint collect {A} (statusOf proxyOf : A -> string) (results : list A)
    (workingProxies : list string) : list string :=
  match results with
  | [] => workingProxies
  | result :: rest =>
      collect statusOf proxyOf rest
        (if isWorking (statusOf result) then workingProxies ++ [proxyOf result]
         else workingProxies)
  end.

(** [GetWorkingProxies]: [results] is [a.results], [m] the manager as the
    call finds it. *)
Definition GetWorkingProxies (ToLower : string -> string) (results : list backend.ProxyResult)
    (m : Manager.t) : list backend.Output * list string :=
  let appResults := results in
  let workingProxies :=
    collect (fun result => ToLower (backend.Status result)) backend.Proxy appResults [] in
  if 0 <? GoInt.len workingProxies then ([], workingProxies)
  else
    let managerResults := Manager.GetResults m in
    let workingProxies := collect Status Proxy managerResults workingProxies in
    ([ backend.Print ("Manager has " +:+ pretty (GoInt.len managerResults) +:+ " total results");
       backend.Print ("Total working proxies found: " +:+ pretty (GoInt.len workingProxies)) ],
     workingProxies).

(** [float64(pausedWorkers) / float64(totalWorkers) * 100]. *)
Definition percent (pausedWorkers totalWorkers : Z) : float :=
  PrimFloat.mul (PrimFloat.div (GoInt.to_float64 pausedWorkers) (GoInt.to_float64 totalWorkers))
                (GoInt.to_float64 100).

(** The polling loop of the goroutine of [PauseCheck], with [attempts]
    iterations left at iteration [i]: [timeout i] says whether the timer
    has fired when the select of iteration [i] runs, [view i] is the
    manager as that iteration finds it. *)
Fixpoint poll (timeout : nat -> bool) (view : nat -> Manager.t) (totalWorkers : Z)
    (attempts i : nat) : list backend.Output :=
  match attempts with
  | O =>
      [ backend.Emit "check-status" (backend.Text "paused");
        backend.Emit "log" (backend.Text "Maximum pause attempts reached, forcing paused state") ]
  | S attempts' =>
      if timeout i then
        [ backend.Emit "check-status" (backend.Text "paused");
          backend.Emit "log" (backend.Text "Pause timeout reached, forcing paused state") ]
      else
        let pausedWorkers := Manager.GetPausedWorkerCount (view i) in
        backend.Emit "pause-progress"
          (backend.Progress pausedWorkers totalWorkers (percent pausedWorkers totalWorkers))
        :: (if (totalWorkers <=? pausedWorkers) && (0 <? totalWorkers) then
              [ backend.Emit "check-status" (backend.Text "paused");
                backend.Emit "log"
                  (backend.Text ("Check paused - all " +:+ pretty pausedWorkers
                                 +:+ " workers stopped")) ]
            else poll timeout view totalWorkers attempts' (S i))
  end.

(** The count of workers the goroutine takes: [m0] is the manager when it
    reads the worker count, [m1] when it reads the statistics. *)
Definition totalWorkers (m0 m1 : Manager.t) : Z :=
  let totalWorkers := Manager.GetWorkerCount m0 in
  let totalWorkers :=
    if totalWorkers <=? 0 then ThreadCount (Manager.GetStats m1) else totalWorkers in
  if totalWorkers <=? 0 then 1 else totalWorkers.

(** The goroutine [PauseCheck] starts once [Pause] has returned true. *)
Definition pauseTracker (m0 m1 : Manager.t) (timeout : nat -> bool) (view : nat -> Manager.t)
    : list backend.Output :=
  let totalWorkers := totalWorkers m0 m1 in
  backend.Emit "check-status" (backend.Text "pausing")
  :: backend.Emit "log" (backend.Text ("Pausing " +:+ pretty totalWorkers +:+ " workers..."))
  :: poll timeout view totalWorkers 300 0.

End App.

(** [strings.ToLower] on a string of ASCII. *)
Fixpoint asciiLower (s : string) : string :=
  match s with
  | EmptyString => EmptyString
  | String c rest =>
      String (if Ascii.leb (Ascii.ascii_of_nat 65) c && Ascii.leb c (Ascii.ascii_of_nat 90)
              then Ascii.ascii_of_nat (Ascii.nat_of_ascii c + 32) else c)
             (asciiLower rest)
  end.

(** A move other than a call of [ForcePause]. *)
Definition notForcePause (l : Label) : bool :=
  match l with
  | CallForcePause => false
  | _ => true
  end.

(** The progress events of a pause in which no worker is counted. *)
Definition noProgress (totalWorkers : Z) (n : nat) : list backend.Output :=
  repeat (backend.Emit "pause-progress"
            (backend.Progress 0 totalWorkers (App.percent 0 totalWorkers))) n.

Arguments GoInt.wrap64 : simpl never.
Arguments GoInt.wrap32 : simpl never.
Arguments GoInt.add : simpl never.
Arguments GoInt.sub : simpl never.
Arguments GoInt.quot : simpl never.
Arguments GoInt.len : simpl never.
Arguments GoInt.to_float64 : simpl never.
Arguments success_rate : simpl never.

(** * Properties *)

(** ** Machine arithmetic *)

Module GoIntFacts.
Import GoInt.

Lemma wrap64_spec (z : Z) :
  exists k, wrap64 z = z + k * 18446744073709551616 /\
            - 9223372036854775808 <= wrap64 z < 9223372036854775808.
Proof.
  unfold wrap64.
  exists (- ((z + two63) / two64)).
  pose proof (Z.div_mod (z + two63) two64 ltac:(unfold two64; lia)) as Hdm.
  pose proof (Z.mod_pos_bound (z + two63) two64 ltac:(unfold two64; lia)) as Hb.
  unfold two63, two64 in *. lia.
Qed.

Lemma add_spec (a b : Z) :
  exists k, add a b = a + b + k * 18446744073709551616 /\
            - 9223372036854775808 <= add a b < 9223372036854775808.
Proof. exact (wrap64_spec (a + b)). Qed.

Lemma sub_spec (a b : Z) :
  exists k, sub a b = a - b + k * 18446744073709551616 /\
            - 9223372036854775808 <= sub a b < 9223372036854775808.
Proof. exact (wrap64_spec (a - b)). Qed.

Lemma len_spec {A} (l : list A) :
  exists k, len l = Z.of_nat (length l) + k * 18446744073709551616 /\
            - 9223372036854775808 <= len l < 9223372036854775808.
Proof. exact (wrap64_spec (Z.of_nat (length l))). Qed.

Lemma wrap64_small (z : Z) : in_int64 z -> wrap64 z = z.
Proof.
  unfold in_int64, two63. intros H. destruct (wrap64_spec z) as (k & Hk & Hr). lia.
Qed.

Lemma wrap64_range (z : Z) : in_int64 (wrap64 z).
Proof. destruct (wrap64_spec z) as (k & _ & Hr). exact Hr. Qed.

Lemma in_int64_iff (z : Z) :
  in_int64 z <-> - 9223372036854775808 <= z < 9223372036854775808.
Proof. reflexivity. Qed.

End GoIntFacts.

(** Adds, for every machine operation in sight, that its value is the exact
    one plus a multiple of 2^64 and in range; what is left is linear
    arithmetic with the operations as atoms. *)
Ltac know_wrap H :=
  let T := type of H in
  lazymatch T with
  | (exists k, ?x = _ /\ _) =>
      lazymatch goal with
      | _ : x = _ + _ * 18446744073709551616 |- _ => fail
      | _ => let k := fresh "k" in let Hk := fresh "Hk" in let Hr := fresh "Hr" in
             destruct H as (k & Hk & Hr)
      end
  end.

Ltac unwrap64 :=
  rewrite ?GoIntFacts.in_int64_iff in *;
  repeat match goal with
  | |- context [GoInt.wrap64 ?t] => know_wrap (GoIntFacts.wrap64_spec t)
  | |- context [GoInt.add ?a ?b] => know_wrap (GoIntFacts.add_spec a b)
  | |- context [GoInt.sub ?a ?b] => know_wrap (GoIntFacts.sub_spec a b)
  | |- context [GoInt.len ?l] => know_wrap (GoIntFacts.len_spec l)
  | H : context [GoInt.wrap64 ?t] |- _ => know_wrap (GoIntFacts.wrap64_spec t)
  | H : context [GoInt.add ?a ?b] |- _ => know_wrap (GoIntFacts.add_spec a b)
  | H : context [GoInt.sub ?a ?b] |- _ => know_wrap (GoIntFacts.sub_spec a b)
  | H : context [GoInt.len ?l] |- _ => know_wrap (GoIntFacts.len_spec l)
  end.


(** ** The equation of the counters *)

Section CounterEquation.

Import StatsTracker.

Lemma recompute_rate_counters (s : Stats) :
  counter_equation (recompute_rate s) <-> counter_equation s.
Proof.
  unfold recompute_rate, counter_equation.
  destruct (0 <? _); reflexivity.
Qed.

Lemma Reset_equation (totalProxies : Z) (st : t) :
  GoInt.in_int64 totalProxies -> counter_equation (stats (Reset totalProxies st)).
Proof.
  intros Hrange. unfold counter_equation, Reset; cbn.
  unwrap64. lia.
Qed.

Lemma update_status_equation (result : ProxyResult) (st : t) :
  counter_equation (stats st) -> counter_equation (stats (update_status result st)).
Proof.
  unfold update_status, counter_equation. intros H.
  repeat (destruct (String.eqb _ _); [ | ]);
    try (destruct (0 <? Latency result));
    cbn; try exact H; unwrap64; lia.
Qed.

Lemma UpdateWithResult_equation (result : ProxyResult) (st : t) :
  counter_equation (stats st) -> counter_equation (stats (UpdateWithResult result st)).
Proof.
  intros H. unfold UpdateWithResult. cbn [stats].
  apply recompute_rate_counters, update_status_equation.
  destruct (String.eqb (Type_ result) ""); [exact H | exact H].
Qed.

Lemma MarkCheckingAsDead_equation (st : t) :
  counter_equation (stats st) -> counter_equation (stats (MarkCheckingAsDead st)).
Proof.
  intros H. unfold MarkCheckingAsDead. cbn [stats].
  apply recompute_rate_counters.
  unfold counter_equation in *; cbn. unwrap64. lia.
Qed.

Lemma tracker_GetStats_equation (st : t) :
  counter_equation (stats st) -> counter_equation (GetStats st).
Proof. intros H. exact H. Qed.

Lemma manager_GetStats_equation (m : Manager.t) :
  GoInt.in_int64 (Total (Manager.stats m)) -> counter_equation (Manager.GetStats m).
Proof.
  intros Hrange. unfold counter_equation, Manager.GetStats; cbn.
  unwrap64. lia.
Qed.

End CounterEquation.

(** ** The average speed of the tracker *)

Section AverageSpeed.

Import StatsTracker.

Lemma recompute_rate_AverageSpeed (s : Stats) :
  AverageSpeed (recompute_rate s) = AverageSpeed s.
Proof. unfold recompute_rate. destruct (0 <? _); reflexivity. Qed.

Lemma recompute_rate_Live (s : Stats) : Live (recompute_rate s) = Live s.
Proof. unfold recompute_rate. destruct (0 <? _); reflexivity. Qed.

Lemma UpdateWithResult_counted (result : ProxyResult) (st : t) :
  counted result = true ->
  let st' := UpdateWithResult result st in
  totalTime st' = GoInt.add (totalTime st) (Latency result) /\
  totalCount st' = GoInt.add (totalCount st) 1 /\
  AverageSpeed (stats st') = GoInt.quot (totalTime st') (totalCount st').
Proof.
  unfold counted. intros [Hlive Hpos]%andb_true_iff.
  unfold UpdateWithResult; cbn [stats totalTime totalCount].
  rewrite recompute_rate_AverageSpeed.
  unfold update_status. rewrite Hlive.
  destruct (String.eqb (Type_ result) ""); cbn [stats totalTime totalCount Latency];
    rewrite Hpos; cbn; auto.
Qed.

Lemma UpdateWithResult_not_counted (result : ProxyResult) (st : t) :
  counted result = false ->
  let st' := UpdateWithResult result st in
  totalTime st' = totalTime st /\
  totalCount st' = totalCount st /\
  AverageSpeed (stats st') = AverageSpeed (stats st).
Proof.
  unfold counted. intros Hc.
  unfold UpdateWithResult; cbn [stats totalTime totalCount].
  rewrite recompute_rate_AverageSpeed.
  unfold update_status.
  destruct (String.eqb (Status result) StatusLive).
  - cbn in Hc. destruct (String.eqb (Type_ result) "");
      cbn [stats totalTime totalCount]; rewrite Hc; cbn; auto.
  - destruct (String.eqb (Type_ result) "");
      repeat (destruct (String.eqb (Status result) _)); cbn; auto.
Qed.

Lemma UpdateWithResult_live_nonpositive (result : ProxyResult) (st : t) :
  Status result = StatusLive -> Latency result <= 0 ->
  Live (stats (UpdateWithResult result st)) = GoInt.add (Live (stats st)) 1 /\
  AverageSpeed (stats (UpdateWithResult result st)) = AverageSpeed (stats st).
Proof.
  intros Hlive Hlat.
  assert (Hc : counted result = false).
  { unfold counted. rewrite Hlive. cbn. apply Z.ltb_ge. exact Hlat. }
  split; [ | apply UpdateWithResult_not_counted; exact Hc ].
  unfold UpdateWithResult; cbn [stats]. rewrite recompute_rate_Live.
  unfold update_status. rewrite Hlive. cbn [String.eqb StatusLive].
  assert (Hl : (0 <? Latency result) = false) by (apply Z.ltb_ge; exact Hlat).
  destruct (String.eqb (Type_ result) ""); cbn; rewrite Hl; reflexivity.
Qed.

Lemma feed_snoc (rs : list ProxyResult) (r : ProxyResult) (st : t) :
  feed (rs ++ [r]) st = UpdateWithResult r (feed rs st).
Proof. unfold feed. rewrite fold_left_app. reflexivity. Qed.

Lemma sum64_snoc (l : list Z) (x : Z) : sum64 (l ++ [x]) = GoInt.add (sum64 l) x.
Proof. unfold sum64. rewrite fold_left_app. reflexivity. Qed.

(** What the tracker holds after a stream of results. *)
Lemma feed_totals (totalProxies : Z) (st0 : t) (rs : list ProxyResult) :
  let st := feed rs (Reset totalProxies st0) in
  let cs := Latency <$> List.filter counted rs in
  totalTime st = sum64 cs /\
  totalCount st = GoInt.len cs /\
  AverageSpeed (stats st) =
    match cs with [] => 0 | _ => GoInt.quot (sum64 cs) (GoInt.len cs) end.
Proof.
  induction rs as [ | r rs IH ] using rev_ind.
  - cbn. repeat split; reflexivity.
  - cbn zeta in *. rewrite feed_snoc, List.filter_app. cbn [List.filter].
    destruct IH as (IHt & IHc & IHa).
    destruct (counted r) eqn:Hc.
    + destruct (UpdateWithResult_counted r (feed rs (Reset totalProxies st0)) Hc)
        as (Ht & Hn & Ha).
      rewrite fmap_app. cbn [fmap list_fmap].
      assert (Ht' : totalTime (UpdateWithResult r (feed rs (Reset totalProxies st0)))
                    = sum64 ((Latency <$> List.filter counted rs) ++ [Latency r])).
      { rewrite Ht, IHt, sum64_snoc. reflexivity. }
      assert (Hn' : totalCount (UpdateWithResult r (feed rs (Reset totalProxies st0)))
                    = GoInt.len ((Latency <$> List.filter counted rs) ++ [Latency r])).
      { rewrite Hn, IHc.
        assert (Hl : Z.of_nat (length ((Latency <$> List.filter counted rs) ++ [Latency r]))
                     = Z.of_nat (length (Latency <$> List.filter counted rs)) + 1).
        { rewrite length_app. cbn. lia. }
        unfold GoInt.len at 2. rewrite Hl.
        unwrap64. lia. }
      repeat split; [ exact Ht' | exact Hn' | ].
      rewrite Ha, Ht', Hn'.
      destruct (Latency <$> List.filter counted rs); reflexivity.
    + destruct (UpdateWithResult_not_counted r (feed rs (Reset totalProxies st0)) Hc)
        as (Ht & Hn & Ha).
      rewrite app_nil_r. rewrite Ht, Hn, Ha. auto.
Qed.

Lemma sumZ_app (l1 l2 : list Z) : sumZ (l1 ++ l2) = sumZ l1 + sumZ l2.
Proof.
  unfold sumZ. induction l1 as [ | x l1 IH ]; cbn; [ reflexivity | rewrite IH; lia ].
Qed.

Lemma sum64_exact (l : list Z) : sum64 l = GoInt.wrap64 (sumZ l).
Proof.
  induction l as [ | x l IH ] using rev_ind.
  - reflexivity.
  - rewrite sum64_snoc, IH, sumZ_app. cbn [sumZ fold_right].
    unwrap64. lia.
Qed.

Lemma quot_exact (a b : Z) :
  0 <= a < GoInt.two63 -> 0 < b -> GoInt.quot a b = Z.quot a b.
Proof.
  intros Ha Hb. unfold GoInt.quot.
  apply GoIntFacts.wrap64_small. unfold GoInt.in_int64, GoInt.two63 in *.
  rewrite Z.quot_div_nonneg by lia.
  pose proof (Z.div_pos a b ltac:(lia) Hb).
  pose proof (Z.div_le_upper_bound a b a Hb ltac:(nia)).
  lia.
Qed.

End AverageSpeed.

(** ** Traced computations *)

Lemma io_bind_snd {A B} (c : IO A) (k : A -> IO B) :
  snd (io_bind c k) = snd (k (snd c)).
Proof. unfold io_bind. destruct c as [l1 x]; cbn. destruct (k x); reflexivity. Qed.

Lemma io_bind_fst {A B} (c : IO A) (k : A -> IO B) :
  fst (io_bind c k) = fst c ++ fst (k (snd c)).
Proof. unfold io_bind. destruct c as [l1 x]; cbn. destruct (k x); reflexivity. Qed.

Lemma quickChecks_app (a b : list Event) :
  quickChecks (a ++ b) = quickChecks a ++ quickChecks b.
Proof. unfold quickChecks. apply omap_app. Qed.

Lemma connections_app (a b : list Event) :
  connections (a ++ b) = connections a ++ connections b.
Proof. unfold connections. apply List.filter_app. Qed.

(** ** Auto-detection *)

Lemma do_request_quickChecks (lib : Lib) (tr : Transport) (rq : Request) :
  quickChecks (fst (do_request lib tr rq)) = [].
Proof. reflexivity. Qed.

Lemma checkHEADQuick_quickChecks (page : string) (lib : Lib) (proxy : string) (timeout : Z) :
  quickChecks (fst (checkHEADQuick page lib proxy timeout)) = [].
Proof.
  unfold checkHEADQuick.
  destruct (url_Parse lib _); [ | reflexivity ].
  destruct (http_NewRequest lib _ _); [ reflexivity | ].
  rewrite io_bind_fst, quickChecks_app. cbn.
  destruct (client_Do lib _ _); reflexivity.
Qed.

Lemma checkSOCKS4Quick_quickChecks (lib : Lib) (proxy : string) (timeout : Z) :
  quickChecks (fst (checkSOCKS4Quick lib proxy timeout)) = [].
Proof.
  unfold checkSOCKS4Quick.
  destruct (net_SplitHostPort lib _); [ reflexivity | ].
  rewrite io_bind_fst, quickChecks_app. cbn.
  destruct (net_Dial lib _ _ _) as [conn | ]; [ | reflexivity ].
  destruct (conn_Write conn _); [ reflexivity | ].
  destruct (conn_Read conn _); reflexivity.
Qed.

Lemma checkSOCKS5Quick_quickChecks (lib : Lib) (proxy : string) (timeout : Z) :
  quickChecks (fst (checkSOCKS5Quick lib proxy timeout)) = [].
Proof.
  unfold checkSOCKS5Quick.
  destruct (proxy_SOCKS5 lib _ _ _); [ reflexivity | ].
  rewrite io_bind_fst, quickChecks_app. cbn.
  destruct (net_Dial lib _ _ _); reflexivity.
Qed.

(** One round of the detection loop. *)
Lemma detectWith_cons (checkFunc : string -> Z -> IO bool) (proxyType : ProxyType)
    (rest : list ((string -> Z -> IO bool) * ProxyType)) (proxy : string) (timeout : Z) :
  quickChecks (fst (checkFunc proxy timeout)) = [] ->
  let answer := snd (checkFunc proxy timeout) in
  snd (detectWith ((checkFunc, proxyType) :: rest) proxy timeout)
    = (if answer then Ok proxyType else snd (detectWith rest proxy timeout)) /\
  quickChecks (fst (detectWith ((checkFunc, proxyType) :: rest) proxy timeout))
    = proxyType :: (if answer then [] else quickChecks (fst (detectWith rest proxy timeout))).
Proof.
  intros Hq. cbn [detectWith].
  repeat (rewrite ?io_bind_snd, ?io_bind_fst, ?quickChecks_app; cbn [fst snd]).
  rewrite Hq. cbn.
  destruct (snd (checkFunc proxy timeout)); cbn; auto.
Qed.

(** What [DetectProxyType] answers and which checks it starts, by the
    answers of the four quick checks. *)
Lemma DetectProxyType_order (lib : Lib) (proxy : string) (timeout : Z) :
  let s5 := snd (checkSOCKS5Quick lib proxy timeout) in
  let s4 := snd (checkSOCKS4Quick lib proxy timeout) in
  let hs := snd (checkHTTPSQuick lib proxy timeout) in
  let h := snd (checkHTTPQuick lib proxy timeout) in
  let run := DetectProxyType lib proxy timeout in
  snd run =
    (if s5 then Ok SOCKS5 else if s4 then Ok SOCKS4
     else if hs then Ok HTTPS else if h then Ok HTTP else Err errNotDetected) /\
  quickChecks (fst run) =
    (if s5 then [SOCKS5] else if s4 then [SOCKS5; SOCKS4]
     else if hs then [SOCKS5; SOCKS4; HTTPS] else [SOCKS5; SOCKS4; HTTPS; HTTP]).
Proof.
  cbn zeta. unfold DetectProxyType, protocols.
  destruct (detectWith_cons (checkSOCKS5Quick lib) SOCKS5
              [(checkSOCKS4Quick lib, SOCKS4); (checkHTTPSQuick lib, HTTPS);
               (checkHTTPQuick lib, HTTP)] proxy timeout
              (checkSOCKS5Quick_quickChecks lib proxy timeout)) as [R5 Q5].
  destruct (detectWith_cons (checkSOCKS4Quick lib) SOCKS4
              [(checkHTTPSQuick lib, HTTPS); (checkHTTPQuick lib, HTTP)] proxy timeout
              (checkSOCKS4Quick_quickChecks lib proxy timeout)) as [R4 Q4].
  destruct (detectWith_cons (checkHTTPSQuick lib) HTTPS
              [(checkHTTPQuick lib, HTTP)] proxy timeout
              (checkHEADQuick_quickChecks _ lib proxy timeout)) as [RS QS].
  destruct (detectWith_cons (checkHTTPQuick lib) HTTP [] proxy timeout
              (checkHEADQuick_quickChecks _ lib proxy timeout)) as [RH QH].
  rewrite R5, Q5, R4, Q4, RS, QS, RH, QH.
  destruct (snd (checkSOCKS5Quick lib proxy timeout)),
           (snd (checkSOCKS4Quick lib proxy timeout)),
           (snd (checkHTTPSQuick lib proxy timeout)),
           (snd (checkHTTPQuick lib proxy timeout)); split; reflexivity.
Qed.

(** A failed detection leaves the job to the HTTP probe. *)
Lemma auto_falls_back_to_http (lib : Lib) (rq : ProxyCheckRequest) (proxy : string)
    (elapsed : Z) (e : error) :
  ProxyType_ rq = Auto ->
  snd (DetectProxyType lib proxy defaultTimeout) = Err e ->
  snd (resolveType lib rq proxy) = HTTP /\
  snd (checkProxy lib rq proxy elapsed) =
    resultOf proxy HTTP elapsed
      (snd (CheckHTTP lib proxy (Endpoint rq) defaultTimeout
              (UpstreamProxy rq) (UpstreamType rq))).
Proof.
  intros Hauto Hdetect.
  assert (Hr : snd (resolveType lib rq proxy) = HTTP).
  { unfold resolveType. rewrite Hauto, String.eqb_refl. cbv iota.
    rewrite io_bind_snd, Hdetect. reflexivity. }
  split; [ exact Hr | ].
  unfold checkProxy. rewrite io_bind_snd, Hr, io_bind_snd. reflexivity.
Qed.

(** ** The probes *)

Lemma eqb_nonempty (s : string) : s <> "" -> String.eqb s "" = false.
Proof. intros H. apply String.eqb_neq. exact H. Qed.

(** A SOCKS probe given an upstream proxy returns before any library call:
    with the format error when the address has no colon, with the
    unsupported-upstream error otherwise. *)
Lemma checkSOCKSWith_upstream (name : string) (auth : option string) (lib : Lib)
    (proxyAddr endpoint : string) (timeout : Z) (upstreamProxy : string)
    (upstreamType : ProxyType) :
  upstreamProxy <> "" ->
  checkSOCKSWith name auth lib proxyAddr endpoint timeout upstreamProxy upstreamType =
    ([], Err (if strings_Contains proxyAddr ":"
              then errors_New ("upstream proxy not supported for " +:+ name +:+ " checks")
              else ErrInvalidProxyFormat)).
Proof.
  intros Hup. unfold checkSOCKSWith.
  destruct (strings_Contains proxyAddr ":"); cbn [negb]; [ | reflexivity ].
  rewrite (eqb_nonempty _ Hup). reflexivity.
Qed.

(** Every probe rejects an address without a colon before any library
    call. *)
Lemma probe_rejects_malformed (lib : Lib) (rq : ProxyCheckRequest) (proxyType : ProxyType)
    (proxy : string) :
  strings_Contains proxy ":" = false ->
  proxyType = HTTP \/ proxyType = HTTPS \/ proxyType = SOCKS4 \/ proxyType = SOCKS5 ->
  probeOfType lib rq proxyType proxy = ([], Err ErrInvalidProxyFormat).
Proof.
  intros Hc [-> | [-> | [-> | ->]]]; unfold probeOfType;
    repeat match goal with
    | |- context [String.eqb ?a ?b] =>
        let v := eval vm_compute in (String.eqb a b) in
        change (String.eqb a b) with v
    end; cbv iota;
    unfold CheckHTTP, CheckHTTPS, CheckSOCKS4, CheckSOCKS5, checkHTTPWith, checkSOCKSWith;
    rewrite Hc; reflexivity.
Qed.

(** The type a job is probed with is the requested one, or for [Auto] one
    of the four of the detection table. *)
Lemma resolveType_supported (lib : Lib) (rq : ProxyCheckRequest) (proxy : string) :
  let ty := snd (resolveType lib rq proxy) in
  (ProxyType_ rq <> Auto /\ ty = ProxyType_ rq) \/
  (ProxyType_ rq = Auto /\ (ty = HTTP \/ ty = HTTPS \/ ty = SOCKS4 \/ ty = SOCKS5)).
Proof.
  cbn zeta. unfold resolveType.
  destruct (String.eqb (ProxyType_ rq) Auto) eqn:Hauto.
  - right. apply String.eqb_eq in Hauto. split; [ exact Hauto | ].
    rewrite io_bind_snd.
    destruct (DetectProxyType_order lib proxy defaultTimeout) as [Hr _].
    cbn zeta in Hr. rewrite Hr.
    destruct (snd (checkSOCKS5Quick lib proxy defaultTimeout)),
             (snd (checkSOCKS4Quick lib proxy defaultTimeout)),
             (snd (checkHTTPSQuick lib proxy defaultTimeout)),
             (snd (checkHTTPQuick lib proxy defaultTimeout)); cbn; auto.
  - left. apply String.eqb_neq in Hauto. split; [ exact Hauto | reflexivity ].
Qed.

Lemma checkProxy_result (lib : Lib) (rq : ProxyCheckRequest) (proxy : string) (elapsed : Z) :
  snd (checkProxy lib rq proxy elapsed) =
    resultOf proxy (snd (resolveType lib rq proxy)) elapsed (probeOutcome lib rq proxy).
Proof. unfold checkProxy, probeOutcome. rewrite !io_bind_snd. reflexivity. Qed.

(** ** The moves of a worker *)

Lemma lookup_set (ws : list wstate) (w : nat) (old new : wstate) :
  ws !! w = Some old -> <[w := new]> ws !! w = Some new.
Proof. intros H. apply list_lookup_insert_eq. eapply lookup_lt_Some. exact H. Qed.

Lemma step_ProbeDone (r : Run) (w : nat) (proxy : string) (lib : Lib) (elapsed : Z) :
  workers r !! w = Some (Probing proxy) ->
  exists r',
    step (ProbeDone w lib elapsed) r = Some r' /\
    workers r' !! w = Some (Holding (snd (checkProxy lib (req r) proxy elapsed))) /\
    mgr r' = mgr r /\ jobs r' = jobs r /\ req r' = req r.
Proof.
  intros Hw. unfold step. rewrite Hw.
  destruct (checkProxy lib (req r) proxy elapsed) as [evs result]. cbn [snd].
  eexists. split; [ reflexivity | ]. cbn.
  split; [ eapply lookup_set; exact Hw | auto ].
Qed.

Lemma step_Append (r : Run) (w : nat) (result : ProxyResult) :
  workers r !! w = Some (Holding result) ->
  exists r',
    step (Append w) r = Some r' /\
    workers r' !! w = Some AtRange /\
    Manager.results (mgr r') = Manager.results (mgr r) ++ [result] /\
    jobs r' = jobs r /\ req r' = req r.
Proof.
  intros Hw. unfold step. rewrite Hw.
  eexists. split; [ reflexivity | ]. cbn.
  split; [ eapply lookup_set; exact Hw | auto ].
Qed.

Lemma untouched_set_worker (w : nat) (ws : wstate) (evs : list Event) (r : Run) :
  connections evs = [] -> quickChecks evs = [] -> untouched r (set_worker w ws evs r).
Proof.
  intros Hc Hq. unfold untouched, set_worker; cbn.
  rewrite connections_app, quickChecks_app, Hc, Hq, !app_nil_r. auto.
Qed.

Lemma step_SelectStop (r r' : Run) (w : nat) (proxy : string) :
  workers r !! w = Some (AtSelect proxy) ->
  step (SelectStop w) r = Some r' ->
  workers r' !! w = Some Exited /\ untouched r r'.
Proof.
  intros Hw. unfold step. rewrite Hw.
  destruct (is_closed _ _); [ | discriminate ].
  intros [= <-]. split.
  - eapply lookup_set; exact Hw.
  - apply untouched_set_worker; reflexivity.
Qed.

Lemma step_SelectPause (r r' : Run) (w : nat) (proxy : string) :
  workers r !! w = Some (AtSelect proxy) ->
  step (SelectPause w) r = Some r' ->
  workers r' !! w = Some PauseSeen /\ untouched r r'.
Proof.
  intros Hw. unfold step. rewrite Hw.
  destruct (is_closed _ _); [ | discriminate ].
  intros [= <-]. split.
  - eapply lookup_set; exact Hw.
  - apply untouched_set_worker; reflexivity.
Qed.

Lemma step_AwaitSignals (r r' : Run) (w : nat) :
  workers r !! w = Some PauseSeen ->
  step (AwaitSignals w) r = Some r' ->
  workers r' !! w
    = Some (Blocked (Manager.resumeChan (mgr r)) (Manager.stopChan (mgr r))) /\
  untouched r r'.
Proof.
  intros Hw. unfold step. rewrite Hw.
  intros [= <-]. split.
  - eapply lookup_set; exact Hw.
  - apply untouched_set_worker; reflexivity.
Qed.

Lemma step_WakeResume (r r' : Run) (w resume stop : nat) :
  workers r !! w = Some (Blocked resume stop) ->
  step (WakeResume w) r = Some r' ->
  workers r' !! w = Some AtRange /\ untouched r r'.
Proof.
  intros Hw. unfold step. rewrite Hw.
  destruct (is_closed _ _); [ | discriminate ].
  intros [= <-]. split.
  - eapply lookup_set; exact Hw.
  - apply untouched_set_worker; reflexivity.
Qed.

Lemma step_WakeStop (r r' : Run) (w resume stop : nat) :
  workers r !! w = Some (Blocked resume stop) ->
  step (WakeStop w) r = Some r' ->
  workers r' !! w = Some Exited /\ untouched r r'.
Proof.
  intros Hw. unfold step. rewrite Hw.
  destruct (is_closed _ _); [ | discriminate ].
  intros [= <-]. split.
  - eapply lookup_set; exact Hw.
  - apply untouched_set_worker; reflexivity.
Qed.

(** ** What a move does to the manager *)

Lemma recordResult_Total (result : ProxyResult) (tl lc : Z) (m : Manager.t) :
  Total (Manager.stats (recordResult result tl lc m)) = Total (Manager.stats m).
Proof.
  unfold recordResult; cbn.
  destruct (0 <? lc); repeat (destruct (String.eqb _ _)); reflexivity.
Qed.

Lemma recordResult_control (result : ProxyResult) (tl lc : Z) (m : Manager.t) :
  Manager.pausedWorkerCount (recordResult result tl lc m) = Manager.pausedWorkerCount m /\
  Manager.workerCount (recordResult result tl lc m) = Manager.workerCount m /\
  Manager.running (recordResult result tl lc m) = Manager.running m /\
  Manager.paused (recordResult result tl lc m) = Manager.paused m.
Proof. unfold recordResult; cbn. auto. Qed.

(** A move either leaves the results and the statistics alone, or is a
    worker recording its result, or is a call of [ClearResults]. *)
Lemma step_data (l : Label) (r r' : Run) :
  step l r = Some r' ->
  (Manager.results (mgr r') = Manager.results (mgr r) /\
   Manager.stats (mgr r') = Manager.stats (mgr r)) \/
  (exists w result, l = Append w /\ workers r !! w = Some (Holding result) /\
     mgr r' = recordResult result (totalLatency r) (liveCount r) (mgr r)) \/
  (l = CallClearResults /\ mgr r' = Manager.ClearResults (mgr r)).
Proof.
  intros H. destruct l; unfold step in H;
    unfold Manager.Pause, Manager.Resume, Manager.Stop, Manager.ForcePause,
           Manager.ForceStop, Manager.SetWorkerCount, close_chan, make_chan in H;
    repeat case_match; simplify_eq; cbn; eauto 10.
Qed.

Lemma step_req (l : Label) (r r' : Run) : step l r = Some r' -> req r' = req r.
Proof.
  intros H. destruct l; unfold step in H; repeat case_match; simplify_eq; reflexivity.
Qed.

Lemma step_Total_range (l : Label) (r r' : Run) :
  GoInt.in_int64 (Total (Manager.stats (mgr r))) ->
  step l r = Some r' ->
  GoInt.in_int64 (Total (Manager.stats (mgr r'))).
Proof.
  intros Hr Hs.
  destruct (step_data l r r' Hs) as [[_ Hst] | [(w & result & _ & _ & Hm) | [_ Hm]]].
  - rewrite Hst. exact Hr.
  - rewrite Hm, recordResult_Total. exact Hr.
  - rewrite Hm. unfold Manager.ClearResults.
    destruct (_ && _); [ exact Hr | cbn; unfold GoInt.in_int64, GoInt.two63; lia ].
Qed.

(** A property kept by every move of a kind is kept by every schedule of
    moves of that kind. *)
Lemma exec_invariant (P : Run -> Prop) (Q : Label -> Prop) :
  (forall l r r', Q l -> P r -> step l r = Some r' -> P r') ->
  forall ls r r', Forall Q ls -> P r -> exec ls r = Some r' -> P r'.
Proof.
  intros Hstep ls. induction ls as [ | l ls IH ]; intros r r' HQ HP Hexec; cbn in Hexec.
  - congruence.
  - destruct (step l r) as [r1 | ] eqn:Hs; [ | discriminate ].
    apply Forall_cons in HQ as [Hl HQ].
    eapply IH; [ exact HQ | | exact Hexec ].
    eapply Hstep; eauto.
Qed.

Lemma Start_Total (rq : ProxyCheckRequest) (m : Manager.t) (h : Chans) (r0 : Run) :
  Start rq m h = Started r0 ->
  Total (Manager.stats (mgr r0)) = GoInt.len (ProxyList rq).
Proof.
  unfold Start, make_chan. intros H. repeat case_match; simplify_eq. reflexivity.
Qed.

Lemma run_Total_range (rq : ProxyCheckRequest) (m : Manager.t) (h : Chans)
    (r0 r : Run) (ls : list Label) :
  Start rq m h = Started r0 -> exec ls r0 = Some r ->
  GoInt.in_int64 (Total (Manager.stats (mgr r))).
Proof.
  intros Hstart Hexec.
  eapply (exec_invariant (fun r => GoInt.in_int64 (Total (Manager.stats (mgr r))))
            (fun _ => True)); [ | | | exact Hexec ].
  - intros l r1 r2 _. apply step_Total_range.
  - apply Forall_forall. auto.
  - rewrite (Start_Total _ _ _ _ Hstart). apply GoIntFacts.wrap64_range.
Qed.

(** C1. The counter equation [Pending + Checking + Live + Dead + Errors ==
    Total] holds of every snapshot [GetStats] hands out: of the copy of any
    manager whose Total is an int, so of every snapshot taken at any point
    of a run, whatever the workers and the callers did before; and the
    tracker's [Reset] establishes it, [UpdateWithResult] (for a result of
    any status), [MarkCheckingAsDead] and the tracker's [GetStats] keep
    it. *)
Theorem counter_equation_every_snapshot :
  (forall m : Manager.t,
     GoInt.in_int64 (Total (Manager.stats m)) -> counter_equation (Manager.GetStats m)) /\
  (forall (rq : ProxyCheckRequest) (m : Manager.t) (h : Chans) (r0 r : Run) (ls : list Label),
     Start rq m h = Started r0 -> exec ls r0 = Some r ->
     counter_equation (Manager.GetStats (mgr r))) /\
  (forall (totalProxies : Z) (st : StatsTracker.t),
     GoInt.in_int64 totalProxies ->
     counter_equation (StatsTracker.stats (StatsTracker.Reset totalProxies st))) /\
  (forall (result : ProxyResult) (st : StatsTracker.t),
     counter_equation (StatsTracker.stats st) ->
     counter_equation (StatsTracker.stats (StatsTracker.UpdateWithResult result st))) /\
  (forall st : StatsTracker.t,
     counter_equation (StatsTracker.stats st) ->
     counter_equation (StatsTracker.stats (StatsTracker.MarkCheckingAsDead st))) /\
  (forall st : StatsTracker.t,
     counter_equation (StatsTracker.stats st) ->
     counter_equation (StatsTracker.GetStats st)).
Proof.
  split; [ exact manager_GetStats_equation | ].
  split.
  { intros rq m h r0 r ls Hstart Hexec.
    apply manager_GetStats_equation. eapply run_Total_range; eauto. }
  split; [ exact Reset_equation | ].
  split; [ exact UpdateWithResult_equation | ].
  split; [ exact MarkCheckingAsDead_equation | exact tracker_GetStats_equation ].
Qed.

(** ** The sample runs *)

Lemma started_twoProxies :
  Start twoProxies freshManager freshChans = Started (startedRun twoProxies).
Proof. reflexivity. Qed.

Lemma started_oneProxy :
  Start oneProxy freshManager freshChans = Started (startedRun oneProxy).
Proof. reflexivity. Qed.

Lemma exec_pausedOnce :
  exec pausedOnce (startedRun twoProxies) = Some (after pausedOnce twoProxies).
Proof. vm_compute. reflexivity. Qed.

Lemma exec_oneLive :
  exec oneLive (startedRun oneProxy) = Some (after oneLive oneProxy).
Proof. vm_compute. reflexivity. Qed.

Lemma exec_twoDead :
  exec twoDead (startedRun twoProxies) = Some (after twoDead twoProxies).
Proof. vm_compute. reflexivity. Qed.

Lemma exec_stoppedMidProbe :
  exec stoppedMidProbe (startedRun twoProxies) = Some (after stoppedMidProbe twoProxies).
Proof. vm_compute. reflexivity. Qed.


(** C1 on a concrete run: the snapshot at the end of a run with a pause. *)
Lemma counter_equation_every_snapshot_witness :
  counter_equation (Manager.GetStats (mgr (after pausedOnce twoProxies))).
Proof.
  exact (proj1 (proj2 counter_equation_every_snapshot)
           twoProxies freshManager freshChans (startedRun twoProxies)
           (after pausedOnce twoProxies) pausedOnce
           started_twoProxies exec_pausedOnce).
Defined.

(** ** Pause and the count of paused workers *)

(** No move of a worker or of the watcher writes the count of paused
    workers or the count of workers. *)
Lemma step_internal_counts (l : Label) (r r' : Run) :
  internal l = true -> step l r = Some r' ->
  Manager.pausedWorkerCount (mgr r') = Manager.pausedWorkerCount (mgr r) /\
  Manager.workerCount (mgr r') = Manager.workerCount (mgr r).
Proof.
  intros Hi H. destruct l; try discriminate Hi; unfold step in H;
    repeat case_match; simplify_eq; cbn; auto.
Qed.

Lemma exec_internal_counts (ls : list Label) (r r' : Run) :
  forallb internal ls = true -> exec ls r = Some r' ->
  Manager.pausedWorkerCount (mgr r') = Manager.pausedWorkerCount (mgr r) /\
  Manager.workerCount (mgr r') = Manager.workerCount (mgr r).
Proof.
  revert r. induction ls as [ | l ls IH ]; intros r Hi Hexec; cbn in *.
  - simplify_eq. auto.
  - apply andb_true_iff in Hi as [Hl Hi].
    destruct (step l r) as [r1 | ] eqn:Hs; [ | discriminate ].
    destruct (step_internal_counts l r r1 Hl Hs) as [Hp Hw].
    destruct (IH r1 Hi Hexec) as [Hp' Hw']. split; congruence.
Qed.

Lemma Pause_true (m m' : Manager.t) (h h' : Chans) :
  Manager.Pause m h = Some (true, m', h') ->
  Manager.pausedWorkerCount m' = 0 /\ Manager.workerCount m' = Manager.workerCount m /\
  Manager.paused m' = true.
Proof.
  unfold Manager.Pause. intros H. repeat case_match; simplify_eq. cbn. auto.
Qed.

(** C3, as the code has it: after a successful [Pause], whatever the workers
    and the watcher do, the count of paused workers stays 0; with at least
    one worker it never equals the count of workers. *)
Theorem paused_count_stays_zero (r r' : Run) (m' : Manager.t) (h' : Chans) (ls : list Label) :
  Manager.Pause (mgr r) (chans r) = Some (true, m', h') ->
  forallb internal ls = true ->
  exec ls (set_mgr m' h' r) = Some r' ->
  Manager.GetPausedWorkerCount (mgr r') = 0 /\
  (1 <= Manager.GetWorkerCount (mgr r) ->
   Manager.GetPausedWorkerCount (mgr r') <> Manager.GetWorkerCount (mgr r')).
Proof.
  intros Hp Hi Hexec.
  destruct (Pause_true _ _ _ _ Hp) as (Hz & Hw & _).
  destruct (exec_internal_counts ls _ r' Hi Hexec) as [Hc Hn]. cbn in Hc, Hn.
  unfold Manager.GetPausedWorkerCount, Manager.GetWorkerCount.
  split; [ congruence | ]. intros Hone. rewrite Hc, Hn, Hz, Hw. lia.
Qed.

(** C3 on a concrete run: one worker, paused inside its
    first probe, runs until it blocks on the pause; the count is still 0. *)
Lemma paused_count_stays_zero_witness :
  Manager.GetPausedWorkerCount
    (mgr (after pausedMidProbe twoProxies)) = 0 /\
  (1 <= 1 ->
   Manager.GetPausedWorkerCount (mgr (after pausedMidProbe twoProxies))
   <> Manager.GetWorkerCount (mgr (after pausedMidProbe twoProxies))).
Proof.
  apply (paused_count_stays_zero
           (after [Dequeue 0; SelectDefault 0]%nat twoProxies)
           (after pausedMidProbe twoProxies)
           (mgr (after [Dequeue 0; SelectDefault 0; CallPause]%nat twoProxies))
           (chans (after [Dequeue 0; SelectDefault 0; CallPause]%nat twoProxies))
           [ProbeDone 0 liveLib 5; Append 0; Dequeue 0; SelectPause 0; AwaitSignals 0]%nat);
    vm_compute; reflexivity.
Defined.

(** The worker of [pausedMidProbe] is blocked on the pause, and its result
    was recorded after [Pause] returned. *)
Lemma pausedMidProbe_state :
  workers (after pausedMidProbe twoProxies) = [Blocked 5 3]%nat /\
  length (Manager.results (mgr (after pausedMidProbe twoProxies))) = 1%nat /\
  Manager.IsPaused (mgr (after pausedMidProbe twoProxies)) = true.
Proof. vm_compute. auto. Qed.

(** ** Stop *)

(** C4, as the code has it: [Stop] clears the running flag itself, whether
    graceful or not and whatever the workers are doing; in the sample run
    the flag is down while the only worker is inside a probe and the
    watcher has not run. *)
Theorem Stop_clears_running_at_once :
  (forall (force : bool) (m : Manager.t) (h : Chans),
     Manager.IsRunning (fst (Manager.Stop force m h)) = false) /\
  (let r := after stoppedMidProbe twoProxies in
   Manager.IsRunning (mgr r) = false /\
   workers r = [Probing "192.0.2.1:8080"] /\
   watched r = false).
Proof.
  split.
  - intros force m h. unfold Manager.Stop, Manager.IsRunning.
    destruct (Manager.running m) eqn:Hr; cbn [negb].
    + destruct (is_closed _ _); reflexivity.
    + exact Hr.
  - vm_compute. auto.
Qed.

(** ** ClearResults *)

(** C8. [ClearResults] returns the manager as it is when it is running and
    not paused; in every other state the results are empty, the statistics
    are the zero value and the snapshot's Total is 0. *)
Theorem ClearResults_guarded (m : Manager.t) :
  (Manager.running m && negb (Manager.paused m) = true ->
   Manager.ClearResults m = m) /\
  (Manager.running m && negb (Manager.paused m) = false ->
   Manager.GetResults (Manager.ClearResults m) = [] /\
   Manager.stats (Manager.ClearResults m) = Stats_zero /\
   Total (Manager.GetStats (Manager.ClearResults m)) = 0 /\
   Manager.GetStats (Manager.ClearResults m) = Manager.GetStats (fst (Manager.NewManager emptyChans))).
Proof.
  unfold Manager.ClearResults. split; intros H; rewrite H.
  - reflexivity.
  - repeat split.
Qed.

(** C8 on concrete states: a paused run with one result is cleared, the same run
    once resumed is not. *)
Lemma ClearResults_guarded_witness :
  Manager.GetResults (Manager.ClearResults (mgr (after pausedMidProbe twoProxies))) = [] /\
  Total (Manager.GetStats (Manager.ClearResults (mgr (after pausedMidProbe twoProxies)))) = 0 /\
  Manager.ClearResults (mgr (after (pausedMidProbe ++ [CallResume]) twoProxies))
    = mgr (after (pausedMidProbe ++ [CallResume]) twoProxies).
Proof.
  assert (Hp : Manager.running (mgr (after pausedMidProbe twoProxies))
               && negb (Manager.paused (mgr (after pausedMidProbe twoProxies))) = false)
    by (vm_compute; reflexivity).
  assert (Hr : Manager.running (mgr (after (pausedMidProbe ++ [CallResume]) twoProxies))
               && negb (Manager.paused (mgr (after (pausedMidProbe ++ [CallResume]) twoProxies)))
               = true)
    by (vm_compute; reflexivity).
  pose proof (proj2 (ClearResults_guarded (mgr (after pausedMidProbe twoProxies))) Hp)
    as (Hres & _ & Htotal & _).
  pose proof (proj1 (ClearResults_guarded
                       (mgr (after (pausedMidProbe ++ [CallResume]) twoProxies))) Hr)
    as Hsame.
  exact (conj Hres (conj Htotal Hsame)).
Defined.

(** ** Detection inside a run *)

(** C5. [DetectProxyType] starts the quick checks in the order SOCKS5,
    SOCKS4, HTTPS, HTTP, stops at the first that answers yes and returns its
    kind; it returns an error exactly when the four answer no.  In a run
    that asks for [Auto], a failed detection makes HTTP the type of the job:
    the result is the one of [CheckHTTP], and the worker's move out of the
    probe always exists and leaves it holding that result. *)
Theorem detection_order_and_fallback :
  (forall (lib : Lib) (proxy : string) (timeout : Z),
     let s5 := snd (checkSOCKS5Quick lib proxy timeout) in
     let s4 := snd (checkSOCKS4Quick lib proxy timeout) in
     let hs := snd (checkHTTPSQuick lib proxy timeout) in
     let h := snd (checkHTTPQuick lib proxy timeout) in
     let run := DetectProxyType lib proxy timeout in
     snd run =
       (if s5 then Ok SOCKS5 else if s4 then Ok SOCKS4
        else if hs then Ok HTTPS else if h then Ok HTTP else Err errNotDetected) /\
     quickChecks (fst run) =
       (if s5 then [SOCKS5] else if s4 then [SOCKS5; SOCKS4]
        else if hs then [SOCKS5; SOCKS4; HTTPS] else [SOCKS5; SOCKS4; HTTPS; HTTP]) /\
     ((exists e, snd run = Err e) <-> s5 = false /\ s4 = false /\ hs = false /\ h = false)) /\
  (forall (lib : Lib) (r : Run) (w : nat) (proxy : string) (elapsed : Z) (e : error),
     ProxyType_ (req r) = Auto ->
     snd (DetectProxyType lib proxy defaultTimeout) = Err e ->
     workers r !! w = Some (Probing proxy) ->
     let result :=
       resultOf proxy HTTP elapsed
         (snd (CheckHTTP lib proxy (Endpoint (req r)) defaultTimeout
                 (UpstreamProxy (req r)) (UpstreamType (req r)))) in
     snd (checkProxy lib (req r) proxy elapsed) = result /\
     Type_ result = HTTP /\
     exists r', step (ProbeDone w lib elapsed) r = Some r' /\
                workers r' !! w = Some (Holding result)).
Proof.
  split.
  - intros lib proxy timeout. cbn zeta.
    destruct (DetectProxyType_order lib proxy timeout) as [Hr Hq]. cbn zeta in Hr, Hq.
    split; [ exact Hr | ]. split; [ exact Hq | ]. rewrite Hr.
    destruct (snd (checkSOCKS5Quick lib proxy timeout)),
             (snd (checkSOCKS4Quick lib proxy timeout)),
             (snd (checkHTTPSQuick lib proxy timeout)),
             (snd (checkHTTPQuick lib proxy timeout));
      split; intros H; try (destruct H as [e He]; discriminate He);
      try (destruct H as (? & ? & ? & ?); discriminate); eauto.
  - intros lib r w proxy elapsed e Hauto Hdetect Hw. cbn zeta.
    destruct (auto_falls_back_to_http lib (req r) proxy elapsed e Hauto Hdetect) as [_ Hres].
    split; [ exact Hres | ].
    split; [ destruct (snd (CheckHTTP _ _ _ _ _ _)); reflexivity | ].
    destruct (step_ProbeDone r w proxy lib elapsed Hw) as (r' & Hs & Hw' & _).
    exists r'. split; [ exact Hs | ]. rewrite Hw', Hres. reflexivity.
Qed.

(** C5 on concrete inputs: with a library where only the SOCKS5 dial succeeds the
    endpoint of the specification's scenario is detected as socks5 after one
    check; where nothing connects the four checks run in order and the job
    of an [Auto] run ends as a DEAD result of type http. *)
Lemma detection_order_and_fallback_witness :
  (snd (DetectProxyType socks5OnlyLib "203.0.113.5:8080" defaultTimeout) = Ok SOCKS5 /\
   quickChecks (fst (DetectProxyType socks5OnlyLib "203.0.113.5:8080" defaultTimeout))
     = [SOCKS5]) /\
  (quickChecks (fst (DetectProxyType deadLib "203.0.113.5:8080" defaultTimeout))
     = [SOCKS5; SOCKS4; HTTPS; HTTP]) /\
  (let rq := mkRequestOfCheck ["203.0.113.5:8080"] Auto "http://target.example/ip" 1 "" "" in
   let r := after [Dequeue 0; SelectDefault 0]%nat rq in
   exists r', step (ProbeDone 0 deadLib 7) r = Some r' /\
              workers r' !! 0%nat
              = Some (Holding (mkProxyResult "203.0.113.5:8080" HTTP "DEAD" 7 "" "" ""
                                 "proxy connection failed: connect: connection refused"
                                 false false))).
Proof.
  pose proof (proj1 detection_order_and_fallback socks5OnlyLib "203.0.113.5:8080"
                defaultTimeout) as (H1 & H2 & _).
  pose proof (proj1 detection_order_and_fallback deadLib "203.0.113.5:8080"
                defaultTimeout) as (_ & H3 & _).
  pose proof (proj2 detection_order_and_fallback deadLib
                (after [Dequeue 0; SelectDefault 0]%nat
                   (mkRequestOfCheck ["203.0.113.5:8080"] Auto "http://target.example/ip"
                                     1 "" ""))
                0%nat "203.0.113.5:8080" 7 errNotDetected) as H4.
  cbn zeta in *.
  split; [ split; [ exact H1 | exact H2 ] | ].
  split; [ exact H3 | ].
  destruct H4 as (_ & _ & H4); [ vm_compute; reflexivity .. | ].
  exact H4.
Defined.

(** ** SOCKS probes and an upstream proxy *)

(** C7, as stated, fails: a SOCKS5 probe of an address without a colon,
    given an upstream proxy, returns the format error, not the
    unsupported-upstream one. *)
Lemma socks_upstream_counterexample :
  "198.51.100.9:3128" <> "" /\
  snd (CheckSOCKS5 liveLib "not-an-address" "http://target.example/ip" defaultTimeout
         "198.51.100.9:3128" HTTP)
    = Err ErrInvalidProxyFormat /\
  snd (CheckSOCKS5 liveLib "not-an-address" "http://target.example/ip" defaultTimeout
         "198.51.100.9:3128" HTTP)
    <> Err (errors_New "upstream proxy not supported for SOCKS5 checks").
Proof.
  split; [ discriminate | ]. split; [ reflexivity | ].
  vm_compute. discriminate.
Qed.

(** C7, amended.  A SOCKS4 or SOCKS5 probe given a non-empty upstream proxy
    makes no library call at all (its trace is empty, so no connection is
    attempted) and fails: with the unsupported-upstream error of its
    protocol when the candidate address contains a colon, with the
    invalid-format error when it does not. *)
Theorem socks_upstream_fails_before_connecting
    (lib : Lib) (proxyAddr endpoint : string) (timeout : Z)
    (upstreamProxy : string) (upstreamType : ProxyType) :
  upstreamProxy <> "" ->
  CheckSOCKS4 lib proxyAddr endpoint timeout upstreamProxy upstreamType =
    ([], Err (if strings_Contains proxyAddr ":"
              then errors_New "upstream proxy not supported for SOCKS4 checks"
              else ErrInvalidProxyFormat)) /\
  CheckSOCKS5 lib proxyAddr endpoint timeout upstreamProxy upstreamType =
    ([], Err (if strings_Contains proxyAddr ":"
              then errors_New "upstream proxy not supported for SOCKS5 checks"
              else ErrInvalidProxyFormat)).
Proof.
  intros Hup. unfold CheckSOCKS4, CheckSOCKS5.
  split; rewrite (checkSOCKSWith_upstream _ _ _ _ _ _ _ _ Hup); reflexivity.
Qed.

(** C7, amended, on a concrete input: a well-formed candidate address. *)
Lemma socks_upstream_fails_before_connecting_witness :
  CheckSOCKS4 liveLib "192.0.2.1:1080" "http://target.example/ip" defaultTimeout
              "198.51.100.9:3128" HTTP
    = ([], Err (errors_New "upstream proxy not supported for SOCKS4 checks")) /\
  CheckSOCKS5 liveLib "192.0.2.1:1080" "http://target.example/ip" defaultTimeout
              "198.51.100.9:3128" HTTP
    = ([], Err (errors_New "upstream proxy not supported for SOCKS5 checks")).
Proof.
  apply (socks_upstream_fails_before_connecting liveLib "192.0.2.1:1080"
           "http://target.example/ip" defaultTimeout "198.51.100.9:3128" HTTP).
  discriminate.
Defined.

(** ** The tracker's average *)

(** C10. A live result with a latency of 0 or less adds one to Live and
    leaves AverageSpeed as it was.  After [Reset] and any stream of fewer
    than 2^63 results, AverageSpeed is 0 when no live result with a positive
    latency came, and otherwise the truncated int64 quotient of the int64
    sum of those latencies by their number; when that sum does not
    overflow, it is the exact truncated quotient. *)
Theorem average_speed_counts_positive_latencies :
  (forall (result : ProxyResult) (st : StatsTracker.t),
     Status result = StatusLive -> Latency result <= 0 ->
     Live (StatsTracker.stats (StatsTracker.UpdateWithResult result st))
       = GoInt.add (Live (StatsTracker.stats st)) 1 /\
     AverageSpeed (StatsTracker.stats (StatsTracker.UpdateWithResult result st))
       = AverageSpeed (StatsTracker.stats st)) /\
  (forall (totalProxies : Z) (st0 : StatsTracker.t) (rs : list ProxyResult),
     Z.of_nat (length rs) < GoInt.two63 ->
     let st := StatsTracker.feed rs (StatsTracker.Reset totalProxies st0) in
     let cs := Latency <$> List.filter counted rs in
     StatsTracker.totalTime st = sum64 cs /\
     StatsTracker.totalCount st = Z.of_nat (length cs) /\
     (cs = [] -> AverageSpeed (StatsTracker.stats st) = 0) /\
     (cs <> [] ->
      AverageSpeed (StatsTracker.stats st) = GoInt.quot (sum64 cs) (Z.of_nat (length cs))) /\
     (cs <> [] -> sumZ cs < GoInt.two63 ->
      AverageSpeed (StatsTracker.stats st) = Z.quot (sumZ cs) (Z.of_nat (length cs)))).
Proof.
  split; [ exact UpdateWithResult_live_nonpositive | ].
  intros totalProxies st0 rs Hlen. cbn zeta.
  destruct (feed_totals totalProxies st0 rs) as (Ht & Hn & Ha). cbn zeta in Ht, Hn, Ha.
  set (cs := Latency <$> List.filter counted rs) in *.
  assert (Hle : (length cs <= length rs)%nat).
  { subst cs. rewrite length_fmap. apply List.filter_length_le. }
  assert (Hlen' : GoInt.len cs = Z.of_nat (length cs)).
  { apply GoIntFacts.wrap64_small. unfold GoInt.in_int64, GoInt.two63 in *. lia. }
  rewrite Hlen' in Hn, Ha.
  split; [ exact Ht | ]. split; [ exact Hn | ].
  split; [ intros E; rewrite E in Ha; exact Ha | ].
  assert (Hq : cs <> [] ->
               AverageSpeed (StatsTracker.stats
                               (StatsTracker.feed rs (StatsTracker.Reset totalProxies st0)))
               = GoInt.quot (sum64 cs) (Z.of_nat (length cs))).
  { intros Hne. destruct cs; [ congruence | exact Ha ]. }
  split; [ exact Hq | ].
  intros Hne Hsum. rewrite (Hq Hne).
  assert (Hpos : Forall (fun x => 0 < x) cs).
  { subst cs. apply Forall_fmap, Forall_forall. intros r Hr.
    apply list_elem_of_In, List.filter_In in Hr as [_ Hc].
    unfold counted in Hc. apply andb_true_iff in Hc as [_ Hc]. cbn. lia. }
  assert (Hnonneg : 0 <= sumZ cs).
  { clear -Hpos. induction Hpos; cbn; [ lia | ]. unfold sumZ in *. cbn. lia. }
  assert (Hexact : sum64 cs = sumZ cs).
  { rewrite sum64_exact. apply GoIntFacts.wrap64_small.
    unfold GoInt.in_int64, GoInt.two63 in *. lia. }
  rewrite Hexact. apply quot_exact; [ lia | ].
  destruct cs; [ congruence | cbn; lia ].
Qed.

(** C10 on a concrete stream: two counted results (10 and 15 ms), a
    live one with latency 0, a live one with a negative latency and a dead
    one with a positive latency. *)
Lemma average_speed_counts_positive_latencies_witness :
  let rs :=
    [ mkProxyResult "a:1" HTTP StatusLive 10 "" "" "" "" false false;
      mkProxyResult "b:1" HTTP StatusLive 0 "" "" "" "" false false;
      mkProxyResult "c:1" HTTP StatusDead 40 "" "" "" "" false false;
      mkProxyResult "d:1" HTTP StatusLive (-3) "" "" "" "" false false;
      mkProxyResult "e:1" HTTP StatusLive 15 "" "" "" "" false false ] in
  AverageSpeed (StatsTracker.stats (StatsTracker.feed rs (StatsTracker.Reset 5 StatsTracker.NewStatsTracker)))
    = 12 /\
  Live (StatsTracker.stats (StatsTracker.feed rs (StatsTracker.Reset 5 StatsTracker.NewStatsTracker)))
    = 4.
Proof.
  cbn zeta.
  pose proof (proj2 average_speed_counts_positive_latencies 5 StatsTracker.NewStatsTracker
    [ mkProxyResult "a:1" HTTP StatusLive 10 "" "" "" "" false false;
      mkProxyResult "b:1" HTTP StatusLive 0 "" "" "" "" false false;
      mkProxyResult "c:1" HTTP StatusDead 40 "" "" "" "" false false;
      mkProxyResult "d:1" HTTP StatusLive (-3) "" "" "" "" false false;
      mkProxyResult "e:1" HTTP StatusLive 15 "" "" "" "" false false ]
    ltac:(vm_compute; reflexivity)) as (_ & _ & _ & _ & H).
  cbn zeta in H.
  split; [ | vm_compute; reflexivity ].
  rewrite H; [ vm_compute; reflexivity | vm_compute; discriminate | vm_compute; reflexivity ].
Defined.

(** ** A job taken at a pause or a stop *)

(** C9. A worker that holds a job at the outer select and takes the stop
    case returns, and one that takes the pause case goes on to the inner
    select and from there back to the head of the loop (on resume) or
    returns (on stop); none of these moves appends a result, changes the
    statistics, puts the job back in the queue, or adds a quick check or a
    connection attempt to the trace, and none of the states reached holds
    the job.  The sample run of two jobs and one worker, paused and resumed
    once, completes with the second job's result only. *)
Theorem job_dropped_at_pause_or_stop :
  (forall (r r' : Run) (w : nat) (proxy : string),
     workers r !! w = Some (AtSelect proxy) ->
     (step (SelectStop w) r = Some r' -> workers r' !! w = Some Exited /\ untouched r r') /\
     (step (SelectPause w) r = Some r' -> workers r' !! w = Some PauseSeen /\ untouched r r')) /\
  (forall (r r' : Run) (w : nat),
     workers r !! w = Some PauseSeen ->
     step (AwaitSignals w) r = Some r' ->
     workers r' !! w = Some (Blocked (Manager.resumeChan (mgr r)) (Manager.stopChan (mgr r)))
     /\ untouched r r') /\
  (forall (r r' : Run) (w resume stop : nat),
     workers r !! w = Some (Blocked resume stop) ->
     (step (WakeResume w) r = Some r' -> workers r' !! w = Some AtRange /\ untouched r r') /\
     (step (WakeStop w) r = Some r' -> workers r' !! w = Some Exited /\ untouched r r')) /\
  (exec pausedOnce (startedRun twoProxies) = Some (after pausedOnce twoProxies) /\
   ProxyList twoProxies = ["192.0.2.1:8080"; "192.0.2.2:8080"] /\
   completed (after pausedOnce twoProxies) = true /\
   Proxy <$> Manager.GetResults (mgr (after pausedOnce twoProxies)) = ["192.0.2.2:8080"] /\
   Total (Manager.GetStats (mgr (after pausedOnce twoProxies))) = 2 /\
   (Z.of_nat (length (Manager.GetResults (mgr (after pausedOnce twoProxies))))
    < Total (Manager.GetStats (mgr (after pausedOnce twoProxies))))).
Proof.
  split.
  { intros r r' w proxy Hw. split; intros Hs.
    - eapply step_SelectStop; eauto.
    - eapply step_SelectPause; eauto. }
  split; [ exact step_AwaitSignals | ].
  split.
  { intros r r' w resume stop Hw. split; intros Hs.
    - eapply step_WakeResume; eauto.
    - eapply step_WakeStop; eauto. }
  split; [ exact exec_pausedOnce | ].
  vm_compute. repeat split; reflexivity.
Qed.

(** C9 on a concrete run: the first three moves of the paused worker in the
    sample run. *)
Lemma job_dropped_at_pause_or_stop_witness :
  workers (after [Dequeue 0; CallPause; SelectPause 0]%nat twoProxies) !! 0%nat
    = Some PauseSeen /\
  untouched (after [Dequeue 0; CallPause]%nat twoProxies)
            (after [Dequeue 0; CallPause; SelectPause 0]%nat twoProxies).
Proof.
  apply (proj1 job_dropped_at_pause_or_stop
           (after [Dequeue 0; CallPause]%nat twoProxies)
           (after [Dequeue 0; CallPause; SelectPause 0]%nat twoProxies)
           0%nat "192.0.2.1:8080");
    vm_compute; reflexivity.
Defined.

(** ** Runs that no call interrupts *)

Lemma inFlight_insert (ws : list wstate) (w : nat) (old new : wstate) :
  ws !! w = Some old ->
  (inFlight (<[w := new]> ws) + holdsJob old = inFlight ws + holdsJob new)%nat.
Proof.
  unfold inFlight. revert w. induction ws as [ | x ws IH ]; intros w Hw.
  - discriminate.
  - destruct w as [ | w ].
    + change (Some x = Some old) in Hw. simplify_eq.
      change (<[0%nat := new]> (old :: ws)) with (new :: ws).
      rewrite !fmap_cons. change (sum_list (?a :: ?l)) with (a + sum_list l)%nat.
      generalize (sum_list (holdsJob <$> ws)). intros n. lia.
    + change (ws !! w = Some old) in Hw. specialize (IH w Hw).
      change (<[S w := new]> (x :: ws)) with (x :: <[w := new]> ws).
      rewrite !fmap_cons. change (sum_list (?a :: ?l)) with (a + sum_list l)%nat.
      revert IH.
      generalize (sum_list (holdsJob <$> ws)), (sum_list (holdsJob <$> <[w := new]> ws)).
      intros n n' IH. lia.
Qed.

Lemma is_closed_fresh (h : Chans) (c n : nat) :
  wf_chans h -> (next_chan h <= c)%nat -> is_closed c (mkChans n (closed h)) = false.
Proof.
  unfold wf_chans, is_closed. cbn [closed]. intros Hwf Hc.
  apply not_true_is_false. intros Hex.
  apply existsb_exists in Hex as (c' & Hin & Heq).
  apply Nat.eqb_eq in Heq. subst c'.
  rewrite Forall_forall in Hwf. apply list_elem_of_In in Hin.
  specialize (Hwf _ Hin). lia.
Qed.

Lemma Start_uninterrupted (rq : ProxyCheckRequest) (m : Manager.t) (h : Chans) (r0 : Run) :
  wf_chans h -> Start rq m h = Started r0 -> uninterrupted rq r0 /\ tallied r0 /\ all_dead r0.
Proof.
  intros Hwf. unfold Start. intros H.
  destruct (Manager.running m); [ discriminate | ].
  destruct (Threads rq <? 0) eqn:Hth; [ discriminate | ].
  unfold make_chan in H. cbn in H. simplify_eq.
  split; [ | split ].
  - constructor; cbn -[inFlight is_closed].
    + reflexivity.
    + assert (Hz : forall n, inFlight (repeat AtRange n) = 0%nat).
      { intros n. unfold inFlight. induction n; cbn; auto. }
      rewrite Hz. lia.
    + apply is_closed_fresh; [ exact Hwf | lia ].
    + apply is_closed_fresh; [ exact Hwf | lia ].
    + apply Forall_forall. intros ws Hin. apply list_elem_of_In, repeat_spec in Hin.
      subst. exact I.
    + right. apply Forall_forall. intros ws Hin. apply list_elem_of_In, repeat_spec in Hin.
      subst. discriminate.
    + discriminate.
    + apply Forall_forall. intros p Hin. apply list_elem_of_In. exact Hin.
    + apply Forall_forall. intros ws Hin. apply list_elem_of_In, repeat_spec in Hin.
      subst. exact I.
    + apply repeat_length.
  - constructor; cbn; reflexivity.
  - constructor; cbn.
    + constructor.
    + apply Forall_forall. intros ws Hin. apply list_elem_of_In, repeat_spec in Hin.
      subst. exact I.
Qed.

(** The one shape of a worker's move in an uninterrupted run: the worker
    leaves a state other than [Exited], and the job it held or took is
    accounted for. *)
Lemma uninterrupted_move (rq : ProxyCheckRequest) (r r' : Run) (w : nat) (old new : wstate) :
  uninterrupted rq r ->
  workers r !! w = Some old -> old <> Exited ->
  req r' = req r -> chans r' = chans r ->
  Manager.stopChan (mgr r') = Manager.stopChan (mgr r) ->
  Manager.pauseChan (mgr r') = Manager.pauseChan (mgr r) ->
  watched r' = watched r ->
  workers r' = <[w := new]> (workers r) ->
  (length (Manager.results (mgr r')) + holdsJob new + length (jobs r')
   = length (Manager.results (mgr r)) + holdsJob old + length (jobs r))%nat ->
  match new with PauseSeen | Blocked _ _ => False | _ => True end ->
  (new = Exited -> jobs r' = []) ->
  (jobs r' = jobs r \/ exists p, jobs r = p :: jobs r') ->
  match new with AtSelect p | Probing p => In p (ProxyList rq) | _ => True end ->
  uninterrupted rq r'.
Proof.
  intros U Hw Hold Hreq Hch Hstop Hpause Hwatched Hws Hcount Hnew Hexit Hjobs Hheld.
  destruct U.
  pose proof (inFlight_insert (workers r) w old new Hw) as Hfl.
  constructor.
  - congruence.
  - rewrite Hws. lia.
  - rewrite Hstop, Hch. assumption.
  - rewrite Hpause, Hch. assumption.
  - rewrite Hws. apply Forall_insert; assumption.
  - destruct u_exited0 as [Hempty | Hnone].
    + left. destruct Hjobs as [-> | [p Hp]]; [ exact Hempty | congruence ].
    + destruct new; try (right; rewrite Hws; apply Forall_insert; [ exact Hnone | discriminate ]).
      left. apply Hexit. reflexivity.
  - rewrite Hwatched. intros Hwd. specialize (u_watched0 Hwd).
    rewrite Forall_lookup in u_watched0. specialize (u_watched0 _ _ Hw). contradiction.
  - destruct Hjobs as [-> | [p Hp]]; [ assumption | ].
    rewrite Hp in u_jobs0. apply Forall_cons in u_jobs0 as [_ Hj]. exact Hj.
  - rewrite Hws. apply Forall_insert; assumption.
  - rewrite Hws, length_insert. assumption.
Qed.

Lemma forallb_Exited (ws : list wstate) :
  all_exited ws = true -> Forall (fun ws => ws = Exited) ws.
Proof.
  unfold all_exited. intros H. apply Forall_forall. intros x Hx.
  apply list_elem_of_In in Hx.
  rewrite forallb_forall in H. specialize (H x Hx). destruct x; congruence.
Qed.

Lemma step_uninterrupted (rq : ProxyCheckRequest) (l : Label) (r r' : Run) :
  internal l = true -> uninterrupted rq r -> step l r = Some r' -> uninterrupted rq r'.
Proof.
  intros Hi U Hs.
  destruct l; try discriminate Hi; unfold step in Hs.
  - (* Dequeue *)
    destruct (workers r !! w) as [ [ | | | | | | ] | ] eqn:Hw; try discriminate.
    pose proof (u_jobs _ _ U) as Hjobs.
    destruct (jobs r) as [ | p rest ] eqn:Hj; simplify_eq.
    + eapply (uninterrupted_move rq r _ w AtRange Exited); eauto; cbn;
        rewrite ?Hj; try congruence; auto.
    + apply Forall_cons in Hjobs as [Hp _].
      eapply (uninterrupted_move rq r _ w AtRange (AtSelect p)); eauto; cbn;
        rewrite ?Hj; try congruence; cbn; try lia; eauto.
  - (* SelectStop *)
    destruct (workers r !! w) as [ [ | | | | | | ] | ] eqn:Hw; try discriminate.
    rewrite (u_stop _ _ U) in Hs. discriminate.
  - (* SelectPause *)
    destruct (workers r !! w) as [ [ | | | | | | ] | ] eqn:Hw; try discriminate.
    rewrite (u_pause _ _ U) in Hs. discriminate.
  - (* SelectDefault *)
    destruct (workers r !! w) as [ [ | | | | | | ] | ] eqn:Hw; try discriminate.
    rewrite (u_stop _ _ U), (u_pause _ _ U) in Hs. cbn in Hs. simplify_eq.
    pose proof (u_held _ _ U) as Hh. rewrite Forall_lookup in Hh. specialize (Hh _ _ Hw).
    eapply (uninterrupted_move rq r _ w (AtSelect proxy) (Probing proxy)); eauto; cbn;
      try congruence.
  - (* AwaitSignals *)
    destruct (workers r !! w) as [ [ | | | | | | ] | ] eqn:Hw; try discriminate.
    pose proof (u_states _ _ U) as Hh. rewrite Forall_lookup in Hh.
    destruct (Hh _ _ Hw).
  - (* WakeResume *)
    destruct (workers r !! w) as [ [ | | | | | | ] | ] eqn:Hw; try discriminate.
    pose proof (u_states _ _ U) as Hh. rewrite Forall_lookup in Hh.
    destruct (Hh _ _ Hw).
  - (* WakeStop *)
    destruct (workers r !! w) as [ [ | | | | | | ] | ] eqn:Hw; try discriminate.
    pose proof (u_states _ _ U) as Hh. rewrite Forall_lookup in Hh.
    destruct (Hh _ _ Hw).
  - (* ProbeDone *)
    destruct (workers r !! w) as [ [ | | | | | | ] | ] eqn:Hw; try discriminate.
    destruct (checkProxy lib (req r) proxy elapsed) as [evs result]. simplify_eq.
    eapply (uninterrupted_move rq r _ w (Probing proxy) (Holding result)); eauto; cbn;
      try congruence.
  - (* Append *)
    destruct (workers r !! w) as [ [ | | | | | | ] | ] eqn:Hw; try discriminate.
    simplify_eq.
    eapply (uninterrupted_move rq r _ w (Holding result) AtRange); eauto; cbn;
      try congruence; rewrite ?length_app; cbn; try lia.
  - (* WatcherDone *)
    destruct (all_exited (workers r) && negb (watched r)) eqn:Hall; [ | discriminate ].
    apply andb_true_iff in Hall as [Hall _]. simplify_eq.
    destruct U. constructor; cbn; auto.
    intros _. apply forallb_Exited. exact Hall.
Qed.

(** ** The counters count the results *)

Lemma len_snoc {A} (l : list A) (x : A) : GoInt.len (l ++ [x]) = GoInt.add (GoInt.len l) 1.
Proof.
  assert (Hl : Z.of_nat (length (l ++ [x])) = Z.of_nat (length l) + 1).
  { rewrite length_app. cbn. lia. }
  unwrap64. lia.
Qed.

Lemma typeCountsOf_snoc (rs : list ProxyResult) (x : ProxyResult) :
  typeCountsOf (rs ++ [x]) = incr_count (Type_ x) (typeCountsOf rs).
Proof. unfold typeCountsOf. rewrite fold_left_app. reflexivity. Qed.

Lemma filter_snoc {A} (f : A -> bool) (l : list A) (x : A) :
  List.filter f (l ++ [x]) = if f x then List.filter f l ++ [x] else List.filter f l.
Proof. rewrite List.filter_app. cbn. destruct (f x); [ reflexivity | apply app_nil_r ]. Qed.

Lemma isOther_eq (x : ProxyResult) : isOther x = negb (isLive x) && negb (isDead x).
Proof. reflexivity. Qed.

Lemma live_not_dead (x : ProxyResult) : isLive x = true -> isDead x = false.
Proof.
  unfold isLive, isDead. intros H. apply String.eqb_eq in H. rewrite H. reflexivity.
Qed.

Lemma step_tallied (l : Label) (r r' : Run) :
  l <> CallClearResults -> tallied r -> step l r = Some r' -> tallied r'.
Proof.
  intros Hl T Hs. pose proof (step_req l r r' Hs) as Hreq.
  destruct (step_data l r r' Hs) as [[Hres Hst] | [(w & result & _ & _ & Hm) | [Hc _]]].
  - destruct T. constructor; rewrite ?Hres, ?Hst, ?Hreq; assumption.
  - destruct T.
    constructor; rewrite ?Hreq, Hm; unfold recordResult; cbn [Manager.stats Manager.results];
      rewrite ?filter_snoc, ?(isOther_eq result);
      change (String.eqb (Status result) "LIVE") with (isLive result);
      change (String.eqb (Status result) "DEAD") with (isDead result);
      pose proof (live_not_dead result) as Hld;
      destruct (isLive result) eqn:Elive;
      try (rewrite (Hld eq_refl));
      try destruct (isDead result) eqn:Edead;
      destruct (0 <? liveCount r); cbn; rewrite ?len_snoc, ?typeCountsOf_snoc;
      congruence.
  - contradiction.
Qed.

Lemma checkProxy_failed (lib : Lib) (rq : ProxyCheckRequest) (proxy : string) (elapsed : Z)
    (e : error) :
  probeOutcome lib rq proxy = Err e ->
  Status (snd (checkProxy lib rq proxy elapsed)) = "DEAD" /\
  Error (snd (checkProxy lib rq proxy elapsed)) = Error_text e /\
  Proxy (snd (checkProxy lib rq proxy elapsed)) = proxy /\
  Latency (snd (checkProxy lib rq proxy elapsed)) = elapsed.
Proof. intros H. rewrite checkProxy_result, H. cbn. auto. Qed.

Lemma step_all_dead (rq : ProxyCheckRequest) (l : Label) (r r' : Run) :
  failing rq l -> uninterrupted rq r -> all_dead r -> step l r = Some r' -> all_dead r'.
Proof.
  intros [Hi Hfail] U [Dres Dheld] Hs.
  destruct l; try discriminate Hi; unfold step in Hs;
    try (destruct (workers r !! w) as [ [ | | | | | | ] | ] eqn:Hw; try discriminate).
  - destruct (jobs r); simplify_eq; constructor; cbn; auto; apply Forall_insert; auto.
  - destruct (is_closed _ _); simplify_eq; constructor; cbn; auto; apply Forall_insert; auto.
  - destruct (is_closed _ _); simplify_eq; constructor; cbn; auto; apply Forall_insert; auto.
  - destruct (_ && _); simplify_eq; constructor; cbn; auto; apply Forall_insert; auto.
  - simplify_eq; constructor; cbn; auto; apply Forall_insert; auto.
  - destruct (is_closed _ _); simplify_eq; constructor; cbn; auto; apply Forall_insert; auto.
  - destruct (is_closed _ _); simplify_eq; constructor; cbn; auto; apply Forall_insert; auto.
  - pose proof (u_held _ _ U) as Hh. rewrite Forall_lookup in Hh. specialize (Hh _ _ Hw).
    cbn in Hh. destruct (Hfail _ Hh) as [e He].
    rewrite <- (u_req _ _ U) in He.
    destruct (checkProxy_failed lib (req r) proxy elapsed e He) as (Hdead & _).
    destruct (checkProxy lib (req r) proxy elapsed) as [evs result]. cbn in Hdead.
    simplify_eq. constructor; cbn; auto. apply Forall_insert; auto.
  - rewrite Forall_lookup in Dheld. pose proof (Dheld _ _ Hw) as Hdead. cbn in Hdead.
    simplify_eq. constructor; cbn.
    + unfold recordResult; cbn. apply Forall_app. split; [ assumption | ].
      constructor; [ assumption | constructor ].
    + apply Forall_insert; [ | exact I ]. apply Forall_lookup. assumption.
  - destruct (_ && _); simplify_eq. constructor; cbn; assumption.
Qed.

Lemma failing_internal (rq : ProxyCheckRequest) (l : Label) :
  failing rq l -> internal l = true /\ l <> CallClearResults.
Proof. intros [Hi _]. split; [ exact Hi | ]. intros ->. discriminate. Qed.

(** The three invariants along a run in which every probe fails. *)
Lemma failing_run_invariants (rq : ProxyCheckRequest) (m : Manager.t) (h : Chans)
    (r0 r : Run) (ls : list Label) :
  wf_chans h -> Start rq m h = Started r0 ->
  Forall (failing rq) ls -> exec ls r0 = Some r ->
  uninterrupted rq r /\ tallied r /\ all_dead r.
Proof.
  intros Hwf Hstart Hls Hexec.
  eapply (exec_invariant (fun r => uninterrupted rq r /\ tallied r /\ all_dead r)
            (failing rq)); [ | exact Hls | | exact Hexec ].
  - intros l r1 r2 Hl (U & T & D) Hs.
    destruct (failing_internal rq l Hl) as [Hi Hc].
    split; [ | split ].
    + eapply step_uninterrupted; eauto.
    + eapply step_tallied; eauto.
    + eapply step_all_dead; eauto.
  - eapply Start_uninterrupted; eauto.
Qed.

Lemma all_dead_filters (rs : list ProxyResult) :
  Forall (fun res => Status res = "DEAD") rs ->
  List.filter isDead rs = rs /\ List.filter isLive rs = [] /\ List.filter isOther rs = [].
Proof.
  induction 1 as [ | x rs Hx _ (IHd & IHl & IHo) ]; [ auto | ].
  cbn. unfold isOther, isLive, isDead. rewrite Hx. cbn.
  fold isDead. fold isLive. fold isOther. rewrite IHd, IHl.
  repeat split. exact IHo.
Qed.

Lemma inFlight_exited (ws : list wstate) :
  Forall (fun ws => ws = Exited) ws -> inFlight ws = 0%nat.
Proof.
  unfold inFlight. induction 1 as [ | x ws Hx _ IH ]; [ reflexivity | ].
  subst x. rewrite fmap_cons. cbn. exact IH.
Qed.

(** At the end of an uninterrupted run with a worker, every endpoint has
    its result. *)
Lemma uninterrupted_complete (rq : ProxyCheckRequest) (r : Run) :
  1 <= Threads rq -> uninterrupted rq r -> completed r = true ->
  length (Manager.results (mgr r)) = length (ProxyList rq).
Proof.
  intros Hth U Hc. unfold completed in Hc.
  pose proof (u_watched _ _ U Hc) as Hall.
  pose proof (u_count _ _ U) as Hcount.
  pose proof (u_workers _ _ U) as Hn.
  rewrite (inFlight_exited _ Hall) in Hcount.
  destruct (u_exited _ _ U) as [Hj | Hnone].
  - rewrite Hj in Hcount. cbn in Hcount. lia.
  - destruct (workers r) as [ | ws rest ]; [ cbn in Hn; lia | ].
    apply Forall_cons in Hall as [-> _]. apply Forall_cons in Hnone as [Hne _].
    congruence.
Qed.

(** ** Runs with calls from outside *)

Lemma Start_sourced (rq : ProxyCheckRequest) (m : Manager.t) (h : Chans) (r0 : Run) :
  Start rq m h = Started r0 -> sourced rq r0 /\ tallied r0 /\ all_dead r0.
Proof.
  unfold Start. intros H.
  destruct (Manager.running m); [ discriminate | ].
  destruct (Threads rq <? 0) eqn:Hth; [ discriminate | ].
  unfold make_chan in H. cbn in H. simplify_eq.
  assert (Hrep : forall (P : wstate -> Prop) n, P AtRange -> Forall P (repeat AtRange n)).
  { intros P n HP. apply Forall_forall. intros ws Hin.
    apply list_elem_of_In, repeat_spec in Hin. subst. exact HP. }
  split; [ | split ].
  - constructor; cbn -[inFlight].
    + reflexivity.
    + apply Forall_forall. intros p Hin. apply list_elem_of_In. exact Hin.
    + apply Hrep. exact I.
    + assert (Hz : forall n, inFlight (repeat AtRange n) = 0%nat).
      { intros n. unfold inFlight. induction n; cbn; auto. }
      rewrite Hz. lia.
    + discriminate.
  - constructor; cbn; reflexivity.
  - constructor; cbn; [ constructor | apply Hrep; exact I ].
Qed.

(** The shape of a worker's move, for [sourced]. *)
Lemma sourced_move (rq : ProxyCheckRequest) (r r' : Run) (w : nat) (old new : wstate) :
  sourced rq r ->
  workers r !! w = Some old -> old <> Exited ->
  req r' = req r -> watched r' = watched r ->
  workers r' = <[w := new]> (workers r) ->
  (length (Manager.results (mgr r')) + holdsJob new + length (jobs r')
   <= length (Manager.results (mgr r)) + holdsJob old + length (jobs r))%nat ->
  (jobs r' = jobs r \/ exists p, jobs r = p :: jobs r') ->
  match new with AtSelect p | Probing p => In p (ProxyList rq) | _ => True end ->
  sourced rq r'.
Proof.
  intros S Hw Hold Hreq Hwatched Hws Hcount Hjobs Hheld.
  destruct S.
  pose proof (inFlight_insert (workers r) w old new Hw) as Hfl.
  constructor.
  - congruence.
  - destruct Hjobs as [-> | [p Hp]]; [ assumption | ].
    rewrite Hp in s_jobs0. apply Forall_cons in s_jobs0 as [_ Hj]. exact Hj.
  - rewrite Hws. apply Forall_insert; assumption.
  - rewrite Hws. lia.
  - rewrite Hwatched. intros Hwd. specialize (s_watched0 Hwd).
    rewrite Forall_lookup in s_watched0. specialize (s_watched0 _ _ Hw). contradiction.
Qed.

(** A call from outside touches neither the workers nor the queue, and
    only [ClearResults] touches the results, which it empties. *)
Lemma sourced_call (rq : ProxyCheckRequest) (r : Run) (m' : Manager.t) (h' : Chans) :
  sourced rq r ->
  (length (Manager.results m') <= length (Manager.results (mgr r)))%nat ->
  sourced rq (set_mgr m' h' r).
Proof.
  intros [] Hlen. constructor; cbn -[inFlight]; auto. lia.
Qed.

Lemma step_sourced (rq : ProxyCheckRequest) (l : Label) (r r' : Run) :
  sourced rq r -> step l r = Some r' -> sourced rq r'.
Proof.
  intros S Hs.
  destruct l; unfold step in Hs;
    try (destruct (workers r !! w) as [ [ | | | | | | ] | ] eqn:Hw; try discriminate).
  - (* Dequeue *)
    pose proof (s_jobs _ _ S) as Hjobs.
    destruct (jobs r) as [ | p rest ] eqn:Hj; simplify_eq.
    + eapply (sourced_move rq r _ w AtRange Exited); eauto; cbn;
        rewrite ?Hj; try congruence; auto.
    + apply Forall_cons in Hjobs as [Hp _].
      eapply (sourced_move rq r _ w AtRange (AtSelect p)); eauto; cbn;
        rewrite ?Hj; try congruence; cbn; try lia; eauto.
  - destruct (is_closed _ _); simplify_eq.
    eapply (sourced_move rq r _ w (AtSelect proxy) Exited); eauto; cbn;
      try congruence; try lia.
  - destruct (is_closed _ _); simplify_eq.
    eapply (sourced_move rq r _ w (AtSelect proxy) PauseSeen); eauto; cbn;
      try congruence; try lia.
  - destruct (_ && _); simplify_eq.
    pose proof (s_held _ _ S) as Hh. rewrite Forall_lookup in Hh. specialize (Hh _ _ Hw).
    eapply (sourced_move rq r _ w (AtSelect proxy) (Probing proxy)); eauto; cbn;
      try congruence.
  - simplify_eq.
    eapply (sourced_move rq r _ w PauseSeen (Blocked _ _)); eauto; cbn; try congruence.
  - destruct (is_closed _ _); simplify_eq.
    eapply (sourced_move rq r _ w (Blocked resume stop) AtRange); eauto; cbn;
      try congruence.
  - destruct (is_closed _ _); simplify_eq.
    eapply (sourced_move rq r _ w (Blocked resume stop) Exited); eauto; cbn;
      try congruence.
  - destruct (checkProxy lib (req r) proxy elapsed) as [evs result]. simplify_eq.
    eapply (sourced_move rq r _ w (Probing proxy) (Holding result)); eauto; cbn;
      try congruence.
  - simplify_eq.
    eapply (sourced_move rq r _ w (Holding result) AtRange); eauto; cbn;
      try congruence; rewrite ?length_app; cbn; try lia.
  - (* WatcherDone *)
    destruct (all_exited (workers r) && negb (watched r)) eqn:Hall; [ | discriminate ].
    apply andb_true_iff in Hall as [Hall _]. simplify_eq.
    destruct S. constructor; cbn -[inFlight]; auto.
    intros _. apply forallb_Exited. exact Hall.
  - unfold Manager.Pause, close_chan in Hs. repeat case_match; simplify_eq;
      apply sourced_call; auto.
  - unfold Manager.Resume, close_chan, make_chan in Hs. repeat case_match; simplify_eq;
      apply sourced_call; auto.
  - unfold Manager.Stop, make_chan in Hs. repeat case_match; simplify_eq;
      apply sourced_call; auto.
  - unfold Manager.ForcePause, close_chan, make_chan in Hs. repeat case_match; simplify_eq;
      apply sourced_call; auto.
  - unfold Manager.ForceStop, close_chan, make_chan in Hs. repeat case_match; simplify_eq;
      apply sourced_call; auto.
  - simplify_eq. apply sourced_call; auto.
    unfold Manager.ClearResults. destruct (_ && _); cbn; lia.
  - simplify_eq. apply sourced_call; auto.
Qed.

Lemma all_dead_call (r : Run) (m' : Manager.t) (h' : Chans) :
  all_dead r ->
  (Manager.results m' = Manager.results (mgr r) \/ Manager.results m' = []) ->
  all_dead (set_mgr m' h' r).
Proof.
  intros [Dres Dheld] Hres. constructor; cbn; [ | assumption ].
  destruct Hres as [-> | ->]; [ assumption | constructor ].
Qed.

Lemma step_all_dead_any (rq : ProxyCheckRequest) (l : Label) (r r' : Run) :
  failingProbe rq l -> sourced rq r -> all_dead r -> step l r = Some r' -> all_dead r'.
Proof.
  intros Hfail S D Hs. pose proof D as [Dres Dheld].
  destruct l; unfold step in Hs;
    try (destruct (workers r !! w) as [ [ | | | | | | ] | ] eqn:Hw; try discriminate).
  - destruct (jobs r); simplify_eq; constructor; cbn; auto; apply Forall_insert; auto.
  - destruct (is_closed _ _); simplify_eq; constructor; cbn; auto; apply Forall_insert; auto.
  - destruct (is_closed _ _); simplify_eq; constructor; cbn; auto; apply Forall_insert; auto.
  - destruct (_ && _); simplify_eq; constructor; cbn; auto; apply Forall_insert; auto.
  - simplify_eq; constructor; cbn; auto; apply Forall_insert; auto.
  - destruct (is_closed _ _); simplify_eq; constructor; cbn; auto; apply Forall_insert; auto.
  - destruct (is_closed _ _); simplify_eq; constructor; cbn; auto; apply Forall_insert; auto.
  - pose proof (s_held _ _ S) as Hh. rewrite Forall_lookup in Hh. specialize (Hh _ _ Hw).
    cbn in Hh. cbn in Hfail. destruct (Hfail _ Hh) as [e He].
    rewrite <- (s_req _ _ S) in He.
    destruct (checkProxy_failed lib (req r) proxy elapsed e He) as (Hdead & _).
    destruct (checkProxy lib (req r) proxy elapsed) as [evs result]. cbn in Hdead.
    simplify_eq. constructor; cbn; auto. apply Forall_insert; auto.
  - rewrite Forall_lookup in Dheld. pose proof (Dheld _ _ Hw) as Hdead. cbn in Hdead.
    simplify_eq. constructor; cbn.
    + unfold recordResult; cbn. apply Forall_app. split; [ assumption | ].
      constructor; [ assumption | constructor ].
    + apply Forall_insert; [ | exact I ]. apply Forall_lookup. assumption.
  - destruct (_ && _); simplify_eq. constructor; cbn; assumption.
  - unfold Manager.Pause, close_chan in Hs. repeat case_match; simplify_eq;
      apply all_dead_call; auto.
  - unfold Manager.Resume, close_chan, make_chan in Hs. repeat case_match; simplify_eq;
      apply all_dead_call; auto.
  - unfold Manager.Stop, make_chan in Hs. repeat case_match; simplify_eq;
      apply all_dead_call; auto.
  - unfold Manager.ForcePause, close_chan, make_chan in Hs. repeat case_match; simplify_eq;
      apply all_dead_call; auto.
  - unfold Manager.ForceStop, close_chan, make_chan in Hs. repeat case_match; simplify_eq;
      apply all_dead_call; auto.
  - simplify_eq. apply all_dead_call; auto.
    unfold Manager.ClearResults. destruct (_ && _); cbn; auto.
  - simplify_eq. apply all_dead_call; auto.
Qed.

(** The invariants along any run in which every probe fails and
    [ClearResults] is not called. *)
Lemma failing_any_run_invariants (rq : ProxyCheckRequest) (m : Manager.t) (h : Chans)
    (r0 r : Run) (ls : list Label) :
  Start rq m h = Started r0 ->
  Forall (fun l => failingProbe rq l /\ l <> CallClearResults) ls ->
  exec ls r0 = Some r ->
  sourced rq r /\ tallied r /\ all_dead r.
Proof.
  intros Hstart Hls Hexec.
  eapply (exec_invariant (fun r => sourced rq r /\ tallied r /\ all_dead r)
            (fun l => failingProbe rq l /\ l <> CallClearResults));
    [ | exact Hls | | exact Hexec ].
  - intros l r1 r2 [Hf Hc] (S & T & D) Hs.
    split; [ | split ].
    + eapply step_sourced; eauto.
    + eapply step_tallied; eauto.
    + eapply step_all_dead_any; eauto.
  - eapply Start_sourced; eauto.
Qed.

(** What the snapshot shows when every result is DEAD. *)
Lemma all_dead_snapshot (r : Run) :
  tallied r -> all_dead r ->
  let s := Manager.GetStats (mgr r) in
  Live s = 0 /\ Errors s = 0 /\ Dead s = GoInt.len (Manager.GetResults (mgr r)) /\
  Total s = GoInt.len (ProxyList (req r)) /\
  SuccessRate s = PrimFloat.zero /\
  (length (Manager.GetResults (mgr r)) = length (ProxyList (req r)) ->
   Dead s = Total s /\ Pending s = 0).
Proof.
  intros [Tt Tl Td Te _] [Dres _]. cbn zeta.
  destruct (all_dead_filters _ Dres) as (Fd & Fl & Fo).
  rewrite Fl in Tl. rewrite Fd in Td. rewrite Fo in Te.
  assert (Hz : GoInt.len (@nil ProxyResult) = 0) by reflexivity.
  rewrite Hz in Tl, Te.
  unfold Manager.GetResults, Manager.GetStats. cbn.
  do 5 (split; [ assumption || reflexivity | ]).
  intros Hlen.
  assert (Hd : Dead (Manager.stats (mgr r)) = Total (Manager.stats (mgr r))).
  { rewrite Td, Tt. unfold GoInt.len. rewrite Hlen. reflexivity. }
  split; [ exact Hd | ].
  - rewrite Tl, Te, Hd.
    assert (Hr : GoInt.in_int64 (Total (Manager.stats (mgr r)))).
    { rewrite Tt. apply GoIntFacts.wrap64_range. }
    unwrap64. lia.
Qed.

(** C6, as stated, fails.  Every probe of this run fails and the run is
    completed, but the job the worker held when it saw the pause was
    dropped without a result: at the end Dead is 1 of a Total of 2. *)
Lemma failed_probes_counterexample :
  Start twoProxies freshManager freshChans = Started (startedRun twoProxies) /\
  exec pausedOnceDead (startedRun twoProxies) = Some (after pausedOnceDead twoProxies) /\
  Forall (failingProbe twoProxies) pausedOnceDead /\
  completed (after pausedOnceDead twoProxies) = true /\
  Live (Manager.GetStats (mgr (after pausedOnceDead twoProxies))) = 0 /\
  Dead (Manager.GetStats (mgr (after pausedOnceDead twoProxies))) = 1 /\
  Total (Manager.GetStats (mgr (after pausedOnceDead twoProxies))) = 2 /\
  Dead (Manager.GetStats (mgr (after pausedOnceDead twoProxies)))
  <> Total (Manager.GetStats (mgr (after pausedOnceDead twoProxies))).
Proof.
  split; [ reflexivity | ]. split; [ vm_compute; reflexivity | ].
  split.
  { unfold pausedOnceDead.
    repeat (apply Forall_cons; split;
            [ try exact I;
              intros p [<- | [<- | []]]; eexists; vm_compute; reflexivity | ]).
    apply Forall_nil. exact I. }
  split; [ vm_compute; reflexivity | ]. split; [ vm_compute; reflexivity | ].
  split; [ vm_compute; reflexivity | ]. split; [ vm_compute; reflexivity | ].
  vm_compute. discriminate.
Qed.

(** C6, amended.  A probe that returns an error gives a DEAD result with
    the error's text; an address without a colon is such a probe, with the
    invalid-format error, for every requested type the manager supports;
    the worker then records the result and is back at the head of its loop
    with the queue as it was.  Take a check started on a manager on which
    no worker of an earlier check is alive, in which every probe fails
    and during which [ClearResults] is not called: the snapshot shows at
    every point Live = 0, Errors = 0, success rate 0 and Dead = the number
    of results, which is Total (and Pending is 0) once every endpoint has
    its result.  That is the case at the end of every such check with at
    least one worker during which no call at all is made. *)
Theorem failed_probes_recorded_dead :
  (forall (lib : Lib) (rq : ProxyCheckRequest) (proxy : string) (elapsed : Z) (e : error),
     probeOutcome lib rq proxy = Err e ->
     Status (snd (checkProxy lib rq proxy elapsed)) = "DEAD" /\
     Error (snd (checkProxy lib rq proxy elapsed)) = Error_text e /\
     Proxy (snd (checkProxy lib rq proxy elapsed)) = proxy /\
     Latency (snd (checkProxy lib rq proxy elapsed)) = elapsed) /\
  (forall (lib : Lib) (rq : ProxyCheckRequest) (proxy : string),
     strings_Contains proxy ":" = false ->
     In (ProxyType_ rq) [Auto; HTTP; HTTPS; SOCKS4; SOCKS5] ->
     probeOutcome lib rq proxy = Err ErrInvalidProxyFormat /\
     Error_text ErrInvalidProxyFormat = "invalid proxy format") /\
  (forall (r : Run) (w : nat) (proxy : string) (lib : Lib) (elapsed : Z),
     workers r !! w = Some (Probing proxy) ->
     exists r1 r2,
       step (ProbeDone w lib elapsed) r = Some r1 /\
       step (Append w) r1 = Some r2 /\
       Manager.results (mgr r2)
         = Manager.results (mgr r) ++ [snd (checkProxy lib (req r) proxy elapsed)] /\
       workers r2 !! w = Some AtRange /\
       jobs r2 = jobs r) /\
  (forall (h0 : Chans) (earlier : list (ProxyCheckRequest * list Label))
          (rq : ProxyCheckRequest) (m : Manager.t) (h : Chans) (r0 r : Run) (ls : list Label),
     afterChecks earlier (Manager.NewManager h0) = Some (m, h) ->
     Start rq m h = Started r0 ->
     Forall (fun l => failingProbe rq l /\ l <> CallClearResults) ls ->
     exec ls r0 = Some r ->
     let s := Manager.GetStats (mgr r) in
     Forall (fun res => Status res = "DEAD") (Manager.GetResults (mgr r)) /\
     Live s = 0 /\ Errors s = 0 /\
     Dead s = GoInt.len (Manager.GetResults (mgr r)) /\
     Total s = GoInt.len (ProxyList rq) /\
     SuccessRate s = PrimFloat.zero /\
     (length (Manager.GetResults (mgr r)) = length (ProxyList rq) ->
      Dead s = Total s /\ Pending s = 0)) /\
  (forall (h0 : Chans) (earlier : list (ProxyCheckRequest * list Label))
          (rq : ProxyCheckRequest) (m : Manager.t) (h : Chans) (r0 r : Run) (ls : list Label),
     afterChecks earlier (Manager.NewManager h0) = Some (m, h) ->
     wf_chans h -> 1 <= Threads rq ->
     Start rq m h = Started r0 ->
     Forall (failing rq) ls ->
     exec ls r0 = Some r ->
     completed r = true ->
     let s := Manager.GetStats (mgr r) in
     length (Manager.GetResults (mgr r)) = length (ProxyList rq) /\
     Forall (fun res => Status res = "DEAD") (Manager.GetResults (mgr r)) /\
     Total s = GoInt.len (ProxyList rq) /\
     Live s = 0 /\ Dead s = Total s /\ Errors s = 0 /\ Pending s = 0 /\
     SuccessRate s = PrimFloat.zero).
Proof.
  split; [ exact checkProxy_failed | ].
  split.
  { intros lib rq proxy Hc Hty. split; [ | reflexivity ].
    unfold probeOutcome.
    rewrite (probe_rejects_malformed lib rq _ proxy Hc); [ reflexivity | ].
    destruct (resolveType_supported lib rq proxy) as [[Hne ->] | [_ H]]; [ | exact H ].
    cbn in Hty. destruct Hty as [E | [E | [E | [E | [E | []]]]]]; auto.
    congruence. }
  split.
  { intros r w proxy lib elapsed Hw.
    destruct (step_ProbeDone r w proxy lib elapsed Hw) as (r1 & Hs1 & Hw1 & Hm1 & Hj1 & _).
    destruct (step_Append r1 w _ Hw1) as (r2 & Hs2 & Hw2 & Hres2 & Hj2 & _).
    exists r1, r2. rewrite Hres2, Hm1, Hj2, Hj1. auto. }
  split.
  { intros h0 earlier rq m h r0 r ls _ Hstart Hls Hexec.
    destruct (failing_any_run_invariants rq m h r0 r ls Hstart Hls Hexec) as (S & T & D).
    pose proof (all_dead_snapshot r T D) as Hsnap. cbn zeta in *.
    rewrite (s_req _ _ S) in Hsnap.
    destruct Hsnap as (Hl & He & Hd & Ht & Hsr & Hfull).
    split; [ exact (d_results _ D) | auto 10 ]. }
  intros h0 earlier rq m h r0 r ls _ Hwf Hth Hstart Hls Hexec Hc.
  destruct (failing_run_invariants rq m h r0 r ls Hwf Hstart Hls Hexec) as (U & T & D).
  cbn zeta.
  pose proof (uninterrupted_complete rq r Hth U Hc) as Hlen.
  pose proof (all_dead_snapshot r T D) as Hsnap. cbn zeta in Hsnap.
  rewrite (u_req _ _ U) in Hsnap.
  destruct Hsnap as (Hl & He & Hd & Ht & Hsr & Hfull).
  destruct (Hfull Hlen) as [Hdt Hp].
  split; [ exact Hlen | ]. split; [ exact (d_results _ D) | auto 10 ].
Qed.

Lemma twoDead_failing : Forall (failing twoProxies) twoDead.
Proof.
  unfold twoDead.
  repeat (apply Forall_cons; split;
          [ split; [ reflexivity | ];
            try exact I;
            intros p [<- | [<- | []]]; eexists; vm_compute; reflexivity | ]).
  apply Forall_nil. exact I.
Qed.

Lemma freshChans_wf : wf_chans freshChans.
Proof. unfold wf_chans. vm_compute. constructor. Qed.

(** C6, amended, on a concrete run: two unreachable proxies, one worker,
    no call, on a new manager. *)
Lemma failed_probes_recorded_dead_witness :
  let s := Manager.GetStats (mgr (after twoDead twoProxies)) in
  length (Manager.GetResults (mgr (after twoDead twoProxies))) = length (ProxyList twoProxies) /\
  Forall (fun res => Status res = "DEAD") (Manager.GetResults (mgr (after twoDead twoProxies))) /\
  Total s = GoInt.len (ProxyList twoProxies) /\
  Live s = 0 /\ Dead s = Total s /\ Errors s = 0 /\ Pending s = 0 /\
  SuccessRate s = PrimFloat.zero.
Proof.
  apply (proj2 (proj2 (proj2 (proj2 failed_probes_recorded_dead))) emptyChans []
               twoProxies freshManager freshChans
               (startedRun twoProxies) (after twoDead twoProxies) twoDead
               ltac:(reflexivity)
               freshChans_wf ltac:(vm_compute; discriminate) started_twoProxies
               twoDead_failing exec_twoDead ltac:(vm_compute; reflexivity)).
Defined.

(** The results of that run, as recorded. *)
Lemma twoDead_results :
  Manager.GetResults (mgr (after twoDead twoProxies)) =
    [ mkProxyResult "192.0.2.1:8080" HTTP "DEAD" 3 "" "" ""
        "proxy connection failed: connect: connection refused" false false;
      mkProxyResult "192.0.2.2:8080" HTTP "DEAD" 4 "" "" ""
        "proxy connection failed: connect: connection refused" false false ] /\
  Dead (Manager.GetStats (mgr (after twoDead twoProxies))) = 2.
Proof. vm_compute. auto. Qed.

(** ** The snapshot against the statistics from scratch *)

(** C2, as the code has it: no line of the manager writes SuccessRate and
    [GetStats] does not copy it, so every snapshot holds 0 there.  At the
    end of the sample run of one live proxy the snapshot and the statistics
    computed from scratch over the result collection agree on the counters,
    the per-type counts and the average speed, and differ on the success
    rate: 0 against 100. *)
Theorem snapshot_success_rate_is_zero :
  (forall m : Manager.t, SuccessRate (Manager.GetStats m) = PrimFloat.zero) /\
  (let r := after oneLive oneProxy in
   let snapshot := Manager.GetStats (mgr r) in
   let scratch := statsFromScratch (Total snapshot) (Manager.GetResults (mgr r)) in
   exec oneLive (startedRun oneProxy) = Some r /\
   completed r = true /\
   (Total snapshot = 1 /\ Live snapshot = 1 /\ Dead snapshot = 0 /\ Errors snapshot = 0 /\
    Pending snapshot = 0 /\ AverageSpeed snapshot = 5) /\
   (Live scratch = Live snapshot /\ Dead scratch = Dead snapshot /\
    Errors scratch = Errors snapshot /\ Pending scratch = Pending snapshot /\
    TypeCounts scratch = TypeCounts snapshot /\
    AverageSpeed scratch = AverageSpeed snapshot) /\
   SuccessRate snapshot = PrimFloat.zero /\
   SuccessRate scratch = GoInt.to_float64 100 /\
   PrimFloat.eqb (SuccessRate snapshot) (SuccessRate scratch) = false).
Proof.
  split; [ reflexivity | ].
  cbn zeta. split; [ exact exec_oneLive | ].
  repeat split; vm_compute; reflexivity.
Qed.

(** ** While every worker is parked *)

Lemma parked_step (l : Label) (r r' : Run) :
  Forall (parked (chans r)) (workers r) ->
  internal l = true -> step l r = Some r' ->
  l = WatcherDone /\
  Manager.results (mgr r') = Manager.results (mgr r) /\
  Manager.stats (mgr r') = Manager.stats (mgr r) /\
  workers r' = workers r /\ chans r' = chans r.
Proof.
  intros Hp Hi Hs. rewrite Forall_lookup in Hp.
  destruct l; try discriminate Hi; unfold step in Hs;
    try (destruct (workers r !! w) as [ ws | ] eqn:Hw; [ | discriminate ];
         specialize (Hp _ _ Hw); destruct ws; try contradiction; try discriminate;
         cbn in Hp; destruct Hp as [Hr Hst]; rewrite ?Hr, ?Hst in Hs; discriminate).
  destruct (_ && _); simplify_eq. cbn. auto.
Qed.

(** In that state no move of the worker is possible. *)
Lemma parked_worker_cannot_move :
  forall l, internal l = true -> step l (after pausedMidProbe twoProxies) = None.
Proof.
  intros l Hi.
  destruct (step l (after pausedMidProbe twoProxies)) as [r' | ] eqn:Hs; [ | reflexivity ].
  assert (Hp : Forall (parked (chans (after pausedMidProbe twoProxies)))
                 (workers (after pausedMidProbe twoProxies)))
    by (vm_compute; repeat constructor).
  destruct (parked_step l _ r' Hp Hi Hs) as (-> & _).
  vm_compute in Hs. discriminate.
Qed.

(** ** The average speed of the manager *)

Lemma sum_list_insert (f : wstate -> nat) (ws : list wstate) (w : nat) (old new : wstate) :
  ws !! w = Some old ->
  (sum_list (f <$> <[w := new]> ws) + f old = sum_list (f <$> ws) + f new)%nat.
Proof.
  revert w. induction ws as [ | x ws IH ]; intros w Hw.
  - discriminate.
  - destruct w as [ | w ].
    + change (Some x = Some old) in Hw. simplify_eq.
      change (<[0%nat := new]> (old :: ws)) with (new :: ws).
      rewrite !fmap_cons. change (sum_list (?a :: ?l)) with (a + sum_list l)%nat.
      generalize (sum_list (f <$> ws)), (f new), (f old). intros. lia.
    + change (ws !! w = Some old) in Hw. specialize (IH w Hw).
      change (<[S w := new]> (x :: ws)) with (x :: <[w := new]> ws).
      rewrite !fmap_cons. change (sum_list (?a :: ?l)) with (a + sum_list l)%nat.
      revert IH.
      generalize (sum_list (f <$> ws)), (sum_list (f <$> <[w := new]> ws)),
                 (f new), (f old), (f x).
      intros. lia.
Qed.

Lemma sumZ_insert (g : wstate -> Z) (ws : list wstate) (w : nat) (old new : wstate) :
  ws !! w = Some old ->
  sumZ (g <$> <[w := new]> ws) + g old = sumZ (g <$> ws) + g new.
Proof.
  unfold sumZ. revert w. induction ws as [ | x ws IH ]; intros w Hw.
  - discriminate.
  - destruct w as [ | w ].
    + change (Some x = Some old) in Hw. simplify_eq.
      change (<[0%nat := new]> (old :: ws)) with (new :: ws).
      rewrite !fmap_cons. cbn [fold_right].
      generalize (fold_right Z.add 0 (g <$> ws)), (g new), (g old). intros. lia.
    + change (ws !! w = Some old) in Hw. specialize (IH w Hw).
      change (<[S w := new]> (x :: ws)) with (x :: <[w := new]> ws).
      rewrite !fmap_cons. cbn [fold_right].
      revert IH.
      generalize (fold_right Z.add 0 (g <$> ws)),
                 (fold_right Z.add 0 (g <$> <[w := new]> ws)), (g new), (g old), (g x).
      intros. lia.
Qed.

Lemma sum_list_cons_eq (a : nat) (l : list nat) : sum_list (a :: l) = (a + sum_list l)%nat.
Proof. reflexivity. Qed.

Lemma liveHeld_le_inFlight (ws : list wstate) : (liveHeld ws <= inFlight ws)%nat.
Proof.
  unfold liveHeld, inFlight. induction ws as [ | x ws IH ]; [ reflexivity | ].
  rewrite !fmap_cons, !sum_list_cons_eq.
  assert (liveHold x <= holdsJob x)%nat.
  { destruct x; cbn; try lia. destruct (isLive result); lia. }
  lia.
Qed.

Lemma liveHeld_zero_latency (ws : list wstate) :
  liveHeld ws = 0%nat -> heldLatency ws = 0.
Proof.
  unfold liveHeld, heldLatency, sumZ. induction ws as [ | x ws IH ]; [ reflexivity | ].
  rewrite !fmap_cons, sum_list_cons_eq.
  cbn [fold_right]. intros H.
  assert (Hx : liveHold x = 0%nat) by lia.
  assert (Hws : sum_list (liveHold <$> ws) = 0%nat) by lia.
  rewrite (IH Hws).
  destruct x; cbn in *; try lia. destruct (isLive result); [ discriminate | lia ].
Qed.

Lemma liveHeld_exited (ws : list wstate) :
  Forall (fun ws => ws = Exited) ws -> liveHeld ws = 0%nat.
Proof.
  unfold liveHeld. induction 1 as [ | x ws Hx _ IH ]; [ reflexivity | ].
  subst x. rewrite fmap_cons. cbn. exact IH.
Qed.

(** A move of a worker that neither starts nor ends the holding of a live
    result and leaves the manager's data alone. *)
Lemma averaging_move (r r' : Run) (w : nat) (old new : wstate) :
  averaging r ->
  workers r !! w = Some old ->
  liveHold old = 0%nat -> liveHold new = 0%nat ->
  heldLatencyOf old = 0 -> heldLatencyOf new = 0 ->
  workers r' = <[w := new]> (workers r) ->
  Manager.results (mgr r') = Manager.results (mgr r) ->
  Manager.stats (mgr r') = Manager.stats (mgr r) ->
  totalLatency r' = totalLatency r -> liveCount r' = liveCount r ->
  averaging r'.
Proof.
  intros [Ac At Aq Az] Hw Ho Hn Hlo Hln Hws Hres Hst Htl Hlc.
  pose proof (sum_list_insert liveHold (workers r) w old new Hw) as Hl.
  pose proof (sumZ_insert heldLatencyOf (workers r) w old new Hw) as Hz.
  assert (Hlh : liveHeld (workers r') = liveHeld (workers r)).
  { unfold liveHeld. rewrite Hws. lia. }
  assert (Hhl : heldLatency (workers r') = heldLatency (workers r)).
  { unfold heldLatency. rewrite Hws. lia. }
  constructor; rewrite ?Hres, ?Hst, ?Htl, ?Hlc, ?Hlh, ?Hhl; assumption.
Qed.

Lemma averaging_call (r : Run) (m' : Manager.t) (h' : Chans) :
  averaging r ->
  Manager.results m' = Manager.results (mgr r) ->
  Manager.stats m' = Manager.stats (mgr r) ->
  averaging (set_mgr m' h' r).
Proof.
  intros [Ac At Aq Az] Hres Hst.
  constructor; cbn [set_mgr mgr workers totalLatency liveCount];
    rewrite ?Hres, ?Hst; assumption.
Qed.

Lemma recordResult_AverageSpeed (result : ProxyResult) (tl lc : Z) (m : Manager.t) :
  AverageSpeed (Manager.stats (recordResult result tl lc m))
  = if 0 <? lc then GoInt.quot tl lc else AverageSpeed (Manager.stats m).
Proof.
  unfold recordResult; cbn [Manager.stats].
  destruct (0 <? lc); repeat (destruct (String.eqb _ _)); reflexivity.
Qed.

Lemma recordResult_results (result : ProxyResult) (tl lc : Z) (m : Manager.t) :
  Manager.results (recordResult result tl lc m) = Manager.results m ++ [result].
Proof. reflexivity. Qed.

Lemma step_averaging (rq : ProxyCheckRequest) (l : Label) (r r' : Run) :
  Z.of_nat (length (ProxyList rq)) < GoInt.two63 ->
  l <> CallClearResults ->
  sourced rq r -> averaging r -> step l r = Some r' -> averaging r'.
Proof.
  intros Hbound Hclear S A Hs.
  destruct l; unfold step in Hs;
    try (destruct (workers r !! w) as [ [ | | | | | | ] | ] eqn:Hw; try discriminate).
  - destruct (jobs r); simplify_eq;
      [ eapply (averaging_move r _ w AtRange Exited A Hw)
      | eapply (averaging_move r _ w AtRange (AtSelect _) A Hw) ]; reflexivity.
  - destruct (is_closed _ _); simplify_eq.
    eapply (averaging_move r _ w (AtSelect proxy) Exited A Hw); reflexivity.
  - destruct (is_closed _ _); simplify_eq.
    eapply (averaging_move r _ w (AtSelect proxy) PauseSeen A Hw); reflexivity.
  - destruct (_ && _); simplify_eq.
    eapply (averaging_move r _ w (AtSelect proxy) (Probing _) A Hw); reflexivity.
  - simplify_eq. eapply (averaging_move r _ w PauseSeen (Blocked _ _) A Hw); reflexivity.
  - destruct (is_closed _ _); simplify_eq.
    eapply (averaging_move r _ w (Blocked resume stop) AtRange A Hw); reflexivity.
  - destruct (is_closed _ _); simplify_eq.
    eapply (averaging_move r _ w (Blocked resume stop) Exited A Hw); reflexivity.
  - (* ProbeDone *)
    destruct (checkProxy lib (req r) proxy elapsed) as [evs result].
    change (String.eqb (Status result) "LIVE") with (isLive result) in Hs.
    destruct (isLive result) eqn:Hlive; simplify_eq.
    + pose proof (sum_list_insert liveHold (workers r) w _ (Holding result) Hw) as Hl.
      pose proof (sumZ_insert heldLatencyOf (workers r) w _ (Holding result) Hw) as Hz.
      pose proof (sum_list_insert holdsJob (workers r) w _ (Holding result) Hw) as Hf.
      pose proof (liveHeld_le_inFlight (<[w := Holding result]> (workers r))) as Hle.
      pose proof (s_count _ _ S) as Hcount.
      pose proof (List.filter_length_le isLive (Manager.results (mgr r))) as Hfl.
      cbn [liveHold heldLatencyOf holdsJob] in Hl, Hz, Hf. rewrite Hlive in Hl, Hz.
      unfold liveHeld, heldLatency, inFlight in *.
      destruct A as [Ac At Aq Az].
      constructor; cbn [liveCount totalLatency workers mgr].
      * rewrite Ac. unfold liveHeld. unfold GoInt.two63 in Hbound. unwrap64. lia.
      * rewrite At. unfold heldLatency. unwrap64. lia.
      * unfold liveHeld. intros Hq. lia.
      * rewrite Ac. unfold liveHeld. unfold GoInt.two63 in Hbound. intros Hq.
        unwrap64. lia.
    + eapply (averaging_move r _ w (Probing proxy) (Holding result) A Hw);
        cbn; rewrite ?Hlive; reflexivity.
  - (* Append *)
    simplify_eq.
    pose proof (sum_list_insert liveHold (workers r) w _ AtRange Hw) as Hl.
    pose proof (sumZ_insert heldLatencyOf (workers r) w _ AtRange Hw) as Hz.
    cbn [liveHold heldLatencyOf] in Hl, Hz.
    destruct A as [Ac At Aq Az].
    constructor; cbn [liveCount totalLatency workers mgr];
      rewrite ?recordResult_AverageSpeed, ?recordResult_results, ?filter_snoc.
    + rewrite Ac. unfold liveHeld.
      destruct (isLive result); rewrite ?length_app; cbn [length]; lia.
    + rewrite At. unfold heldLatency. f_equal.
      destruct (isLive result); rewrite ?fmap_app, ?sumZ_app; cbn; lia.
    + intros Hq. destruct (0 <? liveCount r) eqn:Hpos; [ reflexivity | ].
      apply Az. apply Z.ltb_ge in Hpos. lia.
    + intros Hq. rewrite Hq. cbn. apply Az. exact Hq.
  - (* WatcherDone *)
    destruct (_ && _); simplify_eq. destruct A. constructor; cbn; assumption.
  - unfold Manager.Pause, close_chan in Hs. repeat case_match; simplify_eq;
      apply averaging_call; auto.
  - unfold Manager.Resume, close_chan, make_chan in Hs. repeat case_match; simplify_eq;
      apply averaging_call; auto.
  - unfold Manager.Stop, make_chan in Hs. repeat case_match; simplify_eq;
      apply averaging_call; auto.
  - unfold Manager.ForcePause, close_chan, make_chan in Hs. repeat case_match; simplify_eq;
      apply averaging_call; auto.
  - unfold Manager.ForceStop, close_chan, make_chan in Hs. repeat case_match; simplify_eq;
      apply averaging_call; auto.
  - contradiction.
  - simplify_eq. apply averaging_call; auto.
Qed.

Lemma copy_map (m : gmap string Z) :
  map_fold (fun k v acc => <[k := v]> acc) ∅ m = m.
Proof.
  induction m as [ | i x m Hi IH ] using map_ind.
  - apply map_fold_empty.
  - rewrite map_fold_insert_L; [ rewrite IH; reflexivity | | exact Hi ].
    intros j1 j2 z1 z2 y Hne _ _. apply insert_insert_ne. exact Hne.
Qed.

Lemma Start_averaging (rq : ProxyCheckRequest) (m : Manager.t) (h : Chans) (r0 : Run) :
  Start rq m h = Started r0 -> averaging r0.
Proof.
  unfold Start. intros H.
  destruct (Manager.running m); [ discriminate | ].
  destruct (Threads rq <? 0) eqn:Hth; [ discriminate | ].
  unfold make_chan in H. cbn in H. simplify_eq.
  assert (Hl : forall n, liveHeld (repeat AtRange n) = 0%nat).
  { intros n. unfold liveHeld. induction n; cbn; auto. }
  assert (Hz : forall n, heldLatency (repeat AtRange n) = 0).
  { intros n. apply liveHeld_zero_latency, Hl. }
  constructor; cbn [liveCount totalLatency workers mgr Manager.results Manager.stats
                    List.filter length AverageSpeed];
    rewrite ?Hl, ?Hz; reflexivity.
Qed.

(** The invariants along any run in which [ClearResults] is not called. *)
Lemma run_invariants (rq : ProxyCheckRequest) (m : Manager.t) (h : Chans)
    (r0 r : Run) (ls : list Label) :
  Z.of_nat (length (ProxyList rq)) < GoInt.two63 ->
  Start rq m h = Started r0 ->
  Forall (fun l => l <> CallClearResults) ls ->
  exec ls r0 = Some r ->
  sourced rq r /\ tallied r /\ averaging r.
Proof.
  intros Hbound Hstart Hls Hexec.
  eapply (exec_invariant (fun r => sourced rq r /\ tallied r /\ averaging r)
            (fun l => l <> CallClearResults));
    [ | exact Hls | | exact Hexec ].
  - intros l r1 r2 Hc (S & T & A) Hs.
    split; [ | split ].
    + eapply step_sourced; eauto.
    + eapply step_tallied; eauto.
    + eapply step_averaging; eauto.
  - destruct (Start_sourced rq m h r0 Hstart) as (S & T & _).
    split; [ exact S | ]. split; [ exact T | ]. eapply Start_averaging; eauto.
Qed.

(** X1. What the manager's snapshot does keep.  Take a check of fewer
    than 2^63 endpoints, started on a manager on which no worker of an
    earlier check is alive, and during which [ClearResults] is not called.
    At every point the snapshot agrees with the statistics computed from
    scratch, over the result collection and the size of the batch, on
    Total, Live, Dead, Errors, Pending and the per-type counts, and once
    the run is completed on the average speed too; the whole snapshot is
    then the statistics from scratch but for the success rate, which it
    holds at 0. *)
Theorem snapshot_agrees_but_for_success_rate
    (h0 : Chans) (earlier : list (ProxyCheckRequest * list Label))
    (rq : ProxyCheckRequest) (m : Manager.t) (h : Chans) (r0 r : Run) (ls : list Label) :
  afterChecks earlier (Manager.NewManager h0) = Some (m, h) ->
  Z.of_nat (length (ProxyList rq)) < GoInt.two63 ->
  Start rq m h = Started r0 ->
  Forall (fun l => l <> CallClearResults) ls ->
  exec ls r0 = Some r ->
  let snapshot := Manager.GetStats (mgr r) in
  let scratch := statsFromScratch (GoInt.len (ProxyList rq)) (Manager.GetResults (mgr r)) in
  (Total snapshot = Total scratch /\ Live snapshot = Live scratch /\
   Dead snapshot = Dead scratch /\ Errors snapshot = Errors scratch /\
   Pending snapshot = Pending scratch /\
   TypeCounts snapshot = TypeCounts scratch) /\
  (completed r = true ->
   AverageSpeed snapshot = AverageSpeed scratch /\
   snapshot = set_SuccessRate PrimFloat.zero scratch).
Proof.
  intros _ Hbound Hstart Hls Hexec. cbn zeta.
  destruct (run_invariants rq m h r0 r ls Hbound Hstart Hls Hexec) as (S & T & A).
  destruct T as [Tt Tl Td Te Tty]. rewrite (s_req _ _ S) in Tt.
  unfold Manager.GetStats, Manager.GetResults, statsFromScratch.
  cbn [Total Live Dead Errors Pending Checking TypeCounts AverageSpeed set_Pending
       set_SuccessRate SuccessRate ThreadCount].
  rewrite copy_map, <- Tl, <- Td, <- Te, <- Tty, <- Tt.
  split; [ repeat split; reflexivity | ].
  intros Hc. unfold completed in Hc.
  pose proof (s_watched _ _ S Hc) as Hall.
  pose proof (liveHeld_exited _ Hall) as Hlh.
  pose proof (liveHeld_zero_latency _ Hlh) as Hhl.
  destruct A as [Ac At Aq Az].
  rewrite Hlh, Nat.add_0_r in Ac. rewrite Hhl, Z.add_0_r in At.
  pose proof (s_count _ _ S) as Hcount.
  pose proof (List.filter_length_le isLive (Manager.results (mgr r))) as Hfl.
  assert (Hlen : GoInt.len (List.filter isLive (Manager.results (mgr r))) = liveCount r).
  { rewrite Ac. apply GoIntFacts.wrap64_small.
    unfold GoInt.in_int64, GoInt.two63 in *. lia. }
  assert (Hsum : sum64 (Latency <$> List.filter isLive (Manager.results (mgr r)))
                 = totalLatency r).
  { rewrite At. apply sum64_exact. }
  assert (Havg : (if 0 <? Live (Manager.stats (mgr r))
                  then GoInt.quot (sum64 (Latency <$> List.filter isLive
                                                         (Manager.results (mgr r))))
                                  (Live (Manager.stats (mgr r)))
                  else 0) = AverageSpeed (Manager.stats (mgr r))).
  { rewrite (Aq Hlh), Hsum, Tl, Hlen. reflexivity. }
  split; [ symmetry; exact Havg | ].
  rewrite Havg. unfold set_SuccessRate.
  cbn [Total Live Dead Errors Pending Checking TypeCounts AverageSpeed ThreadCount].
  reflexivity.
Qed.

(** On the sample run with a pause and a resume, on a new manager. *)
Lemma snapshot_agrees_but_for_success_rate_witness :
  Manager.GetStats (mgr (after pausedOnce twoProxies))
  = set_SuccessRate PrimFloat.zero
      (statsFromScratch (GoInt.len (ProxyList twoProxies))
                        (Manager.GetResults (mgr (after pausedOnce twoProxies)))).
Proof.
  apply (snapshot_agrees_but_for_success_rate emptyChans [] twoProxies freshManager freshChans
           (startedRun twoProxies) (after pausedOnce twoProxies) pausedOnce).
  - reflexivity.
  - vm_compute. reflexivity.
  - exact started_twoProxies.
  - unfold pausedOnce. repeat (apply Forall_cons; split; [ discriminate | ]). apply Forall_nil.
    exact I.
  - exact exec_pausedOnce.
  - vm_compute. reflexivity.
Defined.

(** ** Two runs at the edge of the statements above *)

(** Every probe fails, but the job the worker held at the pause has no
    result: Dead is 1 of a Total of 2 at the end of the run. *)
Lemma pausedOnceDead_snapshot :
  let r := after pausedOnceDead twoProxies in
  exec pausedOnceDead (startedRun twoProxies) = Some r /\
  completed r = true /\
  Status <$> Manager.GetResults (mgr r) = ["DEAD"] /\
  Dead (Manager.GetStats (mgr r)) = 1 /\
  Total (Manager.GetStats (mgr r)) = 2 /\
  Pending (Manager.GetStats (mgr r)) = 1.
Proof. cbn zeta. repeat apply conj; vm_compute; reflexivity. Qed.

(** [ClearResults] during a pause empties the results and not the latency
    totals of [Start]: at the end of the run the snapshot's average is that
    of both live results, 15, while the collection holds the second one only,
    whose latency is 20; Total is 0 and Pending is -1. *)
Lemma clearedWhilePaused_snapshot :
  let r := after clearedWhilePaused threeProxies in
  let snapshot := Manager.GetStats (mgr r) in
  exec clearedWhilePaused (startedRun threeProxies) = Some r /\
  completed r = true /\
  Latency <$> Manager.GetResults (mgr r) = [20] /\
  AverageSpeed snapshot = 15 /\
  AverageSpeed (statsFromScratch (Total snapshot) (Manager.GetResults (mgr r))) = 20 /\
  Total snapshot = 0 /\ Pending snapshot = -1.
Proof. cbn zeta. repeat apply conj; vm_compute; reflexivity. Qed.
(** ** The helpers of [ProxyType] *)

(** X3. [GetProxyTypeFromString] keeps the four names of the supported
    kinds and turns every other text, "auto" included, into [UNKNOWN]: its
    result is valid exactly for those four names, and on a valid kind it
    undoes [String]. *)
Theorem proxy_type_from_string (s : string) :
  GetProxyTypeFromString s = (if IsValid s then s else UNKNOWN) /\
  (IsValid (GetProxyTypeFromString s) = true <->
   s = "http" \/ s = "https" \/ s = "socks4" \/ s = "socks5") /\
  (IsValid s = true -> GetProxyTypeFromString (ProxyType_String s) = s) /\
  GetProxyTypeFromString (ProxyType_String Auto) = UNKNOWN /\
  IsValid UNKNOWN = false.
Proof.
  assert (H1 : GetProxyTypeFromString s = (if IsValid s then s else UNKNOWN)).
  { unfold GetProxyTypeFromString, IsValid, HTTP, HTTPS, SOCKS4, SOCKS5.
    destruct (String.eqb s "http") eqn:E1; [ apply String.eqb_eq in E1; subst; reflexivity | ].
    destruct (String.eqb s "https") eqn:E2; [ apply String.eqb_eq in E2; subst; reflexivity | ].
    destruct (String.eqb s "socks4") eqn:E3; [ apply String.eqb_eq in E3; subst; reflexivity | ].
    destruct (String.eqb s "socks5") eqn:E4; [ apply String.eqb_eq in E4; subst; reflexivity | ].
    reflexivity. }
  assert (H2 : IsValid s = true <-> s = "http" \/ s = "https" \/ s = "socks4" \/ s = "socks5").
  { unfold IsValid, HTTP, HTTPS, SOCKS4, SOCKS5.
    rewrite !orb_true_iff, !String.eqb_eq. tauto. }
  split; [ exact H1 | ]. split; [ | split; [ | split; reflexivity ] ].
  - rewrite H1, <- H2. destruct (IsValid s) eqn:Hv; cbv iota; [ rewrite Hv; tauto | ].
    split; [ vm_compute | ]; discriminate.
  - intros Hv. unfold ProxyType_String. rewrite H1, Hv. reflexivity.
Qed.

(** ** The result lists *)

Lemma elems_built {A} (l : list A) : elems (built l) = l.
Proof. destruct l; reflexivity. Qed.

Lemma selected_cons {A} (keep : ProxyResult -> bool) (pick : ptr -> ProxyResult -> A)
    (h : Heap) (p : ptr) (l : list ptr) :
  selected keep pick h (p :: l) =
    match load h p with
    | Some r => if keep r then pick p r :: selected keep pick h l else selected keep pick h l
    | None => selected keep pick h l
    end.
Proof.
  unfold selected. cbn [omap list_omap].
  destruct (load h p) as [r | ]; [ destruct (keep r) | ]; reflexivity.
Qed.

Lemma selectLoop_spec {A} (keep : ProxyResult -> bool) (pick : ptr -> ProxyResult -> A)
    (h : Heap) (l : list ptr) (acc : slice A) :
  ProxyResultList.selectLoop keep pick h l acc =
    if allValid h l
    then Some (match selected keep pick h l with
               | [] => acc
               | s => Some (elems acc ++ s)
               end)
    else None.
Proof.
  revert acc. induction l as [ | p l IH ]; intros acc; [ reflexivity | ].
  rewrite selected_cons.
  cbn [ProxyResultList.selectLoop allValid forallb].
  fold (allValid h l).
  destruct (load h p) as [r | ]; [ | reflexivity ].
  cbn [andb]. rewrite IH.
  destruct (allValid h l); [ | reflexivity ].
  f_equal. destruct (keep r); [ | reflexivity ].
  unfold slice_append.
  destruct (selected keep pick h l); cbn; rewrite <- ?app_assoc; reflexivity.
Qed.

Lemma selectLoop_nil {A} (keep : ProxyResult -> bool) (pick : ptr -> ProxyResult -> A)
    (h : Heap) (l : list ptr) :
  ProxyResultList.selectLoop keep pick h l None =
    if allValid h l then Some (built (selected keep pick h l)) else None.
Proof.
  rewrite selectLoop_spec. destruct (allValid h l); [ | reflexivity ].
  destruct (selected keep pick h l); reflexivity.
Qed.

Lemma selected_pointers (keep : ProxyResult -> bool) (h : Heap) (l : list ptr) :
  selected keep (fun p _ => p) h l = List.filter (pointsTo h keep) l.
Proof.
  induction l as [ | p l IH ]; [ reflexivity | ].
  rewrite selected_cons. cbn [List.filter].
  unfold pointsTo at 1. rewrite IH.
  destruct (load h p) as [r | ]; [ destruct (keep r) | ]; reflexivity.
Qed.

Lemma allValid_filter (f : ptr -> bool) (h : Heap) (l : list ptr) :
  allValid h l = true -> allValid h (List.filter f l) = true.
Proof.
  unfold allValid. rewrite !forallb_forall. intros H p [Hp _]%filter_In. auto.
Qed.

Lemma filter_twice {A} (f g : A -> bool) (l : list A) :
  List.filter f (List.filter g l) = List.filter g (List.filter f l).
Proof.
  induction l as [ | x l IH ]; [ reflexivity | ].
  cbn [List.filter]. destruct (f x) eqn:Hf, (g x) eqn:Hg; cbn [List.filter];
    rewrite ?Hf, ?Hg, IH; reflexivity.
Qed.

Lemma filter_same {A} (f : A -> bool) (l : list A) :
  List.filter f (List.filter f l) = List.filter f l.
Proof.
  induction l as [ | x l IH ]; [ reflexivity | ].
  cbn [List.filter]. destruct (f x) eqn:Hf; cbn [List.filter]; rewrite ?Hf, IH; reflexivity.
Qed.

(** X4. [FilterByStatus] and [FilterByType] return, in the order of the
    list, the pointers of the list whose result has the status (the kind)
    asked for: the same pointers, not copies, and a nil slice when none has
    it; with a nil pointer in the list they panic.  Filtering the outcome
    again by the same status changes nothing, and filtering by a status and
    by a kind gives the same whichever comes first. *)
Theorem filters_select_in_order (h : Heap) (l : ProxyResultList.t)
    (status : ProxyStatus) (proxyType : ProxyType) :
  let byStatus := ProxyResultList.FilterByStatus status l h in
  let byType := ProxyResultList.FilterByType proxyType l h in
  byStatus = (if allValid h (elems l)
              then Some (built (List.filter (pointsTo h (hasStatus status)) (elems l)))
              else None) /\
  byType = (if allValid h (elems l)
            then Some (built (List.filter
                                (pointsTo h (fun r => String.eqb (Type_ r) proxyType)) (elems l)))
            else None) /\
  (byStatus ≫= fun out => ProxyResultList.FilterByStatus status out h) = byStatus /\
  (byStatus ≫= fun out => ProxyResultList.FilterByType proxyType out h)
  = (byType ≫= fun out => ProxyResultList.FilterByStatus status out h).
Proof.
  cbn zeta.
  assert (HS : forall l0, ProxyResultList.FilterByStatus status l0 h =
                 if allValid h (elems l0)
                 then Some (built (List.filter (pointsTo h (hasStatus status)) (elems l0)))
                 else None).
  { intros l0. unfold ProxyResultList.FilterByStatus.
    rewrite selectLoop_nil, selected_pointers. reflexivity. }
  assert (HT : forall l0, ProxyResultList.FilterByType proxyType l0 h =
                 if allValid h (elems l0)
                 then Some (built (List.filter
                        (pointsTo h (fun r => String.eqb (Type_ r) proxyType)) (elems l0)))
                 else None).
  { intros l0. unfold ProxyResultList.FilterByType.
    rewrite selectLoop_nil, selected_pointers. reflexivity. }
  split; [ apply HS | ]. split; [ apply HT | ].
  rewrite (HS l), (HT l).
  destruct (allValid h (elems l)) eqn:Hv; cbn [mbind option_bind]; [ | split; reflexivity ].
  rewrite !HS, !HT, !elems_built, !allValid_filter by exact Hv.
  rewrite filter_same, filter_twice. split; reflexivity.
Qed.

Lemma selected_values {A} (keep : ProxyResult -> bool) (g : ProxyResult -> A)
    (h : Heap) (l : list ptr) :
  selected keep (fun _ r => g r) h l
  = omap (fun p => g <$> load h p) (List.filter (pointsTo h keep) l).
Proof.
  induction l as [ | p l IH ]; [ reflexivity | ].
  rewrite selected_cons. cbn [List.filter]. unfold pointsTo at 1.
  destruct (load h p) as [r | ] eqn:Hp; [ | exact IH ].
  destruct (keep r); [ | exact IH ].
  cbn [omap list_omap]. rewrite Hp. cbn. f_equal. exact IH.
Qed.

Lemma selected_pair {A B} (keep : ProxyResult -> bool) (f : ProxyResult -> A)
    (g : ProxyResult -> B) (R : A -> B -> Prop) (h : Heap) (l : list ptr) :
  (forall r, R (f r) (g r)) ->
  Forall2 R (selected keep (fun _ r => f r) h l) (selected keep (fun _ r => g r) h l).
Proof.
  intros HR. induction l as [ | p l IH ]; [ constructor | ].
  rewrite !selected_cons.
  destruct (load h p) as [r | ]; [ | exact IH ].
  destruct (keep r); [ constructor; auto | exact IH ].
Qed.

(** X5. [GetLiveProxies] and [GetLiveProxiesWithType] list, in order, the
    addresses of the results [FilterByStatus(StatusLive)] keeps: the plain
    address for the first, the address after the kind and "://" for the
    second, entry by entry; both are nil when no result is live and panic
    when the filter does. *)
Theorem live_proxies_follow_the_filter (h : Heap) (l : ProxyResultList.t) :
  let live := ProxyResultList.FilterByStatus StatusLive l h in
  ProxyResultList.GetLiveProxies l h
  = (live ≫= fun out => Some (built (omap (fun p => Proxy <$> load h p) (elems out)))) /\
  ProxyResultList.GetLiveProxiesWithType l h
  = (live ≫= fun out =>
       Some (built (omap (fun p => (fun r => Type_ r +:+ "://" +:+ Proxy r) <$> load h p)
                         (elems out)))) /\
  (forall names typed,
     ProxyResultList.GetLiveProxies l h = Some names ->
     ProxyResultList.GetLiveProxiesWithType l h = Some typed ->
     Forall2 (fun n t => exists kind, t = kind +:+ "://" +:+ n) (elems names) (elems typed)).
Proof.
  cbn zeta.
  unfold ProxyResultList.GetLiveProxies, ProxyResultList.GetLiveProxiesWithType,
         ProxyResultList.FilterByStatus.
  rewrite !selectLoop_nil, selected_pointers.
  destruct (allValid h (elems l)); cbn [mbind option_bind];
    [ | repeat split; try reflexivity; intros; discriminate ].
  rewrite elems_built, !selected_values.
  split; [ reflexivity | ]. split; [ reflexivity | ].
  intros names typed [= <-] [= <-]. rewrite !elems_built, <- !selected_values.
  apply (selected_pair _ Proxy (fun r => Type_ r +:+ "://" +:+ Proxy r)).
  intros r. exists (Type_ r). reflexivity.
Qed.

Lemma load_app (h h2 : Heap) (p : ptr) :
  is_Some (load h p) -> load (h ++ h2) p = load h p.
Proof.
  destruct p as [a | ]; cbn; [ | intros [? [=]] ].
  intros Hs. apply lookup_app_l. apply lookup_lt_is_Some. exact Hs.
Qed.

Lemma allValid_app (h h2 : Heap) (l : list ptr) :
  allValid h l = true -> allValid (h ++ h2) l = true.
Proof.
  unfold allValid. rewrite !forallb_forall. intros H p Hp. specialize (H p Hp).
  destruct (load h p) eqn:E; [ | discriminate ].
  rewrite load_app by (rewrite E; eauto). rewrite E. reflexivity.
Qed.

Lemma allValid_lookup (h : Heap) (l : list ptr) (i : nat) (p : ptr) :
  allValid h l = true -> l !! i = Some p -> is_Some (load h p).
Proof.
  unfold allValid. rewrite forallb_forall. intros H Hi.
  specialize (H p (proj1 (list_elem_of_In _ _) (list_elem_of_lookup_2 _ _ _ Hi))).
  destruct (load h p); [ eauto | discriminate ].
Qed.

(** The cells a clone of the list adds to the store. *)
Lemma cloneEach_spec (l : list ptr) (h : Heap) :
  allValid h l = true ->
  exists vs,
    ProxyResultList.cloneEach l h = Some (Some <$> seq (length h) (length l), h ++ vs) /\
    length vs = length l /\
    forall i p, l !! i = Some p -> vs !! i = load h p.
Proof.
  revert h. induction l as [ | p l IH ]; intros h Hv.
  - exists []. rewrite app_nil_r. split; [ reflexivity | ]. split; [ reflexivity | ].
    intros i p [=].
  - cbn [allValid forallb] in Hv. apply andb_true_iff in Hv as [Hp Hv]. fold (allValid h l) in Hv.
    destruct (load h p) as [r | ] eqn:Hr; [ clear Hp | discriminate ].
    cbn [ProxyResultList.cloneEach]. unfold Clone. rewrite Hr. unfold alloc.
    replace (mkProxyResult _ _ _ _ _ _ _ _ _ _) with r by (destruct r; reflexivity).
    destruct (IH (h ++ [r]) (allValid_app _ _ _ Hv)) as (vs & Hc & Hlen & Hvs).
    rewrite Hc. exists (r :: vs). rewrite length_app, <- app_assoc. cbn [length app].
    rewrite Nat.add_1_r. split; [ reflexivity | ]. split.
    + cbn. rewrite Hlen. reflexivity.
    + intros [ | i ] q Hq.
      * injection Hq as <-. symmetry. exact Hr.
      * change (vs !! i = load h q). change (l !! i = Some q) in Hq.
        rewrite (Hvs i q Hq). apply load_app. eapply allValid_lookup; eauto.
Qed.

Lemma cloneEach_nil (l : list ptr) (h : Heap) :
  In None l -> ProxyResultList.cloneEach l h = None.
Proof.
  revert h. induction l as [ | p l IH ]; intros h; [ intros [] | ].
  intros [-> | Hin]; [ reflexivity | ].
  cbn [ProxyResultList.cloneEach]. destruct (Clone p h) as [[c h1] | ]; [ | reflexivity ].
  rewrite (IH h1 Hin). reflexivity.
Qed.

(** X6. [ProxyResultList.Clone] is a deep copy.  On a list whose pointers
    all point to results it returns a list of the same length (nil for
    nil) of new pointers, each to a result with the fields of the original
    at its place; the originals are left as they were; and a later write
    through a pointer of one list is not seen through any pointer of the
    other.  With a nil pointer in the list it panics. *)
Theorem Clone_is_a_deep_copy (h : Heap) (l : ProxyResultList.t) :
  (allValid h (elems l) = true ->
   exists l' h',
     ProxyResultList.Clone l h = Some (l', h') /\
     (l' = None <-> l = None) /\
     length (elems l') = length (elems l) /\
     (forall p, is_Some (load h p) -> load h' p = load h p) /\
     (forall i p, elems l !! i = Some p ->
        exists c, elems l' !! i = Some c /\ load h c = None /\ load h' c = load h p) /\
     (forall i j p c f h'',
        elems l !! i = Some p -> elems l' !! j = Some c ->
        (store c f h' = Some h'' -> load h'' p = load h p) /\
        (store p f h' = Some h'' -> load h'' c = load h' c))) /\
  (In None (elems l) -> ProxyResultList.Clone l h = None).
Proof.
  split.
  - intros Hv. destruct l as [rs | ];
      [ change (elems (Some rs)) with rs in * | change (elems (@None (list ptr))) with (@nil ptr) in * ].
    + destruct (cloneEach_spec rs h Hv) as (vs & Hc & Hlen & Hvs).
      exists (Some (Some <$> seq (length h) (length rs))), (h ++ vs).
      unfold ProxyResultList.Clone. rewrite Hc.
      change (elems (Some (Some <$> seq (length h) (length rs))))
        with (Some <$> seq (length h) (length rs)).
      assert (Hfresh : forall j c, (Some <$> seq (length h) (length rs)) !! j = Some c ->
                c = Some (length h + j)%nat /\ (j < length rs)%nat).
      { intros j c Hj. rewrite list_lookup_fmap in Hj.
        destruct (seq _ _ !! j) as [a | ] eqn:Ha; [ | discriminate ].
        apply lookup_seq in Ha as [-> Hlt]. injection Hj as <-. auto. }
      split; [ reflexivity | ]. split; [ split; discriminate | ].
      split; [ rewrite length_fmap, length_seq; reflexivity | ].
      split; [ intros p Hp; apply load_app; exact Hp | ].
      split.
      * intros i p Hi. exists (Some (length h + i)%nat).
        assert (Hlt : (i < length rs)%nat) by (eapply lookup_lt_Some; eauto).
        split; [ rewrite list_lookup_fmap, lookup_seq_lt by exact Hlt; reflexivity | ].
        split; [ unfold load; apply lookup_ge_None; lia | ].
        rewrite <- (Hvs i p Hi). unfold load. rewrite lookup_app_r by lia.
        replace (length h + i - length h)%nat with i by lia. reflexivity.
      * intros i j p c f h'' Hi Hj.
        destruct (Hfresh j c Hj) as [-> Hlt].
        destruct (allValid_lookup h rs i p Hv Hi) as [r Hr].
        destruct p as [a | ]; [ | discriminate ]. cbn in Hr.
        assert (Ha : (a < length h)%nat) by (eapply lookup_lt_Some; eauto).
        split; unfold store; intros Hst; repeat case_match; simplify_eq; cbn.
        -- rewrite list_lookup_insert_ne by lia. rewrite lookup_app_l by exact Ha. reflexivity.
        -- rewrite list_lookup_insert_ne by lia. reflexivity.
    + exists None, h. split; [ reflexivity | ]. split; [ tauto | ]. split; [ reflexivity | ].
      split; [ auto | ]. split; [ intros ? ? [=] | intros ? ? ? ? ? ? [=] ].
  - destruct l as [rs | ]; cbn [elems default]; [ | intros [] ].
    intros Hin. unfold ProxyResultList.Clone. rewrite (cloneEach_nil rs h Hin). reflexivity.
Qed.

(** ** The tracker, from scratch *)

Section TrackerFromScratch.

Import StatsTracker.

Lemma len_filter_snoc {A} (f : A -> bool) (l : list A) (x : A) :
  GoInt.len (List.filter f (l ++ [x]))
  = if f x then GoInt.add (GoInt.len (List.filter f l)) 1 else GoInt.len (List.filter f l).
Proof. rewrite filter_snoc. destruct (f x); [ apply len_snoc | reflexivity ]. Qed.

(** The statuses the tracker tells apart exclude one another. *)
Lemma status_cases (r : ProxyResult) :
  let b s := hasStatus s r in
  (b StatusLive = true /\ b StatusDead = false /\ b StatusError = false /\ b StatusChecking = false) \/
  (b StatusLive = false /\ b StatusDead = true /\ b StatusError = false /\ b StatusChecking = false) \/
  (b StatusLive = false /\ b StatusDead = false /\ b StatusError = true /\ b StatusChecking = false) \/
  (b StatusLive = false /\ b StatusDead = false /\ b StatusError = false /\ b StatusChecking = true) \/
  (b StatusLive = false /\ b StatusDead = false /\ b StatusError = false /\ b StatusChecking = false).
Proof.
  cbn zeta. unfold hasStatus.
  destruct (String.eqb (Status r) StatusLive) eqn:E1;
    [ apply String.eqb_eq in E1; rewrite E1; vm_compute; tauto | ].
  destruct (String.eqb (Status r) StatusDead) eqn:E2;
    [ apply String.eqb_eq in E2; rewrite E2; vm_compute; tauto | ].
  destruct (String.eqb (Status r) StatusError) eqn:E3;
    [ apply String.eqb_eq in E3; rewrite E3; vm_compute; tauto | ].
  destruct (String.eqb (Status r) StatusChecking) eqn:E4; tauto.
Qed.

Lemma status_partition (rs : list ProxyResult) :
  (length (List.filter (hasStatus StatusLive) rs)
   + length (List.filter (hasStatus StatusDead) rs)
   + length (List.filter (hasStatus StatusError) rs)
   + length (List.filter (hasStatus StatusChecking) rs) <= length rs)%nat.
Proof.
  induction rs as [ | r rs IH ]; [ cbn; lia | ].
  cbn [List.filter length].
  destruct (status_cases r) as [H | [H | [H | [H | H]]]]; cbn zeta in H;
    destruct H as (-> & -> & -> & ->); cbn [length]; lia.
Qed.

Lemma recompute_rate_fields (s : Stats) :
  let s' := recompute_rate s in
  Total s' = Total s /\ ThreadCount s' = ThreadCount s /\ Live s' = Live s /\
  Dead s' = Dead s /\ Errors s' = Errors s /\ Checking s' = Checking s /\
  Pending s' = Pending s /\ TypeCounts s' = TypeCounts s.
Proof. cbn zeta. unfold recompute_rate. destruct (0 <? _); repeat split; reflexivity. Qed.

Lemma update_status_fields (r : ProxyResult) (st : t) :
  let s := stats st in
  let s' := stats (update_status r st) in
  Total s' = Total s /\ ThreadCount s' = ThreadCount s /\
  Live s' = (if hasStatus StatusLive r then GoInt.add (Live s) 1 else Live s) /\
  Dead s' = (if hasStatus StatusDead r then GoInt.add (Dead s) 1 else Dead s) /\
  Errors s' = (if hasStatus StatusError r then GoInt.add (Errors s) 1 else Errors s) /\
  Checking s' = (if hasStatus StatusChecking r then GoInt.add (Checking s) 1 else Checking s) /\
  Pending s' = (if hasStatus StatusLive r || hasStatus StatusDead r
                   || hasStatus StatusError r || hasStatus StatusChecking r
                then GoInt.sub (Pending s) 1 else Pending s) /\
  TypeCounts s' = TypeCounts s /\
  SuccessRate s' = SuccessRate s.
Proof.
  cbn zeta. unfold update_status.
  destruct (status_cases r) as [H | [H | [H | [H | H]]]]; cbn zeta in H;
    destruct H as (H1 & H2 & H3 & H4); rewrite H1, H2, H3, H4;
    unfold hasStatus in H1, H2, H3, H4; rewrite H1, ?H2, ?H3, ?H4;
    try (destruct (0 <? Latency r)); cbn [stats orb]; repeat split; reflexivity.
Qed.

Lemma UpdateWithResult_fields (r : ProxyResult) (st : t) :
  let s := stats st in
  let s' := stats (UpdateWithResult r st) in
  Total s' = Total s /\ ThreadCount s' = ThreadCount s /\
  Live s' = (if hasStatus StatusLive r then GoInt.add (Live s) 1 else Live s) /\
  Dead s' = (if hasStatus StatusDead r then GoInt.add (Dead s) 1 else Dead s) /\
  Errors s' = (if hasStatus StatusError r then GoInt.add (Errors s) 1 else Errors s) /\
  Checking s' = (if hasStatus StatusChecking r then GoInt.add (Checking s) 1 else Checking s) /\
  Pending s' = (if hasStatus StatusLive r || hasStatus StatusDead r
                   || hasStatus StatusError r || hasStatus StatusChecking r
                then GoInt.sub (Pending s) 1 else Pending s) /\
  TypeCounts s' = (if negb (String.eqb (Type_ r) "")
                   then incr_count (Type_ r) (TypeCounts s) else TypeCounts s) /\
  SuccessRate s' =
    (let c := GoInt.add (GoInt.add (Live s') (Dead s')) (Errors s') in
     if 0 <? c then success_rate (Live s') c else SuccessRate s).
Proof.
  cbn zeta. unfold UpdateWithResult. cbn [stats].
  set (st1 := if String.eqb (Type_ r) "" then st else _).
  destruct (recompute_rate_fields (stats (update_status r st1)))
    as (-> & -> & -> & -> & -> & -> & -> & ->).
  destruct (update_status_fields r st1) as (-> & -> & HL & HD & HE & -> & -> & -> & HS).
  assert (H1 : Total (stats st1) = Total (stats st) /\
               ThreadCount (stats st1) = ThreadCount (stats st) /\
               Live (stats st1) = Live (stats st) /\ Dead (stats st1) = Dead (stats st) /\
               Errors (stats st1) = Errors (stats st) /\
               Checking (stats st1) = Checking (stats st) /\
               Pending (stats st1) = Pending (stats st) /\
               SuccessRate (stats st1) = SuccessRate (stats st) /\
               TypeCounts (stats st1) = (if negb (String.eqb (Type_ r) "")
                   then incr_count (Type_ r) (TypeCounts (stats st)) else TypeCounts (stats st))).
  { subst st1. destruct (String.eqb (Type_ r) ""); cbn; repeat split; reflexivity. }
  destruct H1 as (H1 & H2 & H3 & H4 & H5 & H6 & H7 & H8 & H9).
  rewrite <- H1, <- H2, <- H3, <- H4, <- H5, <- H6, <- H7, <- H8, <- H9.
  repeat split; try assumption; try reflexivity.
  unfold recompute_rate. destruct (0 <? _); [ reflexivity | exact HS ].
Qed.

(** The counters and the map after a stream of results. *)
Lemma feed_counters (totalProxies : Z) (st0 : t) (rs : list ProxyResult) :
  GoInt.in_int64 totalProxies ->
  let s := stats (feed rs (Reset totalProxies st0)) in
  let t := trackerFromScratch totalProxies rs in
  Total s = Total t /\ Live s = Live t /\ Dead s = Dead t /\ Errors s = Errors t /\
  Pending s = Pending t /\ Checking s = Checking t /\ TypeCounts s = TypeCounts t /\
  ThreadCount s = 0.
Proof.
  intros Hrange. cbn zeta. unfold trackerFromScratch. cbn [Total Live Dead Errors Pending Checking TypeCounts].
  induction rs as [ | r rs IH ] using rev_ind.
  - cbn [feed fold_left Reset stats Total Live Dead Errors Pending Checking TypeCounts
         ThreadCount List.filter].
    repeat split; try reflexivity.
    change (GoInt.len (@nil ProxyResult)) with 0. unwrap64. lia.
  - destruct IH as (HT & HL & HD & HE & HP & HC & HM & HH).
    rewrite feed_snoc, !len_filter_snoc.
    rewrite (filter_snoc (fun r0 => negb (String.eqb (Type_ r0) "")) rs r).
    set (st := feed rs (Reset totalProxies st0)) in *.
    destruct (UpdateWithResult_fields r st)
      as (HT' & HH' & HL' & HD' & HE' & HC' & HP' & Hty & _).
    cbn zeta in *.
    rewrite HT', HH', HL', HD', HE', HC', HP', Hty, HT, HL, HD, HE, HC, HP, HM, HH.
    split; [ reflexivity | ].
    destruct (status_cases r) as [H | [H | [H | [H | H]]]]; cbn zeta in H;
      destruct H as (-> & -> & -> & ->); cbn [orb];
      repeat split; try reflexivity; try (unwrap64; lia);
      (destruct (negb (String.eqb (Type_ r) ""));
       [ rewrite typeCountsOf_snoc; reflexivity | reflexivity ]).
Qed.

Lemma filter_length_snoc {A} (f : A -> bool) (l : list A) (x : A) :
  (length (List.filter f l) <= length (List.filter f (l ++ [x])))%nat.
Proof. rewrite filter_snoc. destruct (f x); rewrite ?length_app; lia. Qed.

(** Below 2^63 results the counters hold the exact numbers. *)
Lemma counters_exact (rs : list ProxyResult) :
  Z.of_nat (length rs) < GoInt.two63 ->
  let n s := Z.of_nat (length (List.filter (hasStatus s) rs)) in
  GoInt.len (List.filter (hasStatus StatusLive) rs) = n StatusLive /\
  GoInt.len (List.filter (hasStatus StatusDead) rs) = n StatusDead /\
  GoInt.len (List.filter (hasStatus StatusError) rs) = n StatusError /\
  GoInt.len (List.filter (hasStatus StatusChecking) rs) = n StatusChecking /\
  0 <= n StatusLive /\ 0 <= n StatusDead /\ 0 <= n StatusError /\ 0 <= n StatusChecking /\
  n StatusLive + n StatusDead + n StatusError + n StatusChecking < GoInt.two63.
Proof.
  intros Hlen. cbn zeta. pose proof (status_partition rs) as Hp.
  unfold GoInt.two63 in *. repeat split; try lia; unwrap64; lia.
Qed.

Lemma feed_rate (totalProxies : Z) (st0 : t) (rs : list ProxyResult) :
  GoInt.in_int64 totalProxies ->
  Z.of_nat (length rs) < GoInt.two63 ->
  SuccessRate (stats (feed rs (Reset totalProxies st0)))
  = SuccessRate (trackerFromScratch totalProxies rs).
Proof.
  intros Hrange. induction rs as [ | r rs IH ] using rev_ind; intros Hlen.
  - vm_compute. reflexivity.
  - assert (Hlen' : Z.of_nat (length rs) < GoInt.two63).
    { rewrite length_app in Hlen. cbn in Hlen. lia. }
    specialize (IH Hlen').
    destruct (feed_counters totalProxies st0 (rs ++ [r]) Hrange)
      as (_ & HL & HD & HE & _). cbn zeta in HL, HD, HE.
    rewrite feed_snoc in *.
    destruct (UpdateWithResult_fields r (feed rs (Reset totalProxies st0)))
      as (_ & _ & _ & _ & _ & _ & _ & _ & HS).
    cbn zeta in HS. rewrite HS, HL, HD, HE, IH. clear HS HL HD HE IH.
    unfold trackerFromScratch. cbn [Live Dead Errors SuccessRate].
    destruct (0 <? GoInt.add (GoInt.add (GoInt.len (List.filter (hasStatus StatusLive) (rs ++ [r])))
                                        (GoInt.len (List.filter (hasStatus StatusDead) (rs ++ [r]))))
                             (GoInt.len (List.filter (hasStatus StatusError) (rs ++ [r]))))
      eqn:Hc; [ reflexivity | ].
    apply Z.ltb_ge in Hc.
    destruct (counters_exact (rs ++ [r]) Hlen) as (E1 & E2 & E3 & _ & P1 & P2 & P3 & P4 & Hs).
    destruct (counters_exact rs Hlen') as (F1 & F2 & F3 & _ & Q1 & Q2 & Q3 & Q4 & Ht).
    cbn zeta in *. rewrite E1, E2, E3 in Hc. rewrite F1, F2, F3.
    pose proof (filter_length_snoc (hasStatus StatusLive) rs r).
    pose proof (filter_length_snoc (hasStatus StatusDead) rs r).
    pose proof (filter_length_snoc (hasStatus StatusError) rs r).
    assert (Hz : (0 <? GoInt.add (GoInt.add
                    (Z.of_nat (length (List.filter (hasStatus StatusLive) rs)))
                    (Z.of_nat (length (List.filter (hasStatus StatusDead) rs))))
                    (Z.of_nat (length (List.filter (hasStatus StatusError) rs)))) = false).
    { apply Z.ltb_ge. unfold GoInt.two63 in *. unwrap64. lia. }
    rewrite Hz. reflexivity.
Qed.

Lemma typeCountsOf_types (rs : list ProxyResult) :
  typeCountsOf rs = fold_left (fun acc ty => incr_count ty acc) (Type_ <$> rs) ∅.
Proof.
  unfold typeCountsOf. generalize (∅ : gmap string Z).
  induction rs as [ | r rs IH ]; intros acc; [ reflexivity | apply IH ].
Qed.

Lemma filter_fmap_list {A B} (f : B -> bool) (g : A -> B) (l : list A) :
  List.filter f (g <$> l) = g <$> List.filter (fun x => f (g x)) l.
Proof.
  induction l as [ | x l IH ]; [ reflexivity | ].
  cbn [fmap list_fmap List.filter]. change (list_fmap _ _ g l) with (g <$> l).
  rewrite IH. destruct (f (g x)); reflexivity.
Qed.

Lemma filter_none {A} (l : list A) : List.filter (fun _ => false) l = [].
Proof. induction l as [ | x l IH ]; [ reflexivity | exact IH ]. Qed.

Lemma checkingAsDead_fields (r : ProxyResult) :
  Type_ (checkingAsDead r) = Type_ r /\
  Latency (checkingAsDead r) = Latency r /\
  hasStatus StatusLive (checkingAsDead r) = hasStatus StatusLive r /\
  hasStatus StatusError (checkingAsDead r) = hasStatus StatusError r /\
  hasStatus StatusChecking (checkingAsDead r) = false /\
  hasStatus StatusDead (checkingAsDead r)
  = hasStatus StatusDead r || hasStatus StatusChecking r.
Proof.
  destruct (status_cases r) as [H | [H | [H | [H | H]]]]; cbn zeta in H;
    destruct H as (H1 & H2 & H3 & H4); rewrite H1, H2, H3, H4;
    unfold hasStatus in *; unfold checkingAsDead; rewrite H4; cbn;
    rewrite ?H1, ?H2, ?H3, ?H4; repeat split; reflexivity.
Qed.

Lemma dead_or_checking (rs : list ProxyResult) :
  length (List.filter (fun r => hasStatus StatusDead r || hasStatus StatusChecking r) rs)
  = (length (List.filter (hasStatus StatusDead) rs)
     + length (List.filter (hasStatus StatusChecking) rs))%nat.
Proof.
  induction rs as [ | r rs IH ]; [ reflexivity | ].
  cbn [List.filter].
  destruct (status_cases r) as [H | [H | [H | [H | H]]]]; cbn zeta in H;
    destruct H as (_ & -> & _ & ->); cbn [orb length]; lia.
Qed.

(** What taking the results under check for dead ones does to the stream. *)
Lemma checkingAsDead_stream (rs : list ProxyResult) :
  let rs' := checkingAsDead <$> rs in
  length (List.filter (hasStatus StatusLive) rs')
  = length (List.filter (hasStatus StatusLive) rs) /\
  length (List.filter (hasStatus StatusError) rs')
  = length (List.filter (hasStatus StatusError) rs) /\
  (length (List.filter (hasStatus StatusDead) rs')
   = length (List.filter (hasStatus StatusDead) rs)
     + length (List.filter (hasStatus StatusChecking) rs))%nat /\
  List.filter (hasStatus StatusChecking) rs' = [] /\
  Latency <$> List.filter counted rs' = Latency <$> List.filter counted rs /\
  Type_ <$> List.filter (fun r => negb (String.eqb (Type_ r) "")) rs'
  = Type_ <$> List.filter (fun r => negb (String.eqb (Type_ r) "")) rs.
Proof.
  cbn zeta. rewrite !filter_fmap_list, !length_fmap.
  repeat split.
  - f_equal. apply List.filter_ext. intros r. apply checkingAsDead_fields.
  - f_equal. apply List.filter_ext. intros r. apply checkingAsDead_fields.
  - rewrite <- dead_or_checking. f_equal. apply List.filter_ext.
    intros r. apply checkingAsDead_fields.
  - rewrite (List.filter_ext _ (fun _ => false)), filter_none; [ reflexivity | ].
    intros r. apply checkingAsDead_fields.
  - rewrite <- list_fmap_compose.
    rewrite (List.filter_ext _ counted).
    + apply list_fmap_ext. intros ? r _. apply checkingAsDead_fields.
    + intros r. unfold counted.
      destruct (checkingAsDead_fields r) as (_ & -> & Hl & _). unfold hasStatus in Hl.
      rewrite Hl. reflexivity.
  - rewrite <- list_fmap_compose.
    rewrite (List.filter_ext _ (fun r => negb (String.eqb (Type_ r) ""))).
    + apply list_fmap_ext. intros ? r _. apply checkingAsDead_fields.
    + intros r. destruct (checkingAsDead_fields r) as (-> & _). reflexivity.
Qed.

(** X7. The statistics of the tracker are a function of the results it
    was given since [Reset], whatever their order: for fewer than 2^63
    results, [GetStats] is the statistics computed from scratch over them
    (one counter per status, Pending the rest of the total, one count per
    non-empty kind, the success rate, the mean of the counted latencies).
    [MarkCheckingAsDead] then gives the statistics of the same results
    with every one under check taken for dead. *)
Theorem tracker_statistics_from_scratch (totalProxies : Z) (st0 : t) (rs : list ProxyResult) :
  GoInt.in_int64 totalProxies ->
  Z.of_nat (length rs) < GoInt.two63 ->
  let st := feed rs (Reset totalProxies st0) in
  GetStats st = trackerFromScratch totalProxies rs /\
  GetStats (MarkCheckingAsDead st) = trackerFromScratch totalProxies (checkingAsDead <$> rs).
Proof.
  intros Hrange Hlen. cbn zeta.
  destruct (feed_counters totalProxies st0 rs Hrange) as (HT & HL & HD & HE & HP & HC & HM & HH).
  destruct (feed_totals totalProxies st0 rs) as (_ & _ & HA).
  cbn zeta in HT, HL, HD, HE, HP, HC, HM, HH, HA.
  pose proof (feed_rate totalProxies st0 rs Hrange Hlen) as HR.
  set (st := feed rs (Reset totalProxies st0)) in *.
  split.
  - unfold GetStats. rewrite copy_map, HT, HL, HD, HE, HP, HC, HM, HR, HA. reflexivity.
  - destruct (checkingAsDead_stream rs) as (SL & SE & SD & SC & SA & ST). cbn zeta in *.
    destruct (counters_exact rs Hlen) as (E1 & E2 & E3 & E4 & P1 & P2 & P3 & P4 & Hs).
    cbn zeta in *.
    assert (HL' : GoInt.len (List.filter (hasStatus StatusLive) (checkingAsDead <$> rs))
                  = Live (stats st)).
    { rewrite HL. unfold trackerFromScratch; cbn [Live]. unfold GoInt.len. rewrite SL.
      reflexivity. }
    assert (HE' : GoInt.len (List.filter (hasStatus StatusError) (checkingAsDead <$> rs))
                  = Errors (stats st)).
    { rewrite HE. unfold trackerFromScratch; cbn [Errors]. unfold GoInt.len. rewrite SE.
      reflexivity. }
    assert (HD' : GoInt.len (List.filter (hasStatus StatusDead) (checkingAsDead <$> rs))
                  = GoInt.add (Dead (stats st)) (Checking (stats st))).
    { rewrite HD, HC. unfold trackerFromScratch; cbn [Dead Checking]. rewrite E2, E4.
      unfold GoInt.len. rewrite SD, Nat2Z.inj_add. reflexivity. }
    assert (HP' : GoInt.sub (GoInt.sub (GoInt.sub (GoInt.sub totalProxies (Live (stats st)))
                    (GoInt.add (Dead (stats st)) (Checking (stats st)))) (Errors (stats st))) 0
                  = Pending (stats st)).
    { rewrite HP, HL, HD, HE, HC. unfold trackerFromScratch.
      cbn [Live Dead Errors Checking Pending]. unwrap64. lia. }
    assert (HM' : typeCountsOf (List.filter (fun r => negb (String.eqb (Type_ r) ""))
                                            (checkingAsDead <$> rs))
                  = TypeCounts (stats st)).
    { rewrite HM. unfold trackerFromScratch; cbn [TypeCounts].
      rewrite !typeCountsOf_types, ST. reflexivity. }
    unfold trackerFromScratch. rewrite SC, SA, HL', HE', HD', HM'.
    change (GoInt.len (@nil ProxyResult)) with 0. rewrite HP'.
    unfold GetStats, MarkCheckingAsDead. cbn [stats]. rewrite copy_map.
    destruct (recompute_rate_fields
                (set_Checking 0 (set_Dead (GoInt.add (Dead (stats st)) (Checking (stats st)))
                                          (stats st))))
      as (-> & _ & -> & -> & -> & -> & -> & ->).
    rewrite recompute_rate_AverageSpeed. cbn [set_Checking set_Dead Total Live Dead Errors
      Pending Checking TypeCounts AverageSpeed].
    rewrite HT, HA. unfold trackerFromScratch at 1. cbn [Total].
    f_equal.
    unfold recompute_rate. cbn [set_Checking set_Dead Live Dead Errors SuccessRate].
    destruct (0 <? GoInt.add (GoInt.add (Live (stats st))
                (GoInt.add (Dead (stats st)) (Checking (stats st)))) (Errors (stats st)))
      eqn:Hc; [ reflexivity | ].
    cbn [set_Checking set_Dead SuccessRate]. rewrite HR.
    unfold trackerFromScratch. cbn [SuccessRate].
    apply Z.ltb_ge in Hc. rewrite HL, HD, HE, HC in Hc.
    unfold trackerFromScratch in Hc. cbn [Live Dead Errors Checking] in Hc.
    rewrite E1, E2, E3, E4 in Hc. rewrite E1, E2, E3.
    assert (Hz : (0 <? GoInt.add (GoInt.add
                    (Z.of_nat (length (List.filter (hasStatus StatusLive) rs)))
                    (Z.of_nat (length (List.filter (hasStatus StatusDead) rs))))
                    (Z.of_nat (length (List.filter (hasStatus StatusError) rs)))) = false).
    { apply Z.ltb_ge. unfold GoInt.two63 in *. unwrap64. lia. }
    rewrite Hz. reflexivity.
Qed.

Lemma tracker_statistics_from_scratch_witness :
  GetStats (feed sampleStream (Reset 3 NewStatsTracker)) = trackerFromScratch 3 sampleStream /\
  GetStats (MarkCheckingAsDead (feed sampleStream (Reset 3 NewStatsTracker)))
  = trackerFromScratch 3 (checkingAsDead <$> sampleStream).
Proof.
  apply (tracker_statistics_from_scratch 3 NewStatsTracker sampleStream).
  - unfold GoInt.in_int64, GoInt.two63. lia.
  - vm_compute. reflexivity.
Defined.

End TrackerFromScratch.

(** ** Upstream routing *)

Lemma append_nonempty (a b : string) : a <> "" -> a +:+ b <> "".
Proof. destruct a; [ congruence | discriminate ]. Qed.

(** [createUpstreamDialer] opens no connection, never answers with a
    direct dialer and refuses every kind but the four supported ones. *)
Lemma createUpstreamDialer_spec (lib : Lib) (upstreamProxy : string)
    (upstreamType : ProxyType) (timeout : Z) :
  let run := createUpstreamDialer lib upstreamProxy upstreamType timeout in
  fst run = [] /\
  (forall d, snd run = Ok d -> isDirect d = false) /\
  (IsValid upstreamType = false -> snd run = Err ErrUnsupportedProxyType).
Proof.
  cbn zeta. unfold createUpstreamDialer, IsValid.
  destruct (String.eqb upstreamType HTTP) eqn:E1;
    [ | destruct (String.eqb upstreamType HTTPS) eqn:E2 ]; cbn [orb].
  1, 2: unfold probe_bind, wrapping, pure_step, check, io_bind, io_ret, ok, fail;
    destruct (url_Parse lib _) as [u | e]; cbn;
    [ destruct (proxy_FromURL lib u _); cbn | ];
    (split; [ reflexivity | split; [ intros d [= <-]; reflexivity | discriminate ] ]).
  destruct (String.eqb upstreamType SOCKS4) eqn:E3;
    [ | destruct (String.eqb upstreamType SOCKS5) eqn:E4 ]; cbn [orb].
  1, 2: unfold probe_bind, wrapping, pure_step, check, io_bind, io_ret, ok, fail;
    destruct (proxy_SOCKS5 lib _ _ _); cbn;
    (split; [ reflexivity | split; [ intros d [= <-]; reflexivity | discriminate ] ]).
  split; [ reflexivity | split; [ discriminate | reflexivity ] ].
Qed.

(** The request every probe ends with: at most one connection attempt,
    through the transport given; a non-empty text or a non-empty error. *)
Lemma fetchOutgoingIP_spec (lib : Lib) (tr : Transport) (endpoint : string)
    (headers : list (string * string)) (doFailed : string) :
  let run := fetchOutgoingIP lib tr endpoint headers doFailed in
  (fst run = [] \/ fst run = [HTTPDo tr (mkRequest "GET" endpoint headers)]) /\
  match snd run with
  | Ok ip => ip <> ""
  | Err e => doFailed <> "" -> Error_text e <> ""
  end.
Proof.
  cbn zeta. unfold fetchOutgoingIP, probe_bind, wrapping, pure_step, check, do_request,
    io_bind, io_ret, ok, fail.
  destruct (http_NewRequest lib "GET" endpoint); cbn -[String.append];
    [ split; [ left; reflexivity | intros _; discriminate ] | ].
  destruct (client_Do lib tr _) as [resp | e]; cbn -[String.append];
    [ | split; [ right; reflexivity | intros Hne; apply append_nonempty; exact Hne ] ].
  destruct (Body resp) as [body | e]; cbn -[String.append];
    [ | split; [ right; reflexivity | intros _; discriminate ] ].
  destruct (String.eqb (strings_TrimSpace lib body) "") eqn:Hb; cbn -[String.append].
  - split; [ right; reflexivity | intros _; discriminate ].
  - split; [ right; reflexivity | apply String.eqb_neq; exact Hb ].
Qed.

(** The equations of the probe monad. *)
Lemma probe_bind_ok {A B} (evs : list Event) (x : A) (k : A -> Probe B) :
  probe_bind (evs, Ok x) k = (evs ++ fst (k x), snd (k x)).
Proof. unfold probe_bind, io_bind. destruct (k x). reflexivity. Qed.

Lemma probe_bind_err {A B} (evs : list Event) (e : error) (k : A -> Probe B) :
  probe_bind (evs, Err e) k = (evs, Err e).
Proof. unfold probe_bind, io_bind, fail, io_ret. rewrite app_nil_r. reflexivity. Qed.

Lemma wrapping_ok {A} (prefix : string) (evs : list Event) (x : A) :
  wrapping prefix (evs, Ok x) = (evs, Ok x).
Proof. unfold wrapping, io_bind, ok, io_ret. rewrite app_nil_r. reflexivity. Qed.

Lemma wrapping_err {A} (prefix : string) (evs : list Event) (e : error) :
  @wrapping A prefix (evs, Err e) = (evs, Err (fmt_Errorf prefix e)).
Proof. unfold wrapping, io_bind, fail, io_ret. rewrite app_nil_r. reflexivity. Qed.

Ltac probe_steps :=
  unfold pure_step, check, ok, fail, io_ret, dial, do_request;
  repeat first [ rewrite wrapping_ok | rewrite wrapping_err | rewrite probe_bind_ok
               | rewrite probe_bind_err | progress cbn [fst snd app] ].

(** What an HTTP or HTTPS probe answers and which connection it opens. *)
Lemma checkHTTPWith_spec (scheme : string) (lib : Lib) (proxyAddr endpoint : string)
    (timeout : Z) (upstreamProxy : string) (upstreamType : ProxyType) :
  let run := checkHTTPWith scheme lib proxyAddr endpoint timeout upstreamProxy upstreamType in
  (upstreamProxy <> "" ->
   fst run = [] \/
   exists u d,
     snd (createUpstreamDialer lib upstreamProxy upstreamType timeout) = Ok d /\
     fst run = [HTTPDo (mkTransport (Some u) d timeout) (mkRequest "GET" endpoint browserHeaders)]) /\
  (upstreamProxy <> "" -> IsValid upstreamType = false -> fst run = [] /\ exists e, snd run = Err e) /\
  match snd run with
  | Ok ip => ip <> ""
  | Err e => Error_text e <> ""
  end.
Proof.
  cbn zeta. unfold checkHTTPWith.
  destruct (strings_Contains proxyAddr ":"); cbn [negb];
    [ | cbn; repeat split; eauto; discriminate ].
  destruct (url_Parse lib (scheme +:+ proxyAddr)) as [u | e]; probe_steps;
    [ | repeat split; eauto; discriminate ].
  destruct (createUpstreamDialer_spec lib upstreamProxy upstreamType timeout)
    as (Htrace & Hdirect & Hinvalid). cbn zeta in *.
  destruct (String.eqb upstreamProxy "") eqn:Hup.
  - apply String.eqb_eq in Hup. probe_steps.
    destruct (fetchOutgoingIP_spec lib (mkTransport (Some u) (net_Dialer timeout) timeout)
                endpoint browserHeaders "proxy connection failed: ") as [_ Hres].
    cbn zeta in Hres.
    split; [ congruence | ]. split; [ congruence | ].
    destruct (snd (fetchOutgoingIP _ _ _ _ _)); [ exact Hres | apply Hres; discriminate ].
  - destruct (createUpstreamDialer lib upstreamProxy upstreamType timeout)
      as [evs [d | e]] eqn:Hd; cbn [fst snd] in *; subst evs; probe_steps.
    + destruct (fetchOutgoingIP_spec lib (mkTransport (Some u) d timeout)
                  endpoint browserHeaders "proxy connection failed: ") as [Hev Hres].
      cbn zeta in Hev, Hres.
      split; [ | split ].
      * intros _. destruct Hev as [-> | ->]; [ left; reflexivity | right; eauto ].
      * intros _ Hv. specialize (Hinvalid Hv). discriminate.
      * destruct (snd (fetchOutgoingIP _ _ _ _ _)); [ exact Hres | apply Hres; discriminate ].
    + split; [ auto | ]. split; [ eauto | discriminate ].
Qed.

(** What a SOCKS probe answers. *)
Lemma checkSOCKSWith_answer (name : string) (auth : option string) (lib : Lib)
    (proxyAddr endpoint : string) (timeout : Z) (upstreamProxy : string)
    (upstreamType : ProxyType) :
  name <> "" ->
  match snd (checkSOCKSWith name auth lib proxyAddr endpoint timeout upstreamProxy upstreamType)
  with
  | Ok ip => ip <> ""
  | Err e => Error_text e <> ""
  end.
Proof.
  intros Hname. unfold checkSOCKSWith.
  destruct (strings_Contains proxyAddr ":"); cbn [negb]; [ | cbn; discriminate ].
  destruct (String.eqb upstreamProxy ""); cbn [negb]; [ | cbn; discriminate ].
  destruct (proxy_SOCKS5 lib proxyAddr auth _); probe_steps;
    [ cbn -[String.append]; discriminate | ].
  destruct (url_Parse lib endpoint) as [u | e]; probe_steps;
    [ | cbn -[String.append]; discriminate ].
  destruct (net_Dial lib _ _ _) as [conn | e]; probe_steps;
    [ | cbn -[String.append]; apply append_nonempty, append_nonempty; exact Hname ].
  destruct (_ || _).
  - destruct (fetchOutgoingIP_spec lib
                (mkTransport None (socks5_Dialer proxyAddr auth (net_Dialer timeout)) timeout)
                endpoint [("User-Agent", userAgent)]
                ("HTTP request through " +:+ name +:+ " failed: ")) as [_ Hres].
    cbn zeta in Hres.
    destruct (snd (fetchOutgoingIP _ _ _ _ _)); [ exact Hres | apply Hres; discriminate ].
  - cbn. discriminate.
Qed.

(** A probe of any kind answers with a non-empty text or fails with a
    non-empty message. *)
Lemma probeOfType_answer (lib : Lib) (rq : ProxyCheckRequest) (proxyType : ProxyType)
    (proxy : string) :
  match snd (probeOfType lib rq proxyType proxy) with
  | Ok ip => ip <> ""
  | Err e => Error_text e <> ""
  end.
Proof.
  unfold probeOfType.
  destruct (String.eqb proxyType HTTP); [ apply checkHTTPWith_spec | ].
  destruct (String.eqb proxyType HTTPS); [ apply checkHTTPWith_spec | ].
  destruct (String.eqb proxyType SOCKS4); [ apply checkSOCKSWith_answer; discriminate | ].
  destruct (String.eqb proxyType SOCKS5); [ apply checkSOCKSWith_answer; discriminate | ].
  cbn -[String.append]. discriminate.
Qed.

(** X8. [TestUpstreamConnection] fails at once, without a connection, when
    no upstream address is given or when the kind of the upstream is not
    one of the four supported ones.  Otherwise it makes at most one
    request: a GET of the endpoint through a transport with no proxy URL
    whose dialer is the one [createUpstreamDialer] built, never a direct
    one.  When it succeeds it returns the body of the response as it is,
    and that body is not empty. *)
Theorem upstream_test_goes_through_the_upstream (lib : Lib) (up : Upstream.t)
    (endpoint : string) :
  let run := Upstream.TestUpstreamConnection lib up endpoint in
  (Upstream.Address up = "" -> run = ([], Err (errors_New "no upstream proxy specified"))) /\
  (IsValid (Upstream.Type_ up) = false -> fst run = [] /\ exists e, snd run = Err e) /\
  (fst run = [] \/
   exists d rq,
     snd (createUpstreamDialer lib (Upstream.Address up) (Upstream.Type_ up)
            (Upstream.Timeout up)) = Ok d /\
     isDirect d = false /\ Method rq = "GET" /\ Target rq = endpoint /\
     fst run = [HTTPDo (mkTransport None d (Upstream.Timeout up)) rq]) /\
  (forall ip, snd run = Ok ip ->
     ip <> "" /\ exists tr rq resp, client_Do lib tr rq = Ok resp /\ Body resp = Ok ip).
Proof.
  cbn zeta. unfold Upstream.TestUpstreamConnection.
  destruct (String.eqb (Upstream.Address up) "") eqn:Haddr.
  { split; [ reflexivity | ]. split; [ eauto | ].
    split; [ left; reflexivity | intros ip [=] ]. }
  apply String.eqb_neq in Haddr. split; [ congruence | ].
  unfold Upstream.CreateHTTPClient, Upstream.CreateHTTPTransport, Upstream.CreateDialer.
  rewrite (proj2 (String.eqb_neq _ _) Haddr).
  destruct (createUpstreamDialer_spec lib (Upstream.Address up) (Upstream.Type_ up)
              (Upstream.Timeout up)) as (Htrace & Hdirect & Hinvalid). cbn zeta in *.
  destruct (createUpstreamDialer lib (Upstream.Address up) (Upstream.Type_ up)
              (Upstream.Timeout up)) as [evs [d | e]] eqn:Hd;
    cbn [fst snd] in *; subst evs; probe_steps.
  2: { split; [ eauto | ]. split; [ left; reflexivity | intros ip [=] ]. }
  cbn [tr_Proxy tr_Dial].
  split; [ intros Hv; specialize (Hinvalid Hv); discriminate | ].
  assert (Hsent : forall q, Method q = "GET" -> Target q = endpoint ->
            [HTTPDo (mkTransport None d (Upstream.Timeout up)) q] = [] \/
            exists d0 rq,
              Ok d = Ok d0 /\ isDirect d0 = false /\ Method rq = "GET" /\ Target rq = endpoint /\
              [HTTPDo (mkTransport None d (Upstream.Timeout up)) q]
              = [HTTPDo (mkTransport None d0 (Upstream.Timeout up)) rq]).
  { intros q Hm Ht. right. exists d, q. repeat split; auto. }
  destruct (http_NewRequest lib "GET" endpoint); probe_steps;
    [ split; [ left; reflexivity | intros ip [=] ] | ].
  destruct (client_Do lib _ _) as [resp | e] eqn:Hdo; probe_steps;
    [ | split; [ apply Hsent; reflexivity | intros ip [=] ] ].
  destruct (Body resp) as [body | e] eqn:Hbody; probe_steps;
    [ | split; [ apply Hsent; reflexivity | intros ip [=] ] ].
  destruct (String.eqb body "") eqn:Hb; probe_steps;
    (split; [ apply Hsent; reflexivity | ]); [ intros ip [=] | ].
  intros ip [= <-]. split; [ apply String.eqb_neq; exact Hb | eauto ].
Qed.

(** The trace of a job of a fixed kind is the trace of its probe. *)
Lemma checkProxy_fixed (lib : Lib) (rq : ProxyCheckRequest) (proxy : string) (elapsed : Z) :
  ProxyType_ rq <> Auto ->
  fst (checkProxy lib rq proxy elapsed) = fst (probeOfType lib rq (ProxyType_ rq) proxy) /\
  snd (checkProxy lib rq proxy elapsed)
  = resultOf proxy (ProxyType_ rq) elapsed (snd (probeOfType lib rq (ProxyType_ rq) proxy)).
Proof.
  intros Hauto. unfold checkProxy, resolveType.
  rewrite (proj2 (String.eqb_neq _ _) Hauto).
  rewrite !io_bind_fst, !io_bind_snd. cbn [io_ret fst snd app]. rewrite app_nil_r. auto.
Qed.

(** X9. With an upstream proxy configured and a fixed kind asked for, a
    job never connects directly: it opens at most one connection, an HTTP
    request whose transport dials through the dialer [createUpstreamDialer]
    built for the upstream, which is never the direct one.  For the kinds
    SOCKS4 and SOCKS5, for a kind that is not supported and for an upstream
    of a kind that is not supported it opens none, and the result is DEAD. *)
Theorem probes_go_through_the_upstream (lib : Lib) (rq : ProxyCheckRequest)
    (proxy : string) (elapsed : Z) :
  ProxyType_ rq <> Auto -> UpstreamProxy rq <> "" ->
  let run := checkProxy lib rq proxy elapsed in
  (connections (fst run) = [] \/
   exists tr q d,
     connections (fst run) = [HTTPDo tr q] /\ tr_Dial tr = d /\ isDirect d = false /\
     snd (createUpstreamDialer lib (UpstreamProxy rq) (UpstreamType rq) defaultTimeout) = Ok d) /\
  (ProxyType_ rq = SOCKS4 \/ ProxyType_ rq = SOCKS5 \/ IsValid (ProxyType_ rq) = false \/
   IsValid (UpstreamType rq) = false ->
   connections (fst run) = [] /\ Status (snd run) = "DEAD").
Proof.
  intros Hauto Hup. cbn zeta.
  destruct (checkProxy_fixed lib rq proxy elapsed Hauto) as [-> ->].
  destruct (createUpstreamDialer_spec lib (UpstreamProxy rq) (UpstreamType rq) defaultTimeout)
    as (_ & Hdirect & _). cbn zeta in Hdirect.
  assert (Hhttp : forall scheme,
    let run := checkHTTPWith scheme lib proxy (Endpoint rq) defaultTimeout
                 (UpstreamProxy rq) (UpstreamType rq) in
    (connections (fst run) = [] \/
     exists tr q d,
       connections (fst run) = [HTTPDo tr q] /\ tr_Dial tr = d /\ isDirect d = false /\
       snd (createUpstreamDialer lib (UpstreamProxy rq) (UpstreamType rq) defaultTimeout) = Ok d) /\
    (IsValid (UpstreamType rq) = false ->
     connections (fst run) = [] /\ exists e, snd run = Err e)).
  { intros scheme. cbn zeta.
    destruct (checkHTTPWith_spec scheme lib proxy (Endpoint rq) defaultTimeout
                (UpstreamProxy rq) (UpstreamType rq)) as (Hev & Hinv & _). cbn zeta in *.
    split.
    - destruct (Hev Hup) as [-> | (u & d & Hd & ->)]; [ left; reflexivity | right ].
      eexists _, _, d. repeat split; eauto.
    - intros Hv. destruct (Hinv Hup Hv) as [-> He]. auto. }
  assert (Hsocks : forall name auth,
    let run := checkSOCKSWith name auth lib proxy (Endpoint rq) defaultTimeout
                 (UpstreamProxy rq) (UpstreamType rq) in
    fst run = [] /\ exists e, snd run = Err e).
  { intros name auth. cbn zeta. rewrite (checkSOCKSWith_upstream _ _ _ _ _ _ _ _ Hup). eauto. }
  unfold probeOfType, CheckHTTP, CheckHTTPS, CheckSOCKS4, CheckSOCKS5.
  destruct (String.eqb (ProxyType_ rq) HTTP) eqn:E1.
  { apply String.eqb_eq in E1. destruct (Hhttp "http://") as [H1 H2].
    split; [ exact H1 | ].
    intros [H | [H | [H | H]]]; try (rewrite E1 in H; vm_compute in H; discriminate).
    destruct (H2 H) as [-> [e ->]]. auto. }
  destruct (String.eqb (ProxyType_ rq) HTTPS) eqn:E2.
  { apply String.eqb_eq in E2. destruct (Hhttp "https://") as [H1 H2].
    split; [ exact H1 | ].
    intros [H | [H | [H | H]]]; try (rewrite E2 in H; vm_compute in H; discriminate).
    destruct (H2 H) as [-> [e ->]]. auto. }
  destruct (String.eqb (ProxyType_ rq) SOCKS4) eqn:E3.
  { destruct (Hsocks "SOCKS4" (Some "socks4")) as [H1 [e H2]].
    rewrite H1, H2. auto. }
  destruct (String.eqb (ProxyType_ rq) SOCKS5) eqn:E4.
  { destruct (Hsocks "SOCKS5" None) as [H1 [e H2]].
    rewrite H1, H2. auto. }
  cbn. auto.
Qed.

Lemma probes_go_through_the_upstream_witness :
  (connections (fst (checkProxy liveLib viaUpstream "192.0.2.1:8080" 5)) = [] \/
   exists tr q d,
     connections (fst (checkProxy liveLib viaUpstream "192.0.2.1:8080" 5)) = [HTTPDo tr q] /\
     tr_Dial tr = d /\ isDirect d = false /\
     snd (createUpstreamDialer liveLib (UpstreamProxy viaUpstream) (UpstreamType viaUpstream)
            defaultTimeout) = Ok d) /\
  (ProxyType_ viaUpstream = SOCKS4 \/ ProxyType_ viaUpstream = SOCKS5 \/
   IsValid (ProxyType_ viaUpstream) = false \/ IsValid (UpstreamType viaUpstream) = false ->
   connections (fst (checkProxy liveLib viaUpstream "192.0.2.1:8080" 5)) = [] /\
   Status (snd (checkProxy liveLib viaUpstream "192.0.2.1:8080" 5)) = "DEAD").
Proof.
  apply (probes_go_through_the_upstream liveLib viaUpstream "192.0.2.1:8080" 5);
    discriminate.
Defined.

(** ** The connections of the detection *)

Lemma connections_nil_iff (evs : list Event) :
  Forall (fun e => isConnection e = true) evs -> connections evs = evs.
Proof.
  intros H. unfold connections. induction H as [ | e evs He _ IH ]; [ reflexivity | ].
  cbn [List.filter]. rewrite He, IH. reflexivity.
Qed.

Lemma straightTo_connection (proxy : string) (timeout : Z) (evs : list Event) :
  Forall (straightTo proxy timeout) evs -> connections evs = evs /\ quickChecks evs = [].
Proof.
  intros H. induction H as [ | e evs He _ [IH1 IH2] ]; [ split; reflexivity | ].
  destruct e; cbn in He; try contradiction;
    unfold connections, quickChecks in *; cbn; rewrite IH1, IH2; split; reflexivity.
Qed.

Lemma checkSOCKS5Quick_direct (lib : Lib) (proxy : string) (timeout : Z) :
  quickCheckOK proxy timeout (fst (checkSOCKS5Quick lib proxy timeout)).
Proof.
  unfold quickCheckOK, checkSOCKS5Quick.
  destruct (proxy_SOCKS5 lib _ _ _); [ cbn; split; [ constructor | lia ] | ].
  rewrite io_bind_fst. unfold dial. cbn [fst snd].
  destruct (net_Dial lib _ _ _); cbn; (split; [ | lia ]);
    repeat constructor; right; split; reflexivity.
Qed.

Lemma checkSOCKS4Quick_direct (lib : Lib) (proxy : string) (timeout : Z) :
  quickCheckOK proxy timeout (fst (checkSOCKS4Quick lib proxy timeout)).
Proof.
  unfold quickCheckOK, checkSOCKS4Quick.
  destruct (net_SplitHostPort lib _); [ cbn; split; [ constructor | lia ] | ].
  rewrite io_bind_fst. unfold dial. cbn [fst snd].
  destruct (net_Dial lib _ _ _) as [conn | ];
    [ destruct (conn_Write conn _); [ | destruct (conn_Read conn _) ] | ];
    cbn; (split; [ | lia ]); repeat constructor; left; split; reflexivity.
Qed.

Lemma checkHEADQuick_direct (page : string) (lib : Lib) (proxy : string) (timeout : Z) :
  quickCheckOK proxy timeout (fst (checkHEADQuick page lib proxy timeout)).
Proof.
  unfold quickCheckOK, checkHEADQuick.
  destruct (url_Parse lib _); [ | cbn; split; [ constructor | lia ] ].
  destruct (http_NewRequest lib _ _); [ cbn; split; [ constructor | lia ] | ].
  rewrite io_bind_fst. unfold do_request. cbn [fst snd].
  destruct (client_Do lib _ _); cbn; (split; [ | lia ]); repeat constructor.
Qed.

Lemma detectWith_connections (proxy : string) (timeout : Z)
    (table : list ((string -> Z -> IO bool) * ProxyType)) :
  Forall (fun entry => quickCheckOK proxy timeout (fst (fst entry proxy timeout))) table ->
  let evs := fst (detectWith table proxy timeout) in
  Forall (straightTo proxy timeout) (connections evs) /\
  (length (connections evs) <= length (quickChecks evs))%nat /\
  (length (quickChecks evs) <= length table)%nat.
Proof.
  intros H. cbn zeta. induction H as [ | [checkFunc proxyType] table [Hc Hlen] _ IH ].
  - cbn. repeat split; [ constructor | lia | lia ].
  - cbn [detectWith fst] in *.
    destruct (straightTo_connection _ _ _ Hc) as [Hconn Hquick].
    rewrite !io_bind_fst. cbn [fst snd].
    rewrite !connections_app, !quickChecks_app, Hconn, Hquick.
    change (connections [QuickCheck proxyType proxy]) with (@nil Event).
    change (quickChecks [QuickCheck proxyType proxy]) with [proxyType].
    cbn [app]. destruct (snd (checkFunc proxy timeout)).
    + cbn. rewrite app_nil_r. repeat split; [ exact Hc | lia | lia ].
    + destruct IH as (IH1 & IH2 & IH3). rewrite length_app. cbn [length].
      repeat split; [ apply Forall_app; split; assumption | lia | lia ].
Qed.

(** X10. The detection of a proxy's kind opens at most one connection per
    quick check, so at most four, and every one of them straight from this
    machine: a TCP dial of the candidate, a dial through the candidate as
    a SOCKS5 proxy over a direct dialer, or a HEAD request through a
    transport with a direct dialer.  The detection a worker runs in auto
    mode is this one whatever upstream proxy the request names. *)
Theorem detection_connects_directly (lib : Lib) (proxy : string) (timeout : Z) :
  let evs := fst (DetectProxyType lib proxy timeout) in
  Forall (straightTo proxy timeout) (connections evs) /\
  (length (connections evs) <= length (quickChecks evs) <= 4)%nat /\
  (forall rq, ProxyType_ rq = Auto ->
     connections (fst (resolveType lib rq proxy))
     = connections (fst (DetectProxyType lib proxy defaultTimeout))).
Proof.
  cbn zeta.
  assert (Htable : Forall (fun entry => quickCheckOK proxy timeout (fst (fst entry proxy timeout)))
                          (protocols lib)).
  { unfold protocols.
    apply Forall_cons; split; [ apply checkSOCKS5Quick_direct | ].
    apply Forall_cons; split; [ apply checkSOCKS4Quick_direct | ].
    apply Forall_cons; split; [ apply checkHEADQuick_direct | ].
    apply Forall_cons; split; [ apply checkHEADQuick_direct | apply Forall_nil; exact I ]. }
  destruct (detectWith_connections proxy timeout (protocols lib) Htable) as (H1 & H2 & H3).
  cbn zeta in *. unfold DetectProxyType.
  split; [ exact H1 | ]. split; [ cbn [length protocols] in H3; lia | ].
  intros rq Hauto. unfold resolveType. rewrite Hauto, String.eqb_refl. cbv iota.
  rewrite io_bind_fst, connections_app. unfold DetectProxyType.
  destruct (snd (detectWith (protocols lib) proxy defaultTimeout)); cbn; apply app_nil_r.
Qed.

(** X11. [checkSOCKS4Quick] takes a proxy for a SOCKS4 one exactly when
    its address splits into host and port, the dial and the write of the
    request succeed, and the second byte of what the read returns is 90:
    neither the first byte nor the rest of the reply is looked at, and a
    reply of fewer than two bytes is refused. *)
Theorem socks4_quick_check_reads_the_second_byte (lib : Lib) (proxy : string) (timeout : Z) :
  snd (checkSOCKS4Quick lib proxy timeout) = true <->
  net_SplitHostPort lib proxy = None /\
  exists conn reply,
    net_Dial lib (net_Dialer timeout) "tcp" proxy = Ok conn /\
    conn_Write conn socks4Request = None /\
    conn_Read conn 8 = Ok reply /\
    reply !! 1%nat = Some 90.
Proof.
  unfold checkSOCKS4Quick.
  destruct (net_SplitHostPort lib proxy); [ cbn; split; [ discriminate | intros [[=] _] ] | ].
  rewrite io_bind_snd. unfold dial. cbn [snd].
  destruct (net_Dial lib _ _ _) as [conn | e];
    [ | cbn; split; [ discriminate | intros [_ (c & r & [=] & _)] ] ].
  destruct (conn_Write conn socks4Request) eqn:Hw;
    [ cbn; split; [ discriminate | intros [_ (c & r & [= <-] & Hw' & _)]; congruence ] | ].
  destruct (conn_Read conn 8) as [reply | e] eqn:Hr;
    [ | cbn; split; [ discriminate | intros [_ (c & r & [= <-] & _ & Hr' & _)]; congruence ] ].
  cbn [io_ret snd].
  assert (Hbyte : (nth 1 (firstn 8 reply ++ repeat 0 (8 - length reply)%nat) 0 =? 90) = true
                  <-> reply !! 1%nat = Some 90).
  { rewrite Z.eqb_eq. destruct reply as [ | b0 [ | b1 rest ] ]; cbn; split;
      try discriminate; try (intros [=]; congruence); intros H; congruence. }
  rewrite Hbyte. split.
  - intros H. split; [ reflexivity | ]. exists conn, reply. auto.
  - intros [_ (c & r & [= <-] & _ & Hr' & Hb)]. congruence.
Qed.

(** ** The results of a run *)

Lemma checkProxy_recorded (lib : Lib) (rq : ProxyCheckRequest) (proxy : string) (elapsed : Z) :
  In proxy (ProxyList rq) -> recorded rq (snd (checkProxy lib rq proxy elapsed)).
Proof.
  intros Hin. rewrite checkProxy_result. unfold probeOutcome.
  pose proof (probeOfType_answer lib rq (snd (resolveType lib rq proxy)) proxy) as Hans.
  pose proof (resolveType_supported lib rq proxy) as Hty. cbn zeta in Hty.
  destruct (snd (probeOfType lib rq _ proxy)) as [ip | e]; constructor; cbn; auto.
  all: destruct Hty as [[Hne ->] | [-> Hv]];
    [ rewrite (proj2 (String.eqb_neq _ _) Hne); reflexivity
    | cbn; destruct Hv as [-> | [-> | [-> | ->]]]; reflexivity ].
Qed.

(** A property of what [checkProxy] builds for the endpoints of the batch
    is a property of every result a run holds. *)
Lemma step_carried (rq : ProxyCheckRequest) (Q : ProxyResult -> Prop) (l : Label) (r r' : Run) :
  (forall lib proxy elapsed, In proxy (ProxyList rq) -> Q (snd (checkProxy lib rq proxy elapsed))) ->
  sourced rq r -> carried Q r -> step l r = Some r' -> carried Q r'.
Proof.
  intros HQ S [Cres Cheld] Hs.
  assert (Hcall : forall m' h',
            Manager.results m' = Manager.results (mgr r) \/ Manager.results m' = [] ->
            carried Q (set_mgr m' h' r)).
  { intros m' h' [Hm | Hm]; split; cbn; rewrite ?Hm; auto. }
  destruct l; unfold step in Hs;
    try (destruct (workers r !! w) as [ [ | | | | | | ] | ] eqn:Hw; try discriminate).
  - destruct (jobs r); simplify_eq; split; cbn; auto; apply Forall_insert; auto.
  - destruct (is_closed _ _); simplify_eq; split; cbn; auto; apply Forall_insert; auto.
  - destruct (is_closed _ _); simplify_eq; split; cbn; auto; apply Forall_insert; auto.
  - destruct (_ && _); simplify_eq; split; cbn; auto; apply Forall_insert; auto.
  - simplify_eq; split; cbn; auto; apply Forall_insert; auto.
  - destruct (is_closed _ _); simplify_eq; split; cbn; auto; apply Forall_insert; auto.
  - destruct (is_closed _ _); simplify_eq; split; cbn; auto; apply Forall_insert; auto.
  - pose proof (s_held _ _ S) as Hh. rewrite Forall_lookup in Hh. specialize (Hh _ _ Hw).
    cbn in Hh. pose proof (HQ lib proxy elapsed Hh) as Hres.
    rewrite <- (s_req _ _ S) in Hres.
    destruct (checkProxy lib (req r) proxy elapsed) as [evs result]. cbn in Hres.
    simplify_eq. split; cbn; auto. apply Forall_insert; auto.
  - rewrite Forall_lookup in Cheld. pose proof (Cheld _ _ Hw) as Hres. cbn in Hres.
    simplify_eq. split; cbn.
    + unfold recordResult; cbn. apply Forall_app. split; [ assumption | ].
      constructor; [ assumption | constructor ].
    + apply Forall_insert; [ | exact I ]. apply Forall_lookup. assumption.
  - destruct (_ && _); simplify_eq. split; cbn; assumption.
  - unfold Manager.Pause, close_chan in Hs. repeat case_match; simplify_eq;
      apply Hcall; auto.
  - unfold Manager.Resume, close_chan, make_chan in Hs. repeat case_match; simplify_eq;
      apply Hcall; auto.
  - unfold Manager.Stop, make_chan in Hs. repeat case_match; simplify_eq;
      apply Hcall; auto.
  - unfold Manager.ForcePause, close_chan, make_chan in Hs. repeat case_match; simplify_eq;
      apply Hcall; auto.
  - unfold Manager.ForceStop, close_chan, make_chan in Hs. repeat case_match; simplify_eq;
      apply Hcall; auto.
  - simplify_eq. apply Hcall.
    unfold Manager.ClearResults. destruct (_ && _); cbn; auto.
  - simplify_eq. apply Hcall; auto.
Qed.

Lemma run_carried (rq : ProxyCheckRequest) (Q : ProxyResult -> Prop) (m : Manager.t)
    (h : Chans) (r0 r : Run) (ls : list Label) :
  (forall lib proxy elapsed, In proxy (ProxyList rq) -> Q (snd (checkProxy lib rq proxy elapsed))) ->
  Start rq m h = Started r0 -> exec ls r0 = Some r ->
  sourced rq r /\ carried Q r.
Proof.
  intros HQ Hstart Hexec.
  eapply (exec_invariant (fun r => sourced rq r /\ carried Q r) (fun _ => True));
    [ | apply Forall_forall; auto | | exact Hexec ].
  - intros l r1 r2 _ [S C] Hs. split.
    + eapply step_sourced; eauto.
    + eapply step_carried; eauto.
  - split; [ eapply Start_sourced; eauto | ].
    unfold Start, make_chan in Hstart. repeat case_match; simplify_eq.
    split; cbn; [ constructor | ].
    apply Forall_forall. intros ws Hin. apply list_elem_of_In, repeat_spec in Hin.
    subst. exact I.
Qed.

(** The manager counts no error while every result it records is LIVE or
    DEAD. *)
Lemma step_no_errors (rq : ProxyCheckRequest) (l : Label) (r r' : Run) :
  carried (recorded rq) r ->
  Errors (Manager.stats (mgr r)) = 0 -> step l r = Some r' ->
  Errors (Manager.stats (mgr r')) = 0.
Proof.
  intros [_ Cheld] He Hs.
  destruct (step_data l r r' Hs) as [[_ Hst] | [(w & result & _ & Hw & Hm) | [_ Hm]]].
  - rewrite Hst. exact He.
  - rewrite Forall_lookup in Cheld. pose proof (Cheld _ _ Hw) as Hres. cbn in Hres.
    rewrite Hm. unfold recordResult. cbn.
    destruct (r_outcome _ _ Hres) as [(-> & _) | (-> & _)]; cbn;
      destruct (0 <? liveCount r); exact He.
  - rewrite Hm. unfold Manager.ClearResults. destruct (_ && _); [ exact He | reflexivity ].
Qed.

(** X12. Take a check started on a manager on which no worker of an
    earlier check is alive.  From its [Start] to the next, every result
    the manager holds is of an endpoint of the batch and is either LIVE
    with an outgoing address and no error text, or DEAD with an error text
    and no outgoing address; its kind is the one asked for, or in auto
    mode one of the four supported kinds; its country, country code,
    anonymity and HTTPS flags are never set.  No result has another
    status, so the Errors counter of every snapshot is 0. *)
Theorem results_are_live_or_dead (h0 : Chans) (earlier : list (ProxyCheckRequest * list Label))
    (rq : ProxyCheckRequest) (m : Manager.t) (h : Chans) (r0 r : Run) (ls : list Label) :
  afterChecks earlier (Manager.NewManager h0) = Some (m, h) ->
  Start rq m h = Started r0 -> exec ls r0 = Some r ->
  Forall (recorded rq) (Manager.GetResults (mgr r)) /\
  Errors (Manager.GetStats (mgr r)) = 0.
Proof.
  intros _ Hstart Hexec.
  assert (HQ : forall lib proxy elapsed, In proxy (ProxyList rq) ->
                 recorded rq (snd (checkProxy lib rq proxy elapsed))).
  { intros. apply checkProxy_recorded. assumption. }
  split.
  - apply (run_carried rq (recorded rq) m h r0 r ls HQ Hstart Hexec).
  - change (Errors (Manager.GetStats (mgr r))) with (Errors (Manager.stats (mgr r))).
    revert r Hexec.
    assert (H0 : Errors (Manager.stats (mgr r0)) = 0).
    { unfold Start, make_chan in Hstart. repeat case_match; simplify_eq. reflexivity. }
    assert (Hgen : forall ls1 ls2 r1 r2,
              exec ls1 r0 = Some r1 -> Errors (Manager.stats (mgr r1)) = 0 ->
              exec ls2 r1 = Some r2 -> Errors (Manager.stats (mgr r2)) = 0).
    { intros ls1 ls2. revert ls1. induction ls2 as [ | l ls2 IH ]; intros ls1 r1 r2 H1 He H2.
      - cbn in H2. congruence.
      - cbn in H2. destruct (step l r1) as [r1' | ] eqn:Hs; [ | discriminate ].
        apply (IH (ls1 ++ [l]) r1' r2); [ | | exact H2 ].
        + clear - H1 Hs. revert r0 H1. induction ls1 as [ | l1 ls1 IH1 ]; intros r0 H1; cbn in *.
          * simplify_eq. rewrite Hs. reflexivity.
          * destruct (step l1 r0); [ apply IH1; exact H1 | discriminate ].
        + eapply step_no_errors; [ | exact He | exact Hs ].
          apply (run_carried rq (recorded rq) m h r0 r1 ls1 HQ Hstart H1). }
    intros r Hexec. apply (Hgen [] ls r0 r); [ reflexivity | exact H0 | exact Hexec ].
Qed.

(** On a second check, on a manager that has seen a first one to its
    end. *)
Lemma results_are_live_or_dead_witness :
  Forall (recorded twoProxies) (Manager.GetResults (mgr (afterAgain pausedOnce twoProxies))) /\
  Errors (Manager.GetStats (mgr (afterAgain pausedOnce twoProxies))) = 0.
Proof.
  apply (results_are_live_or_dead emptyChans [(oneProxy, oneLive)]
           twoProxies usedManager usedChans
           (startedAgain twoProxies) (afterAgain pausedOnce twoProxies) pausedOnce).
  - vm_compute. reflexivity.
  - vm_compute. reflexivity.
  - vm_compute. reflexivity.
Defined.

(** ** The channels of the manager *)

Lemma is_closed_made (h : Chans) (c : nat) :
  is_closed c (snd (make_chan h)) = is_closed c h.
Proof. reflexivity. Qed.


Lemma is_closed_cons (h : Chans) (c d : nat) :
  is_closed c (mkChans (next_chan h) (d :: closed h)) = (Nat.eqb c d || is_closed c h).
Proof. reflexivity. Qed.

Lemma wf_chans_make (h : Chans) : wf_chans h -> wf_chans (snd (make_chan h)).
Proof.
  unfold wf_chans, make_chan. cbn. intros H. eapply Forall_impl; [ exact H | ].
  cbn. intros; lia.
Qed.

Lemma wf_chans_close (h : Chans) (c : nat) :
  wf_chans h -> (c < next_chan h)%nat -> wf_chans (mkChans (next_chan h) (c :: closed h)).
Proof. unfold wf_chans. cbn. intros H Hc. constructor; assumption. Qed.

Ltac ctl_solve :=
  repeat match goal with
  | H : ctl_ok _ _ |- _ => destruct H as [?Hwf (?Hm1 & ?Hm2 & ?Hm3) (?Hd1 & ?Hd2 & ?Hd3) ?Hr ?Hs ?Hp]
  end;
  cbn [Manager.running Manager.paused Manager.stopChan Manager.pauseChan Manager.resumeChan
       make_chan fst snd next_chan closed] in *;
  try match goal with
  | |- wf_chans _ =>
      unfold wf_chans in *; cbn [closed next_chan] in *;
      repeat (apply Forall_cons; split; [ lia | ]);
      (eapply Forall_impl; [ eassumption | cbn; intros; lia ])
  | |- is_closed _ _ = false =>
      unfold is_closed in *; cbn [closed existsb orb] in *;
      repeat match goal with
      | |- (Nat.eqb ?a ?b || _) = false =>
          let E := fresh in
          assert (E : Nat.eqb a b = false) by (apply Nat.eqb_neq; lia); rewrite E; cbn [orb]
      end;
      first [ auto; fail
            | apply not_true_is_false; intros Hex;
              apply existsb_exists in Hex as (c' & Hin & Heq);
              apply Nat.eqb_eq in Heq; subst c';
              match goal with
              | Hw : wf_chans _ |- _ =>
                  unfold wf_chans in Hw; rewrite Forall_forall in Hw;
                  apply list_elem_of_In in Hin; specialize (Hw _ Hin); cbn in Hw; lia
              end ]
  end.

Lemma NewManager_ok (h : Chans) :
  wf_chans h -> ctl_ok (fst (Manager.NewManager h)) (snd (Manager.NewManager h)).
Proof.
  intros Hwf. unfold Manager.NewManager. cbn [make_chan fst snd].
  constructor; ctl_solve; try discriminate; repeat split; lia.
Qed.

Lemma Start_ok (rq : ProxyCheckRequest) (m : Manager.t) (h : Chans) (r0 : Run) :
  wf_chans h -> Start rq m h = Started r0 -> ctl_ok (mgr r0) (chans r0).
Proof.
  intros Hwf Hs. unfold Start, make_chan in Hs. repeat case_match; simplify_eq.
  cbn [mgr chans next_chan closed] in *.
  constructor; intros; ctl_solve; repeat split; lia.
Qed.

Lemma Stop_ok (force : bool) (m : Manager.t) (h : Chans) :
  ctl_ok m h ->
  ctl_ok (fst (Manager.Stop force m h)) (snd (Manager.Stop force m h)) /\
  (Manager.running m = true ->
   Manager.running (fst (Manager.Stop force m h)) = false /\
   Manager.stopChan (fst (Manager.Stop force m h)) = Manager.stopChan m /\
   is_closed (Manager.stopChan m) (snd (Manager.Stop force m h)) = true /\
   closed (snd (Manager.Stop force m h)) = Manager.stopChan m :: closed h).
Proof.
  intros C. unfold Manager.Stop.
  destruct (Manager.running m) eqn:Hrun; cbn [negb fst snd]; [ | split; [ exact C | discriminate ] ].
  rewrite (c_stop _ _ C Hrun). cbn [fst snd Manager.running Manager.stopChan closed].
  split.
  - constructor; intros; ctl_solve; try discriminate; repeat split; auto.
  - intros _. repeat split. unfold is_closed. cbn. rewrite Nat.eqb_refl. reflexivity.
Qed.

Lemma Pause_ok (m : Manager.t) (h : Chans) :
  ctl_ok m h ->
  exists b m' h', Manager.Pause m h = Some (b, m', h') /\ ctl_ok m' h' /\
    Manager.running m' = Manager.running m /\ next_chan h' = next_chan h.
Proof.
  intros C. unfold Manager.Pause, close_chan.
  destruct (Manager.running m) eqn:Hrun; cbn [negb orb]; [ | eauto 10 ].
  destruct (Manager.paused m) eqn:Hp; [ eauto 10 | ].
  rewrite (c_pause _ _ C Hrun Hp).
  eexists _, _, _. split; [ reflexivity | ]. split; [ | auto ].
  constructor; intros; ctl_solve; try discriminate; repeat split; auto.
Qed.

Lemma Resume_ok (m : Manager.t) (h : Chans) :
  ctl_ok m h ->
  exists b m' h', Manager.Resume m h = Some (b, m', h') /\ ctl_ok m' h' /\
    Manager.running m' = Manager.running m.
Proof.
  intros C. unfold Manager.Resume, close_chan.
  destruct (Manager.running m) eqn:Hrun; cbn [negb orb]; [ | eauto 10 ].
  destruct (Manager.paused m) eqn:Hp; cbn [negb]; [ | eauto 10 ].
  cbn [make_chan]. rewrite is_closed_made || idtac.
  change (is_closed (Manager.resumeChan m) (mkChans (S (next_chan h)) (closed h)))
    with (is_closed (Manager.resumeChan m) h).
  rewrite (c_resume _ _ C). cbn [next_chan closed].
  eexists _, _, _. split; [ reflexivity | ]. split; [ | auto ].
  pose proof (c_stop _ _ C Hrun) as Hstop.
  constructor; intros; ctl_solve; try discriminate; repeat split; auto; lia.
Qed.

Lemma ForceStop_ok (m : Manager.t) (h : Chans) :
  ctl_ok m h ->
  exists m' h', Manager.ForceStop m h = Some (m', h') /\ ctl_ok m' h'.
Proof.
  intros C. unfold Manager.ForceStop, close_chan.
  destruct (Manager.running m) eqn:Hrun; cbn [negb]; [ | eauto ].
  rewrite (c_stop _ _ C Hrun). cbn [make_chan next_chan closed].
  eexists _, _. split; [ reflexivity | ].
  constructor; intros; ctl_solve; try discriminate; repeat split; auto; lia.
Qed.

Lemma ForcePause_ok (m : Manager.t) (h : Chans) :
  ctl_ok m h ->
  exists b m' h', Manager.ForcePause m h = Some (b, m', h') /\ ctl_ok m' h'.
Proof.
  intros C. unfold Manager.ForcePause, close_chan.
  destruct (Manager.running m) eqn:Hrun; cbn [negb orb]; [ | eauto 10 ].
  destruct (Manager.paused m) eqn:Hp; [ eauto 10 | ].
  rewrite (c_pause _ _ C Hrun Hp). cbn [make_chan next_chan closed].
  eexists _, _, _. split; [ reflexivity | ].
  pose proof (c_stop _ _ C Hrun) as Hstop.
  constructor; intros; ctl_solve; try discriminate; repeat split; auto; lia.
Qed.

(** What leaves the channels and the flags alone, or clears the running
    flag, leaves the channels in order. *)
Lemma ctl_ok_same (m m' : Manager.t) (h : Chans) :
  ctl_ok m h ->
  Manager.stopChan m' = Manager.stopChan m ->
  Manager.pauseChan m' = Manager.pauseChan m ->
  Manager.resumeChan m' = Manager.resumeChan m ->
  (Manager.running m' = true -> Manager.running m = true /\ Manager.paused m' = Manager.paused m) ->
  ctl_ok m' h.
Proof.
  intros [] Hs Hp Hr Hrun. constructor; rewrite ?Hs, ?Hp, ?Hr; auto.
  - intros Hr'. destruct (Hrun Hr') as [H1 H2]. auto.
  - intros Hr' Hp'. destruct (Hrun Hr') as [H1 H2]. rewrite H2 in Hp'. auto.
Qed.

Lemma apply_op_ok (o : Op) (m : Manager.t) (h : Chans) :
  sane o -> ctl_ok m h ->
  exists m' h', apply_op o (m, h) = Some (m', h') /\ ctl_ok m' h'.
Proof.
  intros Hsane C. destruct o; cbn [apply_op sane] in *.
  - unfold Start. destruct (Manager.running m) eqn:Hrun; [ eauto | ].
    destruct (Threads rq <? 0) eqn:Hth; [ apply Z.ltb_lt in Hth; lia | ].
    eexists _, _. split; [ reflexivity | ].
    apply (Start_ok rq m h); [ exact (c_wf _ _ C) | ].
    unfold Start. rewrite Hrun, Hth. reflexivity.
  - destruct (Stop_ok force m h C) as [C' _].
    destruct (Manager.Stop force m h) as [m' h']. eauto.
  - destruct (Pause_ok m h C) as (b & m' & h' & -> & C' & _). cbn. eauto.
  - destruct (Resume_ok m h C) as (b & m' & h' & -> & C' & _). cbn. eauto.
  - apply ForceStop_ok. exact C.
  - destruct (ForcePause_ok m h C) as (b & m' & h' & -> & C'). cbn. eauto.
  - eexists _, _. split; [ reflexivity | ].
    unfold Manager.ClearResults. destruct (_ && _); [ exact C | ].
    apply (ctl_ok_same m); auto.
  - eexists _, _. split; [ reflexivity | ]. apply (ctl_ok_same m); auto.
  - eexists _, _. split; [ reflexivity | ]. apply (ctl_ok_same m); auto.
  - eexists _, _. split; [ reflexivity | ]. apply (ctl_ok_same m); auto.
  - eexists _, _. split; [ reflexivity | ]. apply (ctl_ok_same m); auto.
  - eexists _, _. split; [ reflexivity | ]. apply (ctl_ok_same m); auto.
    cbn. discriminate.
Qed.

(** X13. No order of calls makes a manager close a channel that is
    closed, which would be a panic: from [NewManager], any sequence of
    calls of Start (with a thread count that is not negative), Stop, Pause,
    Resume, ForceStop, ForcePause, ClearResults, SetWorkerCount and of the
    two counter methods, with workers recording results and watchers
    ending runs at any point in between, returns; and it leaves the three
    channels distinct, the resume channel open, the stop channel open while
    a check runs and the pause channel open while a check runs unpaused. *)
Theorem manager_calls_never_panic (h : Chans) (ops : list Op) :
  wf_chans h -> Forall sane ops ->
  exists m' h', apply_ops ops (Manager.NewManager h) = Some (m', h') /\ ctl_ok m' h'.
Proof.
  intros Hwf Hsane.
  pose proof (NewManager_ok h Hwf) as C.
  destruct (Manager.NewManager h) as [m0 h0]. cbn [fst snd] in C.
  revert m0 h0 C. induction Hsane as [ | o ops Ho _ IH ]; intros m0 h0 C.
  - cbn. eauto.
  - cbn [apply_ops]. destruct (apply_op_ok o m0 h0 Ho C) as (m1 & h1 & -> & C1).
    apply IH. exact C1.
Qed.

Lemma manager_calls_never_panic_witness :
  exists m' h', apply_ops sampleLife (Manager.NewManager emptyChans) = Some (m', h') /\
                ctl_ok m' h'.
Proof.
  apply (manager_calls_never_panic emptyChans sampleLife).
  - unfold wf_chans. cbn. constructor.
  - unfold sampleLife. repeat (apply Forall_cons; split; [ cbn; try lia; exact I | ]).
    apply Forall_nil. exact I.
Defined.

(** The channels of a run stay in order. *)
Lemma step_ctl (l : Label) (r r' : Run) :
  ctl_ok (mgr r) (chans r) -> step l r = Some r' -> ctl_ok (mgr r') (chans r').
Proof.
  intros C Hs.
  destruct l; unfold step in Hs;
    try (destruct (workers r !! w) as [ [ | | | | | | ] | ] eqn:Hw; try discriminate).
  all: try (repeat case_match; simplify_eq; cbn [mgr chans set_worker]; exact C).
  - simplify_eq. cbn [mgr chans]. apply (ctl_ok_same (mgr r)); auto.
  - destruct (_ && _); simplify_eq. cbn [mgr chans].
    apply (ctl_ok_same (mgr r)); auto. cbn. discriminate.
  - destruct (Pause_ok _ _ C) as (b & m' & h' & Hp & C' & _). rewrite Hp in Hs.
    simplify_eq. exact C'.
  - destruct (Resume_ok _ _ C) as (b & m' & h' & Hp & C' & _). rewrite Hp in Hs.
    simplify_eq. exact C'.
  - destruct (Stop_ok force _ _ C) as [C' _].
    destruct (Manager.Stop force (mgr r) (chans r)) as [m' h']. simplify_eq. exact C'.
  - destruct (ForcePause_ok _ _ C) as (b & m' & h' & Hp & C'). rewrite Hp in Hs.
    simplify_eq. exact C'.
  - destruct (ForceStop_ok _ _ C) as (m' & h' & Hp & C'). rewrite Hp in Hs.
    simplify_eq. exact C'.
  - simplify_eq. cbn [mgr chans set_mgr].
    unfold Manager.ClearResults. destruct (_ && _); [ exact C | ].
    apply (ctl_ok_same (mgr r)); auto.
  - simplify_eq. cbn [mgr chans set_mgr]. apply (ctl_ok_same (mgr r)); auto.
Qed.

Lemma run_ctl (rq : ProxyCheckRequest) (m : Manager.t) (h : Chans) (r0 r : Run)
    (ls : list Label) :
  wf_chans h -> Start rq m h = Started r0 -> exec ls r0 = Some r ->
  ctl_ok (mgr r) (chans r).
Proof.
  intros Hwf Hstart Hexec.
  eapply (exec_invariant (fun r => ctl_ok (mgr r) (chans r)) (fun _ => True));
    [ | apply Forall_forall; auto | | exact Hexec ].
  - intros l r1 r2 _. apply step_ctl.
  - eapply Start_ok; eauto.
Qed.

(** ** The moves left to a run *)

Lemma rank_repeat (n : nat) : sum_list (rank <$> repeat AtRange n) = n.
Proof. induction n as [ | n IH ]; [ reflexivity | ]. cbn. rewrite IH. reflexivity. Qed.

(** The outcome of a call in a move: the run with the manager and the
    channels the call left. *)
Ltac call_cases Hs :=
  try (destruct (Manager.Pause _ _) as [ [[? ?] ?] | ]; [ | discriminate ]);
  try (destruct (Manager.Resume _ _) as [ [[? ?] ?] | ]; [ | discriminate ]);
  try (destruct (Manager.ForcePause _ _) as [ [[? ?] ?] | ]; [ | discriminate ]);
  try (destruct (Manager.ForceStop _ _) as [ [? ?] | ]; [ | discriminate ]);
  try (destruct (Manager.Stop _ _ _) as [? ?]);
  simplify_eq.

(** Every move of a worker or of the watcher uses up weight; a call uses
    none and adds none. *)
Lemma step_weight (l : Label) (r r' : Run) :
  step l r = Some r' ->
  (weight r' + (if internal l then 1 else 0) <= weight r)%nat.
Proof.
  intros Hs. unfold weight.
  destruct l; unfold step in Hs;
    try (destruct (workers r !! w) as [ [ | | | | | | ] | ] eqn:Hw; try discriminate);
    try (pose proof (fun new => sum_list_insert rank (workers r) w _ new Hw) as Hsum).
  - destruct (jobs r) as [ | p rest ] eqn:Hj; simplify_eq;
      cbn [jobs workers watched set_worker]; rewrite ?Hj; cbn [length];
      [ specialize (Hsum Exited) | specialize (Hsum (AtSelect p)) ];
      cbn [rank internal] in *; lia.
  - destruct (is_closed _ _); simplify_eq. cbn [jobs workers watched set_worker].
    specialize (Hsum Exited). cbn [rank internal] in *. lia.
  - destruct (is_closed _ _); simplify_eq. cbn [jobs workers watched set_worker].
    specialize (Hsum PauseSeen). cbn [rank internal] in *. lia.
  - destruct (_ && _); simplify_eq. cbn [jobs workers watched set_worker].
    specialize (Hsum (Probing proxy)). cbn [rank internal] in *. lia.
  - simplify_eq. cbn [jobs workers watched set_worker].
    specialize (Hsum (Blocked (Manager.resumeChan (mgr r)) (Manager.stopChan (mgr r)))).
    cbn [rank internal] in *. lia.
  - destruct (is_closed _ _); simplify_eq. cbn [jobs workers watched set_worker].
    specialize (Hsum AtRange). cbn [rank internal] in *. lia.
  - destruct (is_closed _ _); simplify_eq. cbn [jobs workers watched set_worker].
    specialize (Hsum Exited). cbn [rank internal] in *. lia.
  - destruct (checkProxy lib (req r) proxy elapsed) as [evs result]. simplify_eq.
    cbn [jobs workers watched]. specialize (Hsum (Holding result)).
    cbn [rank internal] in *. lia.
  - simplify_eq. cbn [jobs workers watched]. specialize (Hsum AtRange).
    cbn [rank internal] in *. lia.
  - destruct (all_exited (workers r) && negb (watched r)) eqn:Hall; [ | discriminate ].
    apply andb_true_iff in Hall as [_ Hw]. apply negb_true_iff in Hw.
    simplify_eq. cbn [jobs workers watched internal]. rewrite Hw. cbv iota. lia.
  - call_cases Hs; cbn [jobs workers watched set_mgr internal]; lia.
  - call_cases Hs; cbn [jobs workers watched set_mgr internal]; lia.
  - call_cases Hs; cbn [jobs workers watched set_mgr internal]; lia.
  - call_cases Hs; cbn [jobs workers watched set_mgr internal]; lia.
  - call_cases Hs; cbn [jobs workers watched set_mgr internal]; lia.
  - call_cases Hs; cbn [jobs workers watched set_mgr internal]; lia.
  - call_cases Hs; cbn [jobs workers watched set_mgr internal]; lia.
Qed.

(** A probe uses up one of the jobs that may still be probed, and no move
    adds one. *)
Lemma step_unprobed (l : Label) (r r' : Run) :
  step l r = Some r' ->
  (unprobed r' + (if isProbe l then 1 else 0) <= unprobed r)%nat.
Proof.
  intros Hs. unfold unprobed.
  set (f := fun ws => match ws with AtSelect _ | Probing _ => 1%nat | _ => 0%nat end).
  destruct l; unfold step in Hs;
    try (destruct (workers r !! w) as [ [ | | | | | | ] | ] eqn:Hw; try discriminate);
    try (pose proof (fun new => sum_list_insert f (workers r) w _ new Hw) as Hsum).
  - destruct (jobs r) as [ | p rest ] eqn:Hj; simplify_eq;
      cbn [jobs workers set_worker]; rewrite ?Hj; cbn [length];
      [ specialize (Hsum Exited) | specialize (Hsum (AtSelect p)) ];
      cbn [f isProbe] in *; lia.
  - destruct (is_closed _ _); simplify_eq. cbn [jobs workers set_worker].
    specialize (Hsum Exited). cbn [f isProbe] in *. lia.
  - destruct (is_closed _ _); simplify_eq. cbn [jobs workers set_worker].
    specialize (Hsum PauseSeen). cbn [f isProbe] in *. lia.
  - destruct (_ && _); simplify_eq. cbn [jobs workers set_worker].
    specialize (Hsum (Probing proxy)). cbn [f isProbe] in *. lia.
  - simplify_eq. cbn [jobs workers set_worker].
    specialize (Hsum (Blocked (Manager.resumeChan (mgr r)) (Manager.stopChan (mgr r)))).
    cbn [f isProbe] in *. lia.
  - destruct (is_closed _ _); simplify_eq. cbn [jobs workers set_worker].
    specialize (Hsum AtRange). cbn [f isProbe] in *. lia.
  - destruct (is_closed _ _); simplify_eq. cbn [jobs workers set_worker].
    specialize (Hsum Exited). cbn [f isProbe] in *. lia.
  - destruct (checkProxy lib (req r) proxy elapsed) as [evs result]. simplify_eq.
    cbn [jobs workers]. specialize (Hsum (Holding result)).
    cbn [f isProbe] in *. lia.
  - simplify_eq. cbn [jobs workers]. specialize (Hsum AtRange).
    cbn [f isProbe] in *. lia.
  - destruct (_ && _); simplify_eq. cbn [jobs workers isProbe]. lia.
  - call_cases Hs; cbn [jobs workers set_mgr isProbe]; lia.
  - call_cases Hs; cbn [jobs workers set_mgr isProbe]; lia.
  - call_cases Hs; cbn [jobs workers set_mgr isProbe]; lia.
  - call_cases Hs; cbn [jobs workers set_mgr isProbe]; lia.
  - call_cases Hs; cbn [jobs workers set_mgr isProbe]; lia.
  - call_cases Hs; cbn [jobs workers set_mgr isProbe]; lia.
  - call_cases Hs; cbn [jobs workers set_mgr isProbe]; lia.
Qed.

Lemma exec_measure (mu : Run -> nat) (cost : Label -> bool) (ls : list Label) (r r' : Run) :
  (forall l r1 r2, step l r1 = Some r2 -> (mu r2 + (if cost l then 1 else 0) <= mu r1)%nat) ->
  exec ls r = Some r' ->
  (mu r' + length (List.filter cost ls) <= mu r)%nat.
Proof.
  intros Hstep. revert r. induction ls as [ | l ls IH ]; intros r Hexec; cbn in Hexec.
  - simplify_eq. cbn. lia.
  - destruct (step l r) as [r1 | ] eqn:Hs; [ | discriminate ].
    specialize (Hstep l r r1 Hs). specialize (IH r1 Hexec).
    cbn [List.filter]. destruct (cost l); cbn [length]; lia.
Qed.

(** X14. The work of a run is bounded.  Whatever the schedule and the
    calls made, the workers and the watcher that a [Start] creates make at
    most 4 moves per endpoint, plus one per worker, plus one, and at most
    as many of their probes return as there are endpoints.  This bounds
    the moves, it does not say that they are made: a worker inside a probe
    that does not return makes none. *)
Theorem run_moves_are_bounded (rq : ProxyCheckRequest) (m : Manager.t) (h : Chans)
    (r0 r : Run) (ls : list Label) :
  Start rq m h = Started r0 -> exec ls r0 = Some r ->
  (length (List.filter internal ls)
   <= 4 * length (ProxyList rq) + Z.to_nat (Threads rq) + 1)%nat /\
  (length (List.filter isProbe ls) <= length (ProxyList rq))%nat.
Proof.
  intros Hstart Hexec.
  pose proof (exec_measure weight internal ls r0 r step_weight Hexec) as Hw.
  pose proof (exec_measure unprobed isProbe ls r0 r step_unprobed Hexec) as Hu.
  unfold Start, make_chan in Hstart. repeat case_match; simplify_eq.
  unfold weight, unprobed in *. cbn [jobs workers watched] in *.
  rewrite rank_repeat in Hw.
  assert (Hz : forall n, sum_list ((fun ws => match ws with
                                             | AtSelect _ | Probing _ => 1%nat
                                             | _ => 0%nat
                                             end) <$> repeat AtRange n) = 0%nat).
  { induction n as [ | n IH ]; [ reflexivity | exact IH ]. }
  rewrite Hz in Hu. split; lia.
Qed.

Lemma run_moves_are_bounded_witness :
  (length (List.filter internal pausedOnce)
   <= 4 * length (ProxyList twoProxies) + Z.to_nat (Threads twoProxies) + 1)%nat /\
  (length (List.filter isProbe pausedOnce) <= length (ProxyList twoProxies))%nat.
Proof.
  apply (run_moves_are_bounded twoProxies freshManager freshChans
           (startedRun twoProxies) (after pausedOnce twoProxies) pausedOnce).
  - vm_compute. reflexivity.
  - apply exec_pausedOnce.
Defined.

(** ** After Stop *)

Lemma Label_eq_dec_watcher (l : Label) : l = WatcherDone \/ l <> WatcherDone.
Proof. destruct l; first [ left; reflexivity | right; discriminate ]. Qed.

(** What a call leaves of the flags and of the stop channel. *)
Lemma call_control (l : Label) (r r' : Run) :
  internal l = false -> step l r = Some r' ->
  workers r' = workers r /\ jobs r' = jobs r /\ watched r' = watched r /\ trace r' = trace r /\
  (Manager.running (mgr r') = true ->
   Manager.running (mgr r) = true /\ Manager.stopChan (mgr r') = Manager.stopChan (mgr r)) /\
  (Manager.running (mgr r) = false -> mgr r' = mgr r \/ l = CallClearResults \/
                                      (exists count, l = CallSetWorkerCount count)) /\
  (Manager.running (mgr r) = false -> chans r' = chans r) /\
  (forall c, is_closed c (chans r) = true -> is_closed c (chans r') = true).
Proof.
  intros Hi Hs.
  destruct l; try discriminate Hi; unfold step in Hs.
  - unfold Manager.Pause, close_chan in Hs.
    destruct (Manager.running (mgr r)) eqn:Hrun; cbn [negb orb] in Hs;
      [ | simplify_eq; cbn; rewrite Hrun; auto 10 ].
    destruct (Manager.paused (mgr r)); [ simplify_eq; cbn; rewrite Hrun; auto 10 | ].
    destruct (is_closed _ _); simplify_eq. cbn.
    repeat split; auto; try discriminate. intros c Hc; unfold is_closed in *; cbn in *; rewrite Hc; apply orb_true_r.
  - unfold Manager.Resume, close_chan, make_chan in Hs.
    destruct (Manager.running (mgr r)) eqn:Hrun; cbn [negb orb] in Hs;
      [ | simplify_eq; cbn; rewrite Hrun; auto 10 ].
    destruct (Manager.paused (mgr r)); cbn [negb] in Hs;
      [ | simplify_eq; cbn; rewrite Hrun; auto 10 ].
    destruct (is_closed _ _); simplify_eq. cbn.
    repeat split; auto; try discriminate. intros c Hc.
    unfold is_closed in *; cbn in *; rewrite Hc; apply orb_true_r.
  - unfold Manager.Stop, make_chan in Hs.
    destruct (Manager.running (mgr r)) eqn:Hrun; cbn [negb] in Hs;
      [ | simplify_eq; cbn; rewrite Hrun; auto 10 ].
    destruct (is_closed _ _); simplify_eq; cbn; repeat split; auto; try discriminate.
    intros c Hc; unfold is_closed in *; cbn in *; rewrite Hc; apply orb_true_r.
  - unfold Manager.ForcePause, close_chan, make_chan in Hs.
    destruct (Manager.running (mgr r)) eqn:Hrun; cbn [negb orb] in Hs;
      [ | simplify_eq; cbn; rewrite Hrun; auto 10 ].
    destruct (Manager.paused (mgr r)); [ simplify_eq; cbn; rewrite Hrun; auto 10 | ].
    destruct (is_closed _ _); simplify_eq. cbn.
    repeat split; auto; try discriminate. intros c Hc.
    unfold is_closed in *; cbn in *; rewrite Hc; apply orb_true_r.
  - unfold Manager.ForceStop, close_chan, make_chan in Hs.
    destruct (Manager.running (mgr r)) eqn:Hrun; cbn [negb] in Hs;
      [ | simplify_eq; cbn; rewrite Hrun; auto 10 ].
    destruct (is_closed _ _); simplify_eq. cbn.
    repeat split; auto; try discriminate. intros c Hc.
    unfold is_closed in *; cbn in *; rewrite Hc; apply orb_true_r.
  - simplify_eq. cbn. unfold Manager.ClearResults.
    destruct (_ && _); cbn; repeat split; auto.
  - simplify_eq. cbn. repeat split; eauto.
Qed.

(** What a move of a worker or of the watcher leaves of the manager. *)
Lemma internal_control (l : Label) (r r' : Run) :
  internal l = true -> step l r = Some r' ->
  chans r' = chans r /\
  Manager.stopChan (mgr r') = Manager.stopChan (mgr r) /\
  Manager.pauseChan (mgr r') = Manager.pauseChan (mgr r) /\
  Manager.resumeChan (mgr r') = Manager.resumeChan (mgr r) /\
  (Manager.running (mgr r') = true ->
   Manager.running (mgr r) = true /\ Manager.paused (mgr r') = Manager.paused (mgr r)) /\
  (Manager.running (mgr r) = false -> Manager.running (mgr r') = false).
Proof.
  intros Hi Hs. destruct l; try discriminate Hi; unfold step in Hs;
    repeat case_match; simplify_eq; cbn; repeat split; auto; discriminate.
Qed.

(** The move of worker [w] from one state to another, if the move is one. *)
Lemma worker_move (l : Label) (r r' : Run) :
  internal l = true -> l <> WatcherDone -> step l r = Some r' ->
  exists w old new,
    workers r !! w = Some old /\ workers r' = <[w := new]> (workers r) /\
    match new with
    | Blocked resume stop =>
        resume = Manager.resumeChan (mgr r) /\ stop = Manager.stopChan (mgr r)
    | Exited =>
        match old with
        | AtRange => True
        | AtSelect _ => is_closed (Manager.stopChan (mgr r)) (chans r) = true
        | Blocked _ stop => is_closed stop (chans r) = true
        | _ => False
        end
    | Probing _ =>
        l = SelectDefault w /\ is_closed (Manager.stopChan (mgr r)) (chans r) = false /\
        is_closed (Manager.pauseChan (mgr r)) (chans r) = false
    | PauseSeen => is_closed (Manager.pauseChan (mgr r)) (chans r) = true
    | _ => True
    end /\
    (beginsProbe l = true -> exists p, new = Probing p).
Proof.
  intros Hi Hw Hs. destruct l; try discriminate Hi; try congruence; unfold step in Hs;
    (destruct (workers r !! w) as [ old | ] eqn:Hold; [ | discriminate ]);
    exists w, old; destruct old; try discriminate.
  - destruct (jobs r); simplify_eq; eexists; cbn; repeat split; eauto; discriminate.
  - destruct (is_closed _ _) eqn:Hc; simplify_eq. eexists; cbn; repeat split; eauto; discriminate.
  - destruct (is_closed _ _) eqn:Hc; simplify_eq. eexists; cbn; repeat split; eauto; discriminate.
  - destruct (is_closed (Manager.stopChan _) _) eqn:Hc1;
      destruct (is_closed (Manager.pauseChan _) _) eqn:Hc2; cbn in Hs; simplify_eq.
    eexists; cbn; repeat split; eauto.
  - simplify_eq. eexists; cbn; repeat split; eauto; discriminate.
  - destruct (is_closed _ _) eqn:Hc; simplify_eq. eexists; cbn; repeat split; eauto; discriminate.
  - destruct (is_closed _ _) eqn:Hc; simplify_eq. eexists; cbn; repeat split; eauto; discriminate.
  - destruct (checkProxy _ _ _ _); simplify_eq. eexists; cbn; repeat split; eauto; discriminate.
  - simplify_eq. eexists; cbn; repeat split; eauto; discriminate.
Qed.

Lemma watcher_move (r r' : Run) :
  step WatcherDone r = Some r' ->
  workers r' = workers r /\ Manager.running (mgr r') = false /\
  Manager.paused (mgr r') = false /\ watched r' = true /\
  all_exited (workers r) = true /\ watched r = false /\
  Manager.results (mgr r') = Manager.results (mgr r).
Proof.
  unfold step. destruct (all_exited (workers r)) eqn:Ha; [ | discriminate ].
  destruct (watched r); [ discriminate | ]. cbn. intros [= <-]. cbn. auto 10.
Qed.

Lemma step_waitOnStop (l : Label) (r r' : Run) :
  waitOnStop r -> step l r = Some r' -> waitOnStop r'.
Proof.
  intros W Hs. unfold waitOnStop in *.
  destruct (internal l) eqn:Hi.
  - destruct (internal_control l r r' Hi Hs) as (_ & Hst & _ & _ & Hrun & _).
    intros Hr'. destruct (Hrun Hr') as [Hr _]. specialize (W Hr). rewrite Hst.
    destruct (Label_eq_dec_watcher l) as [-> | Hne].
    + destruct (watcher_move r r' Hs) as (-> & _). exact W.
    + destruct (worker_move l r r' Hi Hne Hs) as (w & old & new & Hold & -> & Hnew & _).
      apply Forall_insert; [ exact W | ].
      destruct new; auto. destruct Hnew as [_ ->]. reflexivity.
  - destruct (call_control l r r' Hi Hs) as (-> & _ & _ & _ & Hrun & _).
    intros Hr'. destruct (Hrun Hr') as [Hr ->]. exact (W Hr).
Qed.

Lemma run_waitOnStop (rq : ProxyCheckRequest) (m : Manager.t) (h : Chans) (r0 r : Run)
    (ls : list Label) :
  Start rq m h = Started r0 -> exec ls r0 = Some r -> waitOnStop r.
Proof.
  intros Hstart Hexec.
  eapply (exec_invariant waitOnStop (fun _ => True));
    [ | apply Forall_forall; auto | | exact Hexec ].
  - intros l r1 r2 _. apply step_waitOnStop.
  - unfold Start, make_chan in Hstart. repeat case_match; simplify_eq.
    intros _. cbn. apply Forall_forall. intros ws Hin.
    apply list_elem_of_In, repeat_spec in Hin. subst. exact I.
Qed.

(** [Stop] on a running check leaves the run stopping. *)
Lemma Stop_stopping (force : bool) (r r1 : Run) :
  ctl_ok (mgr r) (chans r) -> waitOnStop r -> Manager.running (mgr r) = true ->
  step (CallStop force) r = Some r1 -> stopping r1.
Proof.
  intros C W Hrun Hs. unfold step in Hs.
  destruct (Stop_ok force _ _ C) as [_ Hstop]. destruct (Hstop Hrun) as (H1 & H2 & H3 & H4).
  destruct (Manager.Stop force (mgr r) (chans r)) as [m' h']. cbn [fst snd] in *.
  simplify_eq. constructor; cbn [mgr chans workers set_mgr]; auto.
  - rewrite H2. exact H3.
  - eapply Forall_impl; [ exact (W Hrun) | ]. intros [] Hws; auto.
    cbn in Hws. subst. exact H3.
Qed.

(** A stopping run stays so, and no worker begins a probe in it. *)
Lemma step_stopping (l : Label) (r r' : Run) :
  stopping r -> step l r = Some r' -> stopping r' /\ beginsProbe l = false.
Proof.
  intros [Hrun Hclosed Hwait] Hs.
  destruct (internal l) eqn:Hi.
  - destruct (internal_control l r r' Hi Hs) as (Hch & Hst & _ & _ & _ & Hrun').
    destruct (Label_eq_dec_watcher l) as [-> | Hne].
    + destruct (watcher_move r r' Hs) as (Hws & Hr & _). split; [ | reflexivity ].
      constructor; rewrite ?Hch, ?Hst, ?Hws; auto.
    + destruct (worker_move l r r' Hi Hne Hs) as (w & old & new & Hold & Hws & Hnew & Hb).
      split.
      * constructor; rewrite ?Hch, ?Hst, ?Hws; auto.
        apply Forall_insert; [ exact Hwait | ].
        destruct new; auto. destruct Hnew as [_ ->]. exact Hclosed.
      * destruct (beginsProbe l) eqn:Hbp; [ | reflexivity ].
        destruct (Hb eq_refl) as [p ->]. destruct Hnew as (_ & Hopen & _). congruence.
  - destruct (call_control l r r' Hi Hs) as (Hws & _ & _ & _ & _ & Hm & Hch & _).
    specialize (Hch Hrun). split; [ | destruct l; try discriminate Hi; reflexivity ].
    destruct (Hm Hrun) as [Hsame | [-> | [count ->]]].
    + constructor; rewrite ?Hsame, ?Hch, ?Hws; auto.
    + unfold step in Hs. simplify_eq. unfold Manager.ClearResults.
      rewrite Hrun. cbn. constructor; cbn; auto.
    + unfold step in Hs. simplify_eq. constructor; cbn; auto.
Qed.

Lemma all_exited_false (ws : list wstate) :
  all_exited ws = false -> exists w old, ws !! w = Some old /\ old <> Exited.
Proof.
  induction ws as [ | x ws IH ]; [ discriminate | ].
  cbn [all_exited forallb]. destruct x;
    try (intros _; exists 0%nat; eexists; split; [ reflexivity | discriminate ]).
  cbn [andb]. intros H. destruct (IH H) as (w & old & Hw & Hne).
  exists (S w), old. auto.
Qed.

(** In a stopping run every worker that is not inside a probe can make
    its move towards its return, and the watcher can end the run once
    every worker has returned. *)
Lemma stopping_ways (r : Run) :
  stopping r ->
  (forall w ws l, workers r !! w = Some ws -> wayOut w ws = Some l -> is_Some (step l r)) /\
  (watched r = false -> all_exited (workers r) = true -> is_Some (step WatcherDone r)).
Proof.
  intros [Hrun Hclosed Hwait]. split.
  - intros w ws l Hold Hl. rewrite Forall_lookup in Hwait. specialize (Hwait _ _ Hold).
    destruct ws; cbn in Hl; simplify_eq; unfold step; rewrite Hold.
    + destruct (jobs r); eauto.
    + rewrite Hclosed. eauto.
    + eauto.
    + rewrite Hwait. eauto.
    + eauto.
  - intros Hw Hall. unfold step. rewrite Hall, Hw. cbn. eauto.
Qed.

(** X15. [Stop] on a running check starts nothing new and lets every
    worker return.  Take a check started on a manager on which no worker
    of an earlier check is alive.  From the call of [Stop] to the next
    [Start], whatever the schedule and the calls made: the manager reports
    that no check is running; no worker takes the default case of its
    select, so no probe begins; every worker that is not inside a probe
    can make its move towards its return (from the head of the loop it
    takes the next job, from its select and from the pause wait it takes
    the stop case, a result it holds it appends); and the watcher can end
    the run once every worker has returned.  A worker inside a probe
    waits for the probe to return, which the stop does not bring about. *)
Theorem Stop_lets_the_run_end (h0 : Chans) (earlier : list (ProxyCheckRequest * list Label))
    (rq : ProxyCheckRequest) (m : Manager.t) (h : Chans)
    (r0 r r1 r' : Run) (ls0 ls : list Label) (force : bool) :
  afterChecks earlier (Manager.NewManager h0) = Some (m, h) ->
  wf_chans h -> Start rq m h = Started r0 -> exec ls0 r0 = Some r ->
  Manager.IsRunning (mgr r) = true ->
  step (CallStop force) r = Some r1 -> exec ls r1 = Some r' ->
  Manager.IsRunning (mgr r') = false /\
  Forall (fun l => beginsProbe l = false) ls /\
  (forall w ws l, workers r' !! w = Some ws -> wayOut w ws = Some l -> is_Some (step l r')) /\
  (completed r' = false -> all_exited (workers r') = true -> is_Some (step WatcherDone r')).
Proof.
  intros _ Hwf Hstart Hexec0 Hrun Hstop Hexec.
  assert (S1 : stopping r1).
  { eapply Stop_stopping; eauto.
    - eapply run_ctl; eauto.
    - eapply run_waitOnStop; eauto. }
  clear - S1 Hexec.
  revert r1 S1 Hexec. induction ls as [ | l ls IH ]; intros r1 S1 Hexec; cbn in Hexec.
  - simplify_eq. split; [ exact (st_running _ S1) | ]. split; [ constructor | ].
    apply stopping_ways. exact S1.
  - destruct (step l r1) as [r2 | ] eqn:Hs; [ | discriminate ].
    destruct (step_stopping l r1 r2 S1 Hs) as [S2 Hb].
    destruct (IH r2 S2 Hexec) as (H1 & H2 & H3).
    split; [ exact H1 | ]. split; [ constructor; assumption | exact H3 ].
Qed.

(** On the sample run stopped while its worker was inside a probe, once
    the probe has returned: the worker holds the result and can append
    it. *)
Lemma Stop_lets_the_run_end_witness :
  Manager.IsRunning (mgr (after (stoppedMidProbe ++ [ProbeDone 0%nat liveLib 5]) twoProxies))
  = false /\
  Forall (fun l => beginsProbe l = false) [ProbeDone 0%nat liveLib 5] /\
  (forall w ws l,
     workers (after (stoppedMidProbe ++ [ProbeDone 0%nat liveLib 5]) twoProxies) !! w = Some ws ->
     wayOut w ws = Some l ->
     is_Some (step l (after (stoppedMidProbe ++ [ProbeDone 0%nat liveLib 5]) twoProxies))) /\
  (completed (after (stoppedMidProbe ++ [ProbeDone 0%nat liveLib 5]) twoProxies) = false ->
   all_exited (workers (after (stoppedMidProbe ++ [ProbeDone 0%nat liveLib 5]) twoProxies))
   = true ->
   is_Some (step WatcherDone
              (after (stoppedMidProbe ++ [ProbeDone 0%nat liveLib 5]) twoProxies))).
Proof.
  apply (Stop_lets_the_run_end emptyChans [] twoProxies freshManager freshChans
           (startedRun twoProxies)
           (after [Dequeue 0; SelectDefault 0]%nat twoProxies)
           (after stoppedMidProbe twoProxies)
           (after (stoppedMidProbe ++ [ProbeDone 0%nat liveLib 5]) twoProxies)
           [Dequeue 0; SelectDefault 0]%nat
           [ProbeDone 0%nat liveLib 5] true).
  - reflexivity.
  - exact freshChans_wf.
  - vm_compute; reflexivity.
  - vm_compute; reflexivity.
  - vm_compute; reflexivity.
  - vm_compute; reflexivity.
  - vm_compute; reflexivity.
Defined.

(** ** Resume and the forced calls *)



(** A worker at its select when neither the stop nor the pause channel of
    the manager is closed can only take the default case. *)
Lemma select_open (r : Run) (w : nat) (p : string) :
  workers r !! w = Some (AtSelect p) ->
  is_closed (Manager.stopChan (mgr r)) (chans r) = false ->
  is_closed (Manager.pauseChan (mgr r)) (chans r) = false ->
  step (SelectStop w) r = None /\ step (SelectPause w) r = None /\
  exists r', step (SelectDefault w) r = Some r' /\ workers r' !! w = Some (Probing p).
Proof.
  intros Hw Hs Hp. unfold step. rewrite Hw, Hs, Hp. cbn [negb andb].
  split; [ reflexivity | ]. split; [ reflexivity | ].
  eexists. split; [ reflexivity | ]. cbn. eapply lookup_set; exact Hw.
Qed.



(** X17. The forced calls swap the channel they close.  [ForceStop] on a
    running check marks it as not running, sets the count of paused
    workers to 0 and closes the stop channel, so every worker in the pause
    wait can return; [ForcePause] on a check that is not paused marks it
    as paused and sets the count of paused workers to the count of
    workers.  But each at once gives the manager a new, open channel in
    place of the one it closed: a worker that reaches its select after the
    call can take neither the stop nor the pause case, and begins its
    probe. *)
Theorem forced_calls_swap_the_channel_they_close (rq : ProxyCheckRequest) (m : Manager.t)
    (h : Chans) (r0 r : Run) (ls : list Label) :
  wf_chans h -> Start rq m h = Started r0 -> exec ls r0 = Some r ->
  Manager.IsRunning (mgr r) = true ->
  (exists r',
     step CallForceStop r = Some r' /\
     Manager.IsRunning (mgr r') = false /\ Manager.IsPaused (mgr r') = false /\
     Manager.GetPausedWorkerCount (mgr r') = 0 /\
     (forall w resume stop,
        workers r !! w = Some (Blocked resume stop) ->
        exists r'', step (WakeStop w) r' = Some r'' /\ workers r'' !! w = Some Exited) /\
     (forall w p,
        workers r !! w = Some (AtSelect p) ->
        step (SelectStop w) r' = None /\ step (SelectPause w) r' = None /\
        exists r'', step (SelectDefault w) r' = Some r'' /\
                    workers r'' !! w = Some (Probing p))) /\
  (Manager.IsPaused (mgr r) = false ->
   exists r',
     step CallForcePause r = Some r' /\
     Manager.IsRunning (mgr r') = true /\ Manager.IsPaused (mgr r') = true /\
     Manager.GetPausedWorkerCount (mgr r') = GoInt.wrap32 (Manager.GetWorkerCount (mgr r)) /\
     (forall w p,
        workers r !! w = Some (AtSelect p) ->
        step (SelectStop w) r' = None /\ step (SelectPause w) r' = None /\
        exists r'', step (SelectDefault w) r' = Some r'' /\
                    workers r'' !! w = Some (Probing p))).
Proof.
  intros Hwf Hstart Hexec Hrun. unfold Manager.IsRunning, Manager.IsPaused in *.
  pose proof (run_ctl rq m h r0 r ls Hwf Hstart Hexec) as C.
  pose proof (run_waitOnStop rq m h r0 r ls Hstart Hexec Hrun) as W.
  pose proof (c_wf _ _ C) as Hwfr. pose proof (c_stop _ _ C Hrun) as Hstop.
  destruct (c_made _ _ C) as (Hm1 & Hm2 & Hm3).
  destruct (c_distinct _ _ C) as (Hd1 & Hd2 & Hd3).
  assert (Hfresh : forall c d n, (next_chan (chans r) <= c)%nat -> (d < next_chan (chans r))%nat ->
            is_closed c (mkChans n (d :: closed (chans r))) = false).
  { intros c d n Hc Hd. unfold is_closed. cbn.
    rewrite (proj2 (Nat.eqb_neq c d) ltac:(lia)). cbn [orb].
    apply (is_closed_fresh (chans r) c n Hwfr Hc). }
  split.
  - unfold step at 1. unfold Manager.ForceStop, close_chan, make_chan.
    rewrite Hrun, Hstop. cbn [negb fst snd next_chan closed].
    eexists. split; [ reflexivity | ].
    cbn [mgr set_mgr Manager.running Manager.paused Manager.GetPausedWorkerCount
         Manager.pausedWorkerCount].
    split; [ reflexivity | ]. split; [ reflexivity | ]. split; [ reflexivity | ]. split.
    + intros w resume stop Hw. rewrite Forall_lookup in W. specialize (W _ _ Hw). cbn in W.
      subst stop. unfold step. cbn [workers set_mgr chans]. rewrite Hw.
      assert (Hc : is_closed (Manager.stopChan (mgr r))
                     (mkChans (S (S (S (next_chan (chans r)))))
                              (Manager.stopChan (mgr r) :: closed (chans r))) = true).
      { unfold is_closed. cbn. rewrite Nat.eqb_refl. reflexivity. }
      rewrite Hc. eexists. split; [ reflexivity | ]. cbn. eapply lookup_set; exact Hw.
    + intros w p Hw. apply select_open; cbn [workers set_mgr chans mgr Manager.stopChan
                                              Manager.pauseChan]; [ exact Hw | | ];
        apply Hfresh; lia.
  - intros Hpaused. unfold step at 1. unfold Manager.ForcePause, close_chan, make_chan.
    rewrite Hrun, Hpaused, (c_pause _ _ C Hrun Hpaused). cbn [negb orb fst snd next_chan closed].
    eexists. split; [ reflexivity | ].
    cbn [mgr set_mgr Manager.running Manager.paused Manager.GetPausedWorkerCount
         Manager.pausedWorkerCount Manager.GetWorkerCount].
    split; [ reflexivity | ]. split; [ reflexivity | ]. split; [ reflexivity | ].
    intros w p Hw. apply select_open; cbn [workers set_mgr chans mgr Manager.stopChan
                                            Manager.pauseChan]; [ exact Hw | | ].
    + unfold is_closed in *. cbn.
      rewrite (proj2 (Nat.eqb_neq _ _) Hd1). exact Hstop.
    + apply Hfresh; lia.
Qed.

Lemma forced_calls_swap_the_channel_they_close_witness :
  (exists r',
     step CallForceStop (after [Dequeue 0%nat] twoProxies) = Some r' /\
     Manager.IsRunning (mgr r') = false /\ Manager.IsPaused (mgr r') = false /\
     Manager.GetPausedWorkerCount (mgr r') = 0 /\
     (forall w resume stop,
        workers (after [Dequeue 0%nat] twoProxies) !! w = Some (Blocked resume stop) ->
        exists r'', step (WakeStop w) r' = Some r'' /\ workers r'' !! w = Some Exited) /\
     (forall w p,
        workers (after [Dequeue 0%nat] twoProxies) !! w = Some (AtSelect p) ->
        step (SelectStop w) r' = None /\ step (SelectPause w) r' = None /\
        exists r'', step (SelectDefault w) r' = Some r'' /\
                    workers r'' !! w = Some (Probing p))) /\
  (Manager.IsPaused (mgr (after [Dequeue 0%nat] twoProxies)) = false ->
   exists r',
     step CallForcePause (after [Dequeue 0%nat] twoProxies) = Some r' /\
     Manager.IsRunning (mgr r') = true /\ Manager.IsPaused (mgr r') = true /\
     Manager.GetPausedWorkerCount (mgr r')
     = GoInt.wrap32 (Manager.GetWorkerCount (mgr (after [Dequeue 0%nat] twoProxies))) /\
     (forall w p,
        workers (after [Dequeue 0%nat] twoProxies) !! w = Some (AtSelect p) ->
        step (SelectStop w) r' = None /\ step (SelectPause w) r' = None /\
        exists r'', step (SelectDefault w) r' = Some r'' /\
                    workers r'' !! w = Some (Probing p))).
Proof.
  apply (forced_calls_swap_the_channel_they_close twoProxies freshManager freshChans
           (startedRun twoProxies) (after [Dequeue 0%nat] twoProxies) [Dequeue 0%nat]).
  - exact freshChans_wf.
  - vm_compute; reflexivity.
  - vm_compute; reflexivity.
  - vm_compute; reflexivity.
Defined.

(** ** The end of a run *)

Lemma step_ended (rq : ProxyCheckRequest) (l : Label) (r r' : Run) :
  sourced rq r' -> ended r -> step l r = Some r' -> ended r'.
Proof.
  intros S E Hs. unfold ended in *. intros Hw'.
  split; [ | split; [ | exact (s_watched _ _ S Hw') ] ].
  - destruct (internal l) eqn:Hi.
    + destruct (Label_eq_dec_watcher l) as [-> | Hne].
      * apply (watcher_move r r' Hs).
      * destruct (internal_control l r r' Hi Hs) as (_ & _ & _ & _ & _ & Hrun).
        apply Hrun. apply E.
        destruct l; try discriminate Hi; try congruence; unfold step in Hs;
          repeat case_match; simplify_eq; exact Hw'.
    + destruct (call_control l r r' Hi Hs) as (_ & _ & Hwd & _ & Hrun & _).
      rewrite Hwd in Hw'. destruct (E Hw') as (Hr & _).
      destruct (Manager.running (mgr r')) eqn:Hr'; [ | reflexivity ].
      destruct (Hrun eq_refl) as [Hc _]. congruence.
  - destruct (internal l) eqn:Hi.
    + destruct (Label_eq_dec_watcher l) as [-> | Hne].
      * apply (watcher_move r r' Hs).
      * assert (Hw : watched r = true).
        { destruct l; try discriminate Hi; try congruence; unfold step in Hs;
            repeat case_match; simplify_eq; exact Hw'. }
        destruct (E Hw) as (_ & Hp & _).
        destruct l; try discriminate Hi; try congruence; unfold step in Hs;
          repeat case_match; simplify_eq; exact Hp.
    + destruct (call_control l r r' Hi Hs) as (_ & _ & Hwd & _ & _ & Hm & _).
      rewrite Hwd in Hw'. destruct (E Hw') as (Hr & Hp & _).
      destruct (Hm Hr) as [-> | [-> | [count ->]]]; [ exact Hp | | ];
        unfold step in Hs; simplify_eq; cbn; [ | exact Hp ].
      unfold Manager.ClearResults. destruct (_ && _); exact Hp.
Qed.

(** X18. Take a check started on a manager on which no worker of an
    earlier check is alive.  Once its watcher has ended it, and until the
    next [Start], the check is final: no worker and no watcher moves any
    more, the manager reports neither a running nor a paused check
    whatever is called ([Pause], [Resume], [Stop] and the forced calls
    change nothing), and the result collection stays as it is until
    [ClearResults] empties it. *)
Theorem completed_run_is_final (h0 : Chans) (earlier : list (ProxyCheckRequest * list Label))
    (rq : ProxyCheckRequest) (m : Manager.t) (h : Chans)
    (r0 r r' : Run) (ls0 ls : list Label) :
  afterChecks earlier (Manager.NewManager h0) = Some (m, h) ->
  Start rq m h = Started r0 -> exec ls0 r0 = Some r -> completed r = true ->
  exec ls r = Some r' ->
  Forall (fun l => internal l = false) ls /\
  completed r' = true /\
  Manager.IsRunning (mgr r') = false /\ Manager.IsPaused (mgr r') = false /\
  (Manager.GetResults (mgr r') = Manager.GetResults (mgr r) \/ Manager.GetResults (mgr r') = []).
Proof.
  intros _ Hstart Hexec0 Hdone Hexec. unfold completed in *.
  assert (Hinv : sourced rq r /\ ended r).
  { eapply (exec_invariant (fun r => sourced rq r /\ ended r) (fun _ => True));
      [ | apply Forall_forall; auto | | exact Hexec0 ].
    - intros l r1 r2 _ [S E] Hs.
      assert (S2 : sourced rq r2) by (eapply step_sourced; eauto).
      split; [ exact S2 | eapply step_ended; eauto ].
    - split; [ eapply Start_sourced; eauto | ].
      unfold Start, make_chan in Hstart. repeat case_match; simplify_eq.
      intros Hw. discriminate Hw. }
  destruct Hinv as [S E]. clear Hstart Hexec0.
  revert r S E Hdone Hexec.
  induction ls as [ | l ls IH ]; intros r S E Hdone Hexec; cbn in Hexec.
  - simplify_eq. destruct (E Hdone) as (Hr & Hp & _).
    split; [ constructor | ]. auto.
  - destruct (step l r) as [r1 | ] eqn:Hs; [ | discriminate ].
    destruct (E Hdone) as (Hr & Hp & Hex).
    assert (Hi : internal l = false).
    { destruct (internal l) eqn:Hi; [ | reflexivity ]. exfalso.
      destruct (Label_eq_dec_watcher l) as [-> | Hne].
      - destruct (watcher_move r r1 Hs) as (_ & _ & _ & _ & _ & Hw & _). congruence.
      - rewrite Forall_lookup in Hex.
        destruct l; try discriminate Hi; try congruence; unfold step in Hs;
          match type of Hs with
          | context [workers r !! ?w] =>
              destruct (workers r !! w) as [ws | ] eqn:Hold; [ | discriminate Hs ];
              specialize (Hex _ _ Hold); subst ws; discriminate Hs
          end. }
    assert (S1 : sourced rq r1) by (eapply step_sourced; eauto).
    assert (E1 : ended r1) by (eapply step_ended; eauto).
    destruct (call_control l r r1 Hi Hs) as (_ & _ & Hwd & _ & _ & Hm & _).
    assert (Hdone1 : watched r1 = true) by congruence.
    destruct (IH r1 S1 E1 Hdone1 Hexec) as (H1 & H2 & H3 & H4 & H5).
    split; [ constructor; assumption | ]. split; [ exact H2 | ].
    split; [ exact H3 | ]. split; [ exact H4 | ].
    assert (Hres : Manager.GetResults (mgr r1) = Manager.GetResults (mgr r) \/
                   Manager.GetResults (mgr r1) = []).
    { destruct (step_data l r r1 Hs) as [[H _] | [(w & result & -> & _) | [_ ->]]];
        [ left; exact H | discriminate Hi | ].
      unfold Manager.ClearResults. destruct (_ && _); cbn; auto. }
    destruct H5 as [H5 | H5]; [ | right; exact H5 ].
    rewrite H5. exact Hres.
Qed.

Lemma completed_run_is_final_witness :
  Forall (fun l => internal l = false) [CallPause; CallStop true; CallResume] /\
  completed (after (oneLive ++ [CallPause; CallStop true; CallResume]) oneProxy) = true /\
  Manager.IsRunning (mgr (after (oneLive ++ [CallPause; CallStop true; CallResume]) oneProxy))
  = false /\
  Manager.IsPaused (mgr (after (oneLive ++ [CallPause; CallStop true; CallResume]) oneProxy))
  = false /\
  (Manager.GetResults (mgr (after (oneLive ++ [CallPause; CallStop true; CallResume]) oneProxy))
   = Manager.GetResults (mgr (after oneLive oneProxy)) \/
   Manager.GetResults (mgr (after (oneLive ++ [CallPause; CallStop true; CallResume]) oneProxy))
   = []).
Proof.
  apply (completed_run_is_final emptyChans [] oneProxy freshManager freshChans
           (startedRun oneProxy) (after oneLive oneProxy)
           (after (oneLive ++ [CallPause; CallStop true; CallResume]) oneProxy)
           oneLive [CallPause; CallStop true; CallResume]).
  - reflexivity.
  - vm_compute; reflexivity.
  - vm_compute; reflexivity.
  - vm_compute; reflexivity.
  - vm_compute; reflexivity.
Defined.

(** ** A check with nothing to do *)

Lemma step_idle (l : Label) (r r' : Run) :
  idle r -> step l r = Some r' -> idle r' /\ isProbe l = false /\ beginsProbe l = false.
Proof.
  intros [Hres Hcon Hq Hws He] Hs.
  assert (Hat : forall w ws, workers r !! w = Some ws -> ws = AtRange \/ ws = Exited).
  { intros w ws Hw. rewrite Forall_lookup in Hws. exact (Hws _ _ Hw). }
  assert (Hset : forall w, Forall (fun ws => ws = AtRange \/ ws = Exited)
                             (<[w := Exited]> (workers r))).
  { intros w. apply Forall_insert; [ exact Hws | right; reflexivity ]. }
  destruct l; unfold step in Hs.
  1-9: destruct (workers r !! w) as [ws | ] eqn:Hw; [ | discriminate Hs ];
       destruct (Hat _ _ Hw) as [-> | ->]; try discriminate Hs.
  - destruct (jobs r) as [ | proxy rest ] eqn:Hj.
    + simplify_eq. split; [ | auto ].
      constructor; cbn; rewrite ?app_nil_r; auto.
    + destruct He as [He | He]; [ discriminate He | ].
      rewrite He in Hw. discriminate Hw.
  - destruct (all_exited (workers r) && negb (watched r)); [ | discriminate Hs ].
    simplify_eq. split; [ | auto ].
    constructor; cbn; auto.
    + unfold connections in *. rewrite List.filter_app, Hcon. reflexivity.
    + unfold quickChecks in *. rewrite omap_app, Hq. reflexivity.
  - unfold Manager.Pause, close_chan in Hs. repeat case_match; simplify_eq;
      (split; [ constructor; cbn; auto | auto ]).
  - unfold Manager.Resume, close_chan, make_chan in Hs. repeat case_match; simplify_eq;
      (split; [ constructor; cbn; auto | auto ]).
  - unfold Manager.Stop, make_chan in Hs. repeat case_match; simplify_eq;
      (split; [ constructor; cbn; auto | auto ]).
  - unfold Manager.ForcePause, close_chan, make_chan in Hs. repeat case_match; simplify_eq;
      (split; [ constructor; cbn; auto | auto ]).
  - unfold Manager.ForceStop, close_chan, make_chan in Hs. repeat case_match; simplify_eq;
      (split; [ constructor; cbn; auto | auto ]).
  - simplify_eq. split; [ | auto ]. unfold Manager.ClearResults.
    destruct (_ && _); constructor; cbn; auto.
  - simplify_eq. split; [ | auto ]. constructor; cbn; auto.
Qed.

(** X19. A check started on an empty list of proxies, or with zero
    threads, on a manager on which no worker of an earlier check is alive,
    does nothing: from its [Start] to the next, whatever the workers, the
    watcher and the callers do, the result collection stays empty ([Start]
    empties what an earlier check left), no connection is made, no
    detection runs and no worker begins a probe.  With zero threads the
    proxies of the request are never dequeued, and as long as the watcher
    has not ended the run it can: the check completes with no result at
    all. *)
Theorem nothing_to_do_probes_nothing (h0 : Chans)
    (earlier : list (ProxyCheckRequest * list Label))
    (rq : ProxyCheckRequest) (m : Manager.t) (h : Chans) (r0 r : Run) (ls : list Label) :
  afterChecks earlier (Manager.NewManager h0) = Some (m, h) ->
  Start rq m h = Started r0 -> ProxyList rq = [] \/ Threads rq = 0 ->
  exec ls r0 = Some r ->
  Manager.GetResults (mgr r) = [] /\
  connections (trace r) = [] /\ quickChecks (trace r) = [] /\
  Forall (fun l => isProbe l = false /\ beginsProbe l = false) ls /\
  (Threads rq = 0 ->
   jobs r = ProxyList rq /\
   (completed r = false ->
    exists r', step WatcherDone r = Some r' /\ completed r' = true /\
               Manager.IsRunning (mgr r') = false /\ Manager.GetResults (mgr r') = [])).
Proof.
  intros _ Hstart Hnone Hexec.
  assert (H0 : idle r0 /\ (Threads rq = 0 -> jobs r0 = ProxyList rq /\ workers r0 = [])).
  { unfold Start, make_chan in Hstart. repeat case_match; simplify_eq. cbn.
    split; [ | intros ->; auto ].
    constructor; cbn; auto.
    - apply Forall_forall. intros ws Hin. apply list_elem_of_In, repeat_spec in Hin. auto.
    - destruct Hnone as [-> | ->]; auto. }
  clear Hstart Hnone. revert r0 r H0 Hexec.
  induction ls as [ | l ls IH ]; intros r0 r [I Z0] Hexec; cbn in Hexec.
  - simplify_eq. destruct I as [Hres Hcon Hq Hws He].
    split; [ exact Hres | ]. split; [ exact Hcon | ]. split; [ exact Hq | ].
    split; [ constructor | ].
    intros Hz. destruct (Z0 Hz) as [Hj Hw]. split; [ exact Hj | ].
    unfold completed, step. intros ->. rewrite Hw. cbn.
    eexists. split; [ reflexivity | ]. cbn. auto.
  - destruct (step l r0) as [r1 | ] eqn:Hs; [ | discriminate ].
    destruct (step_idle l r0 r1 I Hs) as (I1 & Hp & Hb).
    assert (Z1 : Threads rq = 0 -> jobs r1 = ProxyList rq /\ workers r1 = []).
    { intros Hz. destruct (Z0 Hz) as [Hj Hw].
      destruct l; unfold step in Hs; rewrite ?Hw in Hs; try discriminate Hs;
        repeat case_match; simplify_eq; cbn; auto. }
    destruct (IH r1 r (conj I1 Z1) Hexec) as (H1 & H2 & H3 & H4 & H5).
    split; [ exact H1 | ]. split; [ exact H2 | ]. split; [ exact H3 | ].
    split; [ constructor; auto | exact H5 ].
Qed.

(** On a manager that holds the result of an earlier check. *)
Lemma nothing_to_do_probes_nothing_witness :
  Manager.GetResults (mgr (afterAgain [CallPause; CallResume] noThreads)) = [] /\
  connections (trace (afterAgain [CallPause; CallResume] noThreads)) = [] /\
  quickChecks (trace (afterAgain [CallPause; CallResume] noThreads)) = [] /\
  Forall (fun l => isProbe l = false /\ beginsProbe l = false) [CallPause; CallResume] /\
  (Threads noThreads = 0 ->
   jobs (afterAgain [CallPause; CallResume] noThreads) = ProxyList noThreads /\
   (completed (afterAgain [CallPause; CallResume] noThreads) = false ->
    exists r', step WatcherDone (afterAgain [CallPause; CallResume] noThreads) = Some r' /\
               completed r' = true /\
               Manager.IsRunning (mgr r') = false /\ Manager.GetResults (mgr r') = [])).
Proof.
  apply (nothing_to_do_probes_nothing emptyChans [(oneProxy, oneLive)]
           noThreads usedManager usedChans
           (startedAgain noThreads) (afterAgain [CallPause; CallResume] noThreads)
           [CallPause; CallResume]).
  - vm_compute; reflexivity.
  - vm_compute; reflexivity.
  - right; reflexivity.
  - vm_compute; reflexivity.
Defined.

(** ** The App over the manager *)

Lemma collect_spec {A} (statusOf proxyOf : A -> string) (results : list A)
    (workingProxies : list string) :
  App.collect statusOf proxyOf results workingProxies
  = workingProxies
    ++ (proxyOf <$> List.filter (fun result => App.isWorking (statusOf result)) results).
Proof.
  revert workingProxies.
  induction results as [ | result rest IH ]; intros workingProxies; cbn.
  - rewrite app_nil_r. reflexivity.
  - rewrite IH. destruct (App.isWorking (statusOf result)); cbn; [ | reflexivity ].
    rewrite <- app_assoc. reflexivity.
Qed.

(** Among results that are LIVE or DEAD, the first loop of
    [GetWorkingProxies] takes the LIVE ones and the second takes none. *)
Lemma working_of_live_or_dead (ToLower : string -> string) (rs : list ProxyResult) :
  ToLower "LIVE" = "live" -> ToLower "DEAD" = "dead" ->
  Forall (fun res => Status res = "LIVE" \/ Status res = "DEAD") rs ->
  backend.Proxy
    <$> List.filter (fun result => App.isWorking (ToLower (backend.Status result)))
                    (App.ofManager <$> rs)
  = Proxy <$> List.filter (fun res => String.eqb (Status res) "LIVE") rs /\
  List.filter (fun result => App.isWorking (Status result)) rs = [].
Proof.
  intros Hlive Hdead Hall.
  induction Hall as [ | res rs Hres _ [IH1 IH2] ]; [ split; reflexivity | ].
  cbn. destruct Hres as [-> | ->]; rewrite ?Hlive, ?Hdead; cbn; rewrite IH1; auto.
Qed.

(** X20. After [updateResults] has copied the results of a run, the list
    [GetWorkingProxies] returns is the list of the endpoints of the LIVE
    results of that copy, in the order they were recorded; this on the
    one assumption that strings.ToLower turns LIVE into live and DEAD into
    dead.  The second loop, over the results the manager holds when the
    call is made, compares the status with the lower-case words without
    lowering it, so it adds no endpoint of any result a run has recorded:
    when the copy has no LIVE result the list is empty whatever the
    manager holds. *)
Theorem working_proxies_are_the_live_results (ToLower : string -> string)
    (rq rq' : ProxyCheckRequest) (m m' : Manager.t) (h h' : Chans)
    (r0 r r0' r' : Run) (ls ls' : list Label) :
  ToLower "LIVE" = "live" -> ToLower "DEAD" = "dead" ->
  Start rq m h = Started r0 -> exec ls r0 = Some r ->
  Start rq' m' h' = Started r0' -> exec ls' r0' = Some r' ->
  snd (App.GetWorkingProxies ToLower (fst (App.updateResults (mgr r))) (mgr r'))
  = Proxy <$> List.filter (fun res => String.eqb (Status res) "LIVE")
                          (Manager.GetResults (mgr r)).
Proof.
  intros Hlive Hdead Hstart Hexec Hstart' Hexec'.
  assert (Hrun : forall rq m h r0 r ls,
            Start rq m h = Started r0 -> exec ls r0 = Some r ->
            Forall (fun res => Status res = "LIVE" \/ Status res = "DEAD")
                   (Manager.results (mgr r))).
  { clear. intros rq m h r0 r ls Hstart Hexec.
    assert (HQ : forall lib proxy elapsed, In proxy (ProxyList rq) ->
                   recorded rq (snd (checkProxy lib rq proxy elapsed))).
    { intros. apply checkProxy_recorded. assumption. }
    destruct (run_carried rq (recorded rq) m h r0 r ls HQ Hstart Hexec) as [_ [Hres _]].
    eapply Forall_impl; [ exact Hres | ].
    intros res Hrec. destruct (r_outcome _ _ Hrec) as [[-> _] | [-> _]]; auto. }
  destruct (working_of_live_or_dead ToLower _ Hlive Hdead (Hrun _ _ _ _ _ _ Hstart Hexec))
    as [Hfirst _].
  destruct (working_of_live_or_dead ToLower _ Hlive Hdead (Hrun _ _ _ _ _ _ Hstart' Hexec'))
    as [_ Hsecond].
  unfold App.GetWorkingProxies, App.updateResults, Manager.GetResults in *. cbn [fst].
  rewrite !collect_spec. cbn [app].
  rewrite Hfirst, Hsecond. cbn [fmap list_fmap]. rewrite app_nil_r.
  destruct (0 <? _); reflexivity.
Qed.

Lemma working_proxies_are_the_live_results_witness :
  snd (App.GetWorkingProxies asciiLower
         (fst (App.updateResults (mgr (after pausedOnce twoProxies))))
         (mgr (after oneLive oneProxy)))
  = Proxy <$> List.filter (fun res => String.eqb (Status res) "LIVE")
                          (Manager.GetResults (mgr (after pausedOnce twoProxies))).
Proof.
  apply (working_proxies_are_the_live_results asciiLower twoProxies oneProxy
           freshManager freshManager freshChans freshChans
           (startedRun twoProxies) (after pausedOnce twoProxies)
           (startedRun oneProxy) (after oneLive oneProxy) pausedOnce oneLive).
  - vm_compute; reflexivity.
  - vm_compute; reflexivity.
  - vm_compute; reflexivity.
  - vm_compute; reflexivity.
  - vm_compute; reflexivity.
  - vm_compute; reflexivity.
Defined.

(** Only [ForcePause] gives the count of paused workers a value other
    than 0. *)
Lemma step_paused_count (l : Label) (r r' : Run) :
  notForcePause l = true -> Manager.pausedWorkerCount (mgr r) = 0 ->
  step l r = Some r' -> Manager.pausedWorkerCount (mgr r') = 0.
Proof.
  intros Hl H0 Hs. destruct l; try discriminate Hl; unfold step in Hs.
  1-9: repeat case_match; simplify_eq; cbn; auto.
  - repeat case_match; simplify_eq; cbn; auto.
  - unfold Manager.Pause, close_chan in Hs. repeat case_match; simplify_eq; cbn; auto.
  - unfold Manager.Resume, close_chan, make_chan in Hs. repeat case_match; simplify_eq; cbn; auto.
  - unfold Manager.Stop, make_chan in Hs. repeat case_match; simplify_eq; cbn; auto.
  - unfold Manager.ForceStop, close_chan, make_chan in Hs. repeat case_match; simplify_eq; cbn; auto.
  - simplify_eq. cbn. unfold Manager.ClearResults. destruct (_ && _); cbn; auto.
  - simplify_eq. cbn. auto.
Qed.

Lemma run_paused_count (rq : ProxyCheckRequest) (m : Manager.t) (h : Chans)
    (r0 r : Run) (ls : list Label) :
  Start rq m h = Started r0 -> forallb notForcePause ls = true -> exec ls r0 = Some r ->
  Manager.GetPausedWorkerCount (mgr r) = 0.
Proof.
  intros Hstart Hls Hexec. unfold Manager.GetPausedWorkerCount.
  eapply (exec_invariant (fun r => Manager.pausedWorkerCount (mgr r) = 0)
                         (fun l => notForcePause l = true));
    [ | | | exact Hexec ].
  - intros l r1 r2 Hl H0 Hs. eapply step_paused_count; eauto.
  - apply Forall_forall. intros l Hin. rewrite forallb_forall in Hls.
    apply Hls. apply list_elem_of_In. exact Hin.
  - unfold Start, make_chan in Hstart. repeat case_match; simplify_eq. reflexivity.
Qed.

Lemma totalWorkers_positive (m0 m1 : Manager.t) : 1 <= App.totalWorkers m0 m1.
Proof.
  unfold App.totalWorkers. cbv zeta.
  destruct (Manager.GetWorkerCount m0 <=? 0) eqn:H0.
  - destruct (ThreadCount (Manager.GetStats m1) <=? 0) eqn:H1; lia.
  - rewrite H0. lia.
Qed.

Lemma poll_counts_no_worker (timeout : nat -> bool) (view : nat -> Manager.t)
    (totalWorkers : Z) (attempts i : nat) :
  1 <= totalWorkers -> (forall j, Manager.GetPausedWorkerCount (view j) = 0) ->
  exists n reason,
    (n <= attempts)%nat /\
    (forall j, (j < n)%nat -> timeout (i + j)%nat = false) /\
    ((n < attempts)%nat /\ timeout (i + n)%nat = true /\
       reason = "Pause timeout reached, forcing paused state"%string \/
     n = attempts /\ reason = "Maximum pause attempts reached, forcing paused state"%string) /\
    App.poll timeout view totalWorkers attempts i
    = noProgress totalWorkers n
      ++ [ backend.Emit "check-status" (backend.Text "paused");
           backend.Emit "log" (backend.Text reason) ].
Proof.
  intros Htotal Hzero. revert i.
  induction attempts as [ | attempts IH ]; intros i.
  - exists 0%nat, "Maximum pause attempts reached, forcing paused state"%string.
    split; [ lia | ]. split; [ intros j Hj; lia | ]. split; [ right; auto | reflexivity ].
  - cbn [App.poll]. destruct (timeout i) eqn:Ht.
    + exists 0%nat, "Pause timeout reached, forcing paused state"%string.
      split; [ lia | ]. split; [ intros j Hj; lia | ].
      split; [ left; rewrite Nat.add_0_r; split; [ lia | auto ] | reflexivity ].
    + cbv zeta. rewrite Hzero.
      replace (totalWorkers <=? 0) with false by (symmetry; apply Z.leb_gt; lia).
      cbn [andb].
      destruct (IH (S i)) as (n & reason & Hn & Hbefore & Hend & Heq).
      exists (S n), reason. split; [ lia | ]. split; [ | split ].
      * intros [ | j ] Hj; [ rewrite Nat.add_0_r; exact Ht | ].
        rewrite Nat.add_succ_r. apply (Hbefore j). lia.
      * rewrite Nat.add_succ_r.
        destruct Hend as [(Hlt & Hto & Hr) | (Hlt & Hr)]; [ left | right ]; repeat split;
          auto; lia.
      * rewrite Heq. reflexivity.
Qed.

(** X21. The goroutine that follows a pause ([PauseCheck]) reads the count
    of paused workers at most 300 times.  During a run that count is 0 at
    every moment unless [ForcePause] is called, which the App does not
    do: no worker, and neither [Pause], [Resume], [Stop], [ForceStop],
    [ClearResults] nor [SetWorkerCount], gives it another value.  So the
    goroutine takes a count of workers of at least 1, every progress
    event it emits reports 0 paused workers, it never reports that all
    workers stopped, and it ends with the check status paused either at
    the first poll that finds the timer fired or, after 300 polls, on the
    attempts limit. *)
Theorem pause_tracker_counts_no_worker (rq : ProxyCheckRequest) (m m0 m1 : Manager.t)
    (h : Chans) (r0 : Run) (sched : nat -> list Label) (state : nat -> Run)
    (timeout : nat -> bool) :
  Start rq m h = Started r0 ->
  (forall i, forallb notForcePause (sched i) = true) ->
  (forall i, exec (sched i) r0 = Some (state i)) ->
  1 <= App.totalWorkers m0 m1 /\
  exists n reason,
    (n <= 300)%nat /\
    (forall j, (j < n)%nat -> timeout j = false) /\
    ((n < 300)%nat /\ timeout n = true /\
       reason = "Pause timeout reached, forcing paused state"%string \/
     n = 300%nat /\ reason = "Maximum pause attempts reached, forcing paused state"%string) /\
    App.pauseTracker m0 m1 timeout (fun i => mgr (state i))
    = [ backend.Emit "check-status" (backend.Text "pausing");
        backend.Emit "log"
          (backend.Text ("Pausing " +:+ pretty (App.totalWorkers m0 m1) +:+ " workers...")) ]
      ++ noProgress (App.totalWorkers m0 m1) n
      ++ [ backend.Emit "check-status" (backend.Text "paused");
           backend.Emit "log" (backend.Text reason) ].
Proof.
  intros Hstart Hsched Hstate.
  pose proof (totalWorkers_positive m0 m1) as Htotal.
  split; [ exact Htotal | ].
  destruct (poll_counts_no_worker timeout (fun i => mgr (state i)) (App.totalWorkers m0 m1)
              300 0 Htotal) as (n & reason & Hn & Hbefore & Hend & Heq).
  { intros j. exact (run_paused_count rq m h r0 (state j) (sched j) Hstart (Hsched j) (Hstate j)). }
  exists n, reason. split; [ exact Hn | ]. split; [ exact Hbefore | ].
  split; [ exact Hend | ].
  unfold App.pauseTracker. cbv zeta. rewrite Heq. reflexivity.
Qed.

Lemma pause_tracker_counts_no_worker_witness :
  1 <= App.totalWorkers (mgr (after [CallPause] twoProxies)) (mgr (after [CallPause] twoProxies)) /\
  exists n reason,
    (n <= 300)%nat /\
    (forall j, (j < n)%nat -> Nat.leb 2 j = false) /\
    ((n < 300)%nat /\ Nat.leb 2 n = true /\
       reason = "Pause timeout reached, forcing paused state"%string \/
     n = 300%nat /\ reason = "Maximum pause attempts reached, forcing paused state"%string) /\
    App.pauseTracker (mgr (after [CallPause] twoProxies)) (mgr (after [CallPause] twoProxies))
                     (Nat.leb 2) (fun _ => mgr (after pausedMidProbe twoProxies))
    = [ backend.Emit "check-status" (backend.Text "pausing");
        backend.Emit "log"
          (backend.Text ("Pausing "
                         +:+ pretty (App.totalWorkers (mgr (after [CallPause] twoProxies))
                                                      (mgr (after [CallPause] twoProxies)))
                         +:+ " workers...")) ]
      ++ noProgress (App.totalWorkers (mgr (after [CallPause] twoProxies))
                                      (mgr (after [CallPause] twoProxies))) n
      ++ [ backend.Emit "check-status" (backend.Text "paused");
           backend.Emit "log" (backend.Text reason) ].
Proof.
  apply (pause_tracker_counts_no_worker twoProxies freshManager
           (mgr (after [CallPause] twoProxies)) (mgr (after [CallPause] twoProxies))
           freshChans (startedRun twoProxies)
           (fun _ => pausedMidProbe) (fun _ => after pausedMidProbe twoProxies) (Nat.leb 2)).
  - vm_compute; reflexivity.
  - intros i; vm_compute; reflexivity.
  - intros i; vm_compute; reflexivity.
Defined.

(** ** While every worker is parked *)





